(** * Subscription and credit-ledger engine

    A shallow embedding of [src/services/subscriptionService.js] and of the
    code around it (the controllers of the usage, subscription, admin and
    user routes, the Stripe webhook and the renewal script), together with
    the properties of the engine: credit grants on payment, the single
    active subscription per user, credit consumption, batch renewal,
    referral accrual and cancellation.

    The Prisma client is modelled as a store of tables (lists of rows in
    insertion order) behind an environment that may reject any call; a
    [$transaction] rolls the store back when its body throws.  JavaScript
    numbers that carry money are binary64 floats, credit counts are
    integers, and a [Date] is its time value in milliseconds. *)

From Stdlib Require Import ZArith List String Bool Lia Floats DecimalString.
Import ListNotations.

Local Open Scope string_scope.
Local Open Scope Z_scope.

(** ** JavaScript [Date] arithmetic

    The time-value functions of ECMAScript (sections "Day Number and Time
    within Day", "Year Number", "Month Number", "Date Number", [MakeDay],
    [MakeDate]) on which [getMonth], [setMonth] and [setHours] are built.
    The process clock is taken to run in UTC, so [LocalTime] is the
    identity. *)
Module JsDate.

Definition msPerDay : Z := 86400000.

Definition Day (t : Z) : Z := t / msPerDay.

Definition TimeWithinDay (t : Z) : Z := t mod msPerDay.

Definition DaysInYear (y : Z) : Z :=
  if negb (y mod 4 =? 0) then 365
  else if negb (y mod 100 =? 0) then 366
  else if negb (y mod 400 =? 0) then 365
  else 366.

Definition DayFromYear (y : Z) : Z :=
  365 * (y - 1970) + (y - 1969) / 4 - (y - 1901) / 100 + (y - 1601) / 400.

Definition TimeFromYear (y : Z) : Z := msPerDay * DayFromYear y.

(** The largest [y] with [TimeFromYear y <= t]: an estimate from the mean
    length of a year, moved by one where it misses. *)
Definition YearFromTime (t : Z) : Z :=
  let y := 1970 + (Day t * 400) / 146097 in
  if TimeFromYear (y + 1) <=? t then y + 1
  else if t <? TimeFromYear y then y - 1
  else y.

(** 1 for a leap year, 0 otherwise. *)
Definition leapOf (y : Z) : Z := if DaysInYear y =? 366 then 1 else 0.

Definition InLeapYear (t : Z) : Z := leapOf (YearFromTime t).

Definition DayWithinYear (t : Z) : Z := Day t - DayFromYear (YearFromTime t).

(** Days of the year that come before month [m] (0 = January). *)
Definition daysBeforeMonth (leap m : Z) : Z :=
  if m <=? 0 then 0
  else if m =? 1 then 31
  else if m =? 2 then 59 + leap
  else if m =? 3 then 90 + leap
  else if m =? 4 then 120 + leap
  else if m =? 5 then 151 + leap
  else if m =? 6 then 181 + leap
  else if m =? 7 then 212 + leap
  else if m =? 8 then 243 + leap
  else if m =? 9 then 273 + leap
  else if m =? 10 then 304 + leap
  else 334 + leap.

Definition MonthFromTime (t : Z) : Z :=
  let d := DayWithinYear t in
  let leap := InLeapYear t in
  if d <? 31 then 0
  else if d <? 59 + leap then 1
  else if d <? 90 + leap then 2
  else if d <? 120 + leap then 3
  else if d <? 151 + leap then 4
  else if d <? 181 + leap then 5
  else if d <? 212 + leap then 6
  else if d <? 243 + leap then 7
  else if d <? 273 + leap then 8
  else if d <? 304 + leap then 9
  else if d <? 334 + leap then 10
  else 11.

Definition DateFromTime (t : Z) : Z :=
  DayWithinYear t - daysBeforeMonth (InLeapYear t) (MonthFromTime t) + 1.

(** [MakeDay]: the day number of day [date] of month [month] of [year];
    months beyond December carry into the year, days beyond the month's end
    carry into the next month. *)
Definition MakeDay (year month date : Z) : Z :=
  let ym := year + month / 12 in
  let mn := month mod 12 in
  DayFromYear ym + daysBeforeMonth (leapOf ym) mn + date - 1.

Definition MakeDate (day time : Z) : Z := day * msPerDay + time.

Definition getMonth (t : Z) : Z := MonthFromTime t.

(** [d.setMonth(month)]: same year, date and time of day, month replaced. *)
Definition setMonth (t month : Z) : Z :=
  MakeDate (MakeDay (YearFromTime t) month (DateFromTime t)) (TimeWithinDay t).

(** [d.setHours(0, 0, 0, 0)]: midnight of the same day. *)
Definition startOfDay (t : Z) : Z := MakeDate (Day t) 0.

(** [d.setMonth(d.getMonth() + n)], the only way the service moves a date. *)
Definition addMonths (t n : Z) : Z := setMonth t (getMonth t + n).

(** Day number of the first day of the month with index [i] (months counted
    from January of year 0). *)
Definition monthStart (i : Z) : Z := MakeDay 0 i 1.

(** Length of month [m] (0 = January) of a leap ([leap = 1]) or common
    year. *)
Definition daysInMonth (leap m : Z) : Z :=
  if m =? 1 then 28 + leap
  else if ((m =? 3) || (m =? 5) || (m =? 8) || (m =? 10))%bool then 30
  else 31.

(** Time value of a UTC calendar date, for writing examples. *)
Definition utc (year month1 date hour minute : Z) : Z :=
  MakeDate (MakeDay year (month1 - 1) date) (hour * 3600000 + minute * 60000).

End JsDate.

(** ** Rows of the store

    One record per Prisma model, with the columns the sources read or
    write.  Identifiers are strings (a plan is looked up by a code that is
    compared with both its id and its name). *)

Definition instant := Z.

Record User := mkUser {
  user_id : string;
  clerkUserId : string;
  email : string;
  user_name : string;
  referredById : option string
}.

Record Plan := mkPlan {
  plan_id : string;
  plan_name : string;
  priceMonthly : float;
  priceYearly : float;
  dailyCredits : Z;
  monthlyCredits : Z;
  isDaily : bool;
  plan_description : string
}.

Record Subscription := mkSubscription {
  sub_id : string;
  sub_userId : string;
  sub_planId : string;
  stripeSubscriptionId : option string;
  billingCycle : string;
  status : string;
  currentPeriodStart : instant;
  currentPeriodEnd : instant;
  cancelAtPeriodEnd : bool;
  canceledAt : option instant;
  startDate : option instant;
  endDate : option instant;
  remainingCredits : option Z;
  updatedAt : instant
}.

Record CreditLedger := mkCreditLedger {
  cl_userId : string;
  cl_subscriptionId : string;
  cl_amount : Z;
  cl_type : string;
  cl_description : string;
  cl_createdAt : instant
}.

Record DailyUsage := mkDailyUsage {
  du_userId : string;
  du_subscriptionId : string;
  du_date : instant;
  usageCount : Z
}.

Record BillingHistory := mkBillingHistory {
  bh_userId : string;
  bh_subscriptionId : string;
  bh_amount : float;
  bh_currency : string;
  bh_status : string;
  paymentDate : instant;
  externalPaymentId : string
}.

Record ReferralStats := mkReferralStats {
  rs_userId : string;
  referenceId : string;
  totalUsersSigned : Z;
  totalPaidSubscribers : Z;
  totalEarning : float;
  amountDeduct : float
}.

(** The store: every table in insertion order. *)
Record DB := mkDB {
  users : list User;
  plans : list Plan;
  subscriptions : list Subscription;
  creditLedger : list CreditLedger;
  dailyUsage : list DailyUsage;
  billingHistory : list BillingHistory;
  referralStats : list ReferralStats
}.

Definition empty_db : DB := mkDB [] [] [] [] [] [] [].

Definition set_users (v : list User) (db : DB) : DB :=
  mkDB v (plans db) (subscriptions db) (creditLedger db) (dailyUsage db)
       (billingHistory db) (referralStats db).

Definition set_plans (v : list Plan) (db : DB) : DB :=
  mkDB (users db) v (subscriptions db) (creditLedger db) (dailyUsage db)
       (billingHistory db) (referralStats db).

Definition set_subscriptions (v : list Subscription) (db : DB) : DB :=
  mkDB (users db) (plans db) v (creditLedger db) (dailyUsage db)
       (billingHistory db) (referralStats db).

Definition set_creditLedger (v : list CreditLedger) (db : DB) : DB :=
  mkDB (users db) (plans db) (subscriptions db) v (dailyUsage db)
       (billingHistory db) (referralStats db).

Definition set_dailyUsage (v : list DailyUsage) (db : DB) : DB :=
  mkDB (users db) (plans db) (subscriptions db) (creditLedger db) v
       (billingHistory db) (referralStats db).

Definition set_billingHistory (v : list BillingHistory) (db : DB) : DB :=
  mkDB (users db) (plans db) (subscriptions db) (creditLedger db)
       (dailyUsage db) v (referralStats db).

Definition set_referralStats (v : list ReferralStats) (db : DB) : DB :=
  mkDB (users db) (plans db) (subscriptions db) (creditLedger db)
       (dailyUsage db) (billingHistory db) v.

(** ** Errors

    What the sources throw, kept structured; [message] renders the text of
    the JavaScript [Error]. *)
Inductive error : Type :=
| UserNotFound (userId : string)
| PlanNotFound (planCode : string)
| NoActiveSubscription
| DailyLimitExceeded (used limit : Z)
| InsufficientCredits (available required : Z)
| PrismaError (msg : string)
| Failed (what : string) (cause : error).

Definition show_Z (z : Z) : string :=
  DecimalString.NilZero.string_of_int (Z.to_int z).

Fixpoint message (e : error) : string :=
  match e with
  | UserNotFound u => "User not found: " ++ u
  | PlanNotFound p => "Plan not found: " ++ p
  | NoActiveSubscription => "No active subscription found"
  | DailyLimitExceeded used limit =>
      "Daily limit exceeded. Used: " ++ show_Z used ++ "/" ++ show_Z limit
  | InsufficientCredits available required =>
      "Insufficient credits. Available: " ++ show_Z available
      ++ ", Required: " ++ show_Z required
  | PrismaError msg => msg
  | Failed what cause => what ++ ": " ++ message cause
  end.

(** [s.includes(sub)] *)
Definition includes (s sub : string) : bool :=
  match index 0 sub s with Some _ => true | None => false end.

(** ** The Prisma client

    Every call of the client is announced to the environment, which may
    reject it (connection loss, constraint violation, timeout); generated
    values (ids, the random part of a reference code, column defaults the
    sources leave to the schema) also come from the environment. *)
Inductive call : Type :=
| UserFindUnique (clerk : string)
| UserFindFirst (reference : string)
| UserCreate (clerk : string)
| PlanFindFirst (code : string)
| PlanFindUnique (name : string)
| PlanCreate (name : string)
| SubscriptionFindFirst (uid : string)
| SubscriptionFindMany
| SubscriptionUpdate (id : string)
| SubscriptionCreate (uid : string)
| CreditLedgerCreate (uid sid : string)
| CreditLedgerAggregate (uid : string)
| CreditLedgerFindMany (sid : string)
| DailyUsageFindFirst (uid : string)
| DailyUsageUpsert (uid : string)
| BillingHistoryCreate (uid sid : string)
| ReferralStatsCreate (uid : string)
| ReferralStatsUpdate (uid : string)
| TransactionCommit.

Record Env := mkEnv {
  fault : call -> DB -> option string;
  cuid : DB -> string;
  random_ref : DB -> string;
  default_period : instant -> instant * instant
}.

(** A store that rejects nothing. *)
Definition healthy (E : Env) : Prop := forall c db, fault E c db = None.

Inductive outcome (A : Type) : Type :=
| Ok (a : A)
| Throw (e : error).
Arguments Ok {A} a.
Arguments Throw {A} e.

(** Computations against the store: a result or a thrown error, and the
    store as the computation leaves it (a throw keeps what was written
    before it, as a sequence of awaited calls does). *)
Definition M (A : Type) : Type := DB -> outcome A * DB.

Definition ret {A} (a : A) : M A := fun db => (Ok a, db).

Definition throw {A} (e : error) : M A := fun db => (Throw e, db).

Definition bind {A B} (m : M A) (k : A -> M B) : M B :=
  fun db =>
    match m db with
    | (Ok a, db') => k a db'
    | (Throw e, db') => (Throw e, db')
    end.

Notation "x <- m ;; k" := (bind m (fun x => k))
  (at level 61, m at next level, right associativity).
Notation "m ;;; k" := (bind m (fun _ => k))
  (at level 61, right associativity).

Definition get : M DB := fun db => (Ok db, db).

Definition modify (f : DB -> DB) : M unit := fun db => (Ok tt, f db).

(** [try { m } catch (error) { throw new Error(`what: ${error.message}`) }] *)
Definition rethrow {A} (what : string) (m : M A) : M A :=
  fun db =>
    match m db with
    | (Ok a, db') => (Ok a, db')
    | (Throw e, db') => (Throw (Failed what e), db')
    end.

(** Replace the first row that satisfies [p]. *)
Fixpoint update_first {A} (p : A -> bool) (f : A -> A) (l : list A) : list A :=
  match l with
  | [] => []
  | x :: l' => if p x then f x :: l' else x :: update_first p f l'
  end.

Definition sum_amounts (l : list CreditLedger) : Z :=
  fold_right (fun r acc => cl_amount r + acc) 0 l.

(** [_sum] of an aggregate: null over no rows. *)
Definition sum_or_null (rows : list CreditLedger) : option Z :=
  match rows with
  | [] => None
  | _ => Some (sum_amounts rows)
  end.

(** [x || 0] on a nullable number. *)
Definition or0 (x : option Z) : Z :=
  match x with
  | Some v => if v =? 0 then 0 else v
  | None => 0
  end.

(** Truthiness of a nullable string. *)
Definition truthy (x : option string) : bool :=
  match x with
  | Some s => negb (s =? "")%string
  | None => false
  end.

Definition is_active (uid : string) (s : Subscription) : bool :=
  ((sub_userId s =? uid)%string && (status s =? "active")%string)%bool.

Definition ledger_of (uid : string) (db : DB) : list CreditLedger :=
  filter (fun r => (cl_userId r =? uid)%string) (creditLedger db).

(** The available balance of a user: the sum of their ledger entries. *)
Definition balance (uid : string) (db : DB) : Z := sum_amounts (ledger_of uid db).

(** ** Results returned to the callers *)

Record ConfirmResult := mkConfirmResult {
  cp_success : bool;
  cp_subscription : Subscription;
  creditsGranted : Z;
  cp_message : string
}.

Record CancelResult := mkCancelResult {
  cn_success : bool;
  cn_subscription : Subscription;
  cn_message : string
}.

Record SubscriptionView := mkSubscriptionView {
  sv_id : string;
  sv_plan : Plan;
  sv_status : string;
  sv_currentPeriodStart : instant;
  sv_currentPeriodEnd : instant;
  sv_cancelAtPeriodEnd : bool;
  sv_billingCycle : string
}.

(** The two shapes [getSubscriptionDetails] returns. *)
Inductive Details : Type :=
| NoSubscriptionDetails (success : bool) (availableCredits : Z) (msg : string)
| ActiveDetails (success : bool) (subscription : SubscriptionView)
    (availableCredits dailyUsageToday : Z) (dailyLimit : option Z)
    (recentCredits : list CreditLedger).

Definition details_success (d : Details) : bool :=
  match d with
  | NoSubscriptionDetails s _ _ => s
  | ActiveDetails s _ _ _ _ _ => s
  end.

Definition details_subscription (d : Details) : option SubscriptionView :=
  match d with
  | NoSubscriptionDetails _ _ _ => None
  | ActiveDetails _ v _ _ _ _ => Some v
  end.

Definition details_availableCredits (d : Details) : Z :=
  match d with
  | NoSubscriptionDetails _ c _ => c
  | ActiveDetails _ _ c _ _ _ => c
  end.

Record ConsumeResult := mkConsumeResult {
  cr_success : bool;
  creditsConsumed : Z;
  remainingCredits_left : Z;
  cr_message : string
}.

Record RenewalResult := mkRenewalResult {
  rr_subscriptionId : string;
  rr_userId : string;
  rr_success : bool;
  newPeriodEnd : option instant;
  rr_creditsGranted : option Z;
  rr_error : option string
}.

Record RenewalSummary := mkRenewalSummary {
  rn_success : bool;
  renewed : nat;
  failed : nat;
  results : list RenewalResult;
  rn_message : string
}.

(** ** Requests and responses of the controllers *)

Record Options := mkOptions {
  opt_billingCycle : option string;
  opt_amount : option float;
  opt_currency : option string
}.

(** A value of a JSON request body, as far as the credit field needs it; a
    number in that field is an integer count of credits. *)
Inductive json : Type :=
| JNull
| JBool (b : bool)
| JNumber (n : Z)
| JString (s : string)
| JObject.

Record Response (A : Type) := mkResponse {
  res_status : Z;
  res_success : bool;
  res_message : string;
  res_data : option A;
  res_error : option string
}.
Arguments mkResponse {A}.
Arguments res_status {A}.
Arguments res_success {A}.
Arguments res_message {A}.
Arguments res_data {A}.
Arguments res_error {A}.

Record ConsumeBody := mkConsumeBody {
  body_userId : option string;
  body_credits : option json;
  body_description : option string
}.

Record SetupBody := mkSetupBody {
  body_clerkUserId : option string;
  body_email : option string;
  body_name : option string;
  body_referredById : option string
}.

Definition SetupResponse : Type := Response (User * option string).

(** ** The client's calls and the service *)
Section Service.

Variable E : Env.

Definition call_store (c : call) : M unit :=
  fun db =>
    match fault E c db with
    | Some msg => (Throw (PrismaError msg), db)
    | None => (Ok tt, db)
    end.

(** [prisma.$transaction(async (tx) => body)]: the writes of [body] are kept
    when it returns and the commit goes through, and dropped otherwise. *)
Definition transaction {A} (body : M A) : M A :=
  fun db =>
    match body db with
    | (Ok a, db') =>
        match fault E TransactionCommit db' with
        | Some msg => (Throw (PrismaError msg), db)
        | None => (Ok a, db')
        end
    | (Throw e, _) => (Throw e, db)
    end.

Definition try_catch {A} (m : M A) (handler : error -> M A) : M A :=
  fun db =>
    match m db with
    | (Ok a, db') => (Ok a, db')
    | (Throw e, db') => handler e db'
    end.

Definition not_found_to_update : error :=
  PrismaError "An operation failed because it depends on one or more records that were required but not found. Record to update not found.".

Definition unique_violation : error :=
  PrismaError "Unique constraint failed".

Definition missing_relation : error :=
  PrismaError "Inconsistent query result: a required relation returned null".

Definition user_findUnique (clerk : string) : M (option User) :=
  call_store (UserFindUnique clerk) ;;;
  db <- get ;;
  ret (find (fun u => (clerkUserId u =? clerk)%string) (users db)).

Definition plan_findFirst (planCode : string) : M (option Plan) :=
  call_store (PlanFindFirst planCode) ;;;
  db <- get ;;
  ret (find (fun p => ((plan_id p =? planCode)%string
                       || (plan_name p =? planCode)%string)%bool) (plans db)).

(** [include: { plan: true }] on a subscription row. *)
Definition include_plan (s : Subscription) : M Plan :=
  db <- get ;;
  match find (fun p => (plan_id p =? sub_planId s)%string) (plans db) with
  | Some p => ret p
  | None => throw missing_relation
  end.

(** [include: { user: true }] on a subscription row. *)
Definition include_user (s : Subscription) : M User :=
  db <- get ;;
  match find (fun u => (user_id u =? sub_userId s)%string) (users db) with
  | Some u => ret u
  | None => throw missing_relation
  end.

(** [subscription.findFirst({ where: { userId, status: 'active' } })] *)
Definition subscription_findFirst (uid : string) : M (option Subscription) :=
  call_store (SubscriptionFindFirst uid) ;;;
  db <- get ;;
  ret (find (is_active uid) (subscriptions db)).

Definition subscription_findFirst_with_plan (uid : string)
  : M (option (Subscription * Plan)) :=
  found <- subscription_findFirst uid ;;
  match found with
  | Some s => p <- include_plan s ;; ret (Some (s, p))
  | None => ret None
  end.

Definition subscription_update (id : string) (data : Subscription -> Subscription)
  : M Subscription :=
  call_store (SubscriptionUpdate id) ;;;
  db <- get ;;
  match find (fun s => (sub_id s =? id)%string) (subscriptions db) with
  | None => throw not_found_to_update
  | Some s =>
      modify (set_subscriptions
                (update_first (fun s => (sub_id s =? id)%string) data
                              (subscriptions db))) ;;;
      ret (data s)
  end.

(** [subscription.create]: the row gets a generated id, which the primary
    key constraint requires to be new. *)
Definition subscription_create (uid : string) (data : string -> Subscription)
  : M Subscription :=
  call_store (SubscriptionCreate uid) ;;;
  db <- get ;;
  let id := cuid E db in
  if existsb (fun s => (sub_id s =? id)%string) (subscriptions db)
  then throw unique_violation
  else modify (set_subscriptions (subscriptions db ++ [data id])) ;;;
       ret (data id).

Definition creditLedger_create (row : CreditLedger) : M unit :=
  call_store (CreditLedgerCreate (cl_userId row) (cl_subscriptionId row)) ;;;
  db <- get ;;
  modify (set_creditLedger (creditLedger db ++ [row])).

(** [creditLedger.aggregate({ where: { userId }, _sum: { amount: true } })]:
    the sum, or null when the user has no entry. *)
Definition creditLedger_aggregate (uid : string) : M (option Z) :=
  call_store (CreditLedgerAggregate uid) ;;;
  db <- get ;;
  ret (sum_or_null (ledger_of uid db)).

Fixpoint insert_desc (r : CreditLedger) (l : list CreditLedger) : list CreditLedger :=
  match l with
  | [] => [r]
  | x :: l' => if cl_createdAt x <? cl_createdAt r then r :: l
               else x :: insert_desc r l'
  end.

(** [creditLedger: { orderBy: { createdAt: 'desc' }, take: 10 }] *)
Definition recent_ledger (sid : string) : M (list CreditLedger) :=
  call_store (CreditLedgerFindMany sid) ;;;
  db <- get ;;
  ret (firstn 10 (fold_right insert_desc []
         (filter (fun r => (cl_subscriptionId r =? sid)%string) (creditLedger db)))).

Definition billingHistory_create (row : BillingHistory) : M unit :=
  call_store (BillingHistoryCreate (bh_userId row) (bh_subscriptionId row)) ;;;
  db <- get ;;
  modify (set_billingHistory (billingHistory db ++ [row])).

Definition referralStats_update (uid : string) (data : ReferralStats -> ReferralStats)
  : M unit :=
  call_store (ReferralStatsUpdate uid) ;;;
  db <- get ;;
  match find (fun r => (rs_userId r =? uid)%string) (referralStats db) with
  | None => throw not_found_to_update
  | Some _ =>
      modify (set_referralStats
                (update_first (fun r => (rs_userId r =? uid)%string) data
                              (referralStats db)))
  end.

Definition referralStats_create (row : ReferralStats) : M ReferralStats :=
  call_store (ReferralStatsCreate (rs_userId row)) ;;;
  db <- get ;;
  if existsb (fun r => ((rs_userId r =? rs_userId row)%string
                        || (referenceId r =? referenceId row)%string)%bool)
             (referralStats db)
  then throw unique_violation
  else modify (set_referralStats (referralStats db ++ [row])) ;;;
       ret row.

Definition same_day (uid : string) (date : instant) (r : DailyUsage) : bool :=
  ((du_userId r =? uid)%string && (du_date r =? date))%bool.

Definition dailyUsage_findFirst (uid : string) (date : instant)
  : M (option DailyUsage) :=
  call_store (DailyUsageFindFirst uid) ;;;
  db <- get ;;
  ret (find (same_day uid date) (dailyUsage db)).

(** [dailyUsage.upsert] on the unique pair (userId, date). *)
Definition dailyUsage_upsert (uid : string) (date : instant)
    (update : DailyUsage -> DailyUsage) (create : DailyUsage) : M unit :=
  call_store (DailyUsageUpsert uid) ;;;
  db <- get ;;
  match find (same_day uid date) (dailyUsage db) with
  | Some _ =>
      modify (set_dailyUsage (update_first (same_day uid date) update (dailyUsage db)))
  | None => modify (set_dailyUsage (dailyUsage db ++ [create]))
  end.

Definition user_create (data : string -> User) : M User :=
  db <- get ;;
  let id := cuid E db in
  call_store (UserCreate (clerkUserId (data id))) ;;;
  if existsb (fun u => ((user_id u =? id)%string
                        || (clerkUserId u =? clerkUserId (data id))%string)%bool)
             (users db)
  then throw unique_violation
  else modify (set_users (users db ++ [data id])) ;;;
       ret (data id).

(** [user.findFirst({ where: { referralStats: { referenceId } } })] *)
Definition user_findFirst_by_reference (reference : string) : M (option User) :=
  call_store (UserFindFirst reference) ;;;
  db <- get ;;
  ret (find (fun u =>
               existsb (fun r => ((rs_userId r =? user_id u)%string
                                  && (referenceId r =? reference)%string)%bool)
                       (referralStats db))
            (users db)).

Definition plan_findUnique (name : string) : M (option Plan) :=
  call_store (PlanFindUnique name) ;;;
  db <- get ;;
  ret (find (fun p => (plan_name p =? name)%string) (plans db)).

Definition plan_create (data : string -> Plan) : M Plan :=
  db <- get ;;
  let id := cuid E db in
  call_store (PlanCreate (plan_name (data id))) ;;;
  if existsb (fun p => ((plan_id p =? id)%string
                        || (plan_name p =? plan_name (data id))%string)%bool)
             (plans db)
  then throw unique_violation
  else modify (set_plans (plans db ++ [data id])) ;;;
       ret (data id).

(** *** [SubscriptionService] *)

Definition default {A} (d : A) (x : option A) : A :=
  match x with Some v => v | None => d end.

(** Months added to a period for a billing cycle. *)
Definition cycle_months (billingCycle : string) : Z :=
  if (billingCycle =? "yearly")%string then 12 else 1.

(** The credits a plan grants per period. *)
Definition plan_quota (plan : Plan) : Z :=
  if isDaily plan then dailyCredits plan else monthlyCredits plan.

(** The JavaScript literal [0.20]: the binary64 number nearest to 1/5. *)
Definition referral_rate : float := 0x1.999999999999ap-3%float.

(** The commission on one payment: 20% of the price of the chosen cycle. *)
Definition referralEarning (billingCycle : string) (plan : Plan) : float :=
  if (billingCycle =? "yearly")%string
  then PrimFloat.mul (priceYearly plan) referral_rate
  else PrimFloat.mul (priceMonthly plan) referral_rate.

Definition activate (plan : Plan) (cycle : string) (periodStart periodEnd now : instant)
    (r : Subscription) : Subscription :=
  mkSubscription (sub_id r) (sub_userId r) (plan_id plan) (stripeSubscriptionId r)
    cycle "active" periodStart periodEnd false None
    (startDate r) (endDate r) (remainingCredits r) now.

Definition new_subscription (uid : string) (plan : Plan) (cycle : string)
    (periodStart periodEnd now : instant) (id : string) : Subscription :=
  mkSubscription id uid (plan_id plan) None cycle "active" periodStart periodEnd
    false None None None None now.

Definition accrue (earning : float) (r : ReferralStats) : ReferralStats :=
  mkReferralStats (rs_userId r) (referenceId r) (totalUsersSigned r)
    (totalPaidSubscribers r + 1) (PrimFloat.add (totalEarning r) earning)
    (amountDeduct r).

(** The body of the transaction of [confirmPayment]. *)
Definition confirm_transaction (now : instant) (user : User) (plan : Plan)
    (paidAt : instant) (externalPaymentId billingCycle : string) (amount : float)
    (currency : string) : M Subscription :=
  let currentPeriodStart := paidAt in
  let currentPeriodEnd := JsDate.addMonths paidAt (cycle_months billingCycle) in
  let creditsToGrant := plan_quota plan in
  existing <- subscription_findFirst_with_plan (user_id user) ;;
  subscription <-
    match existing with
    | Some (s, _) =>
        subscription_update (sub_id s)
          (activate plan billingCycle currentPeriodStart currentPeriodEnd now)
    | None =>
        subscription_create (user_id user)
          (new_subscription (user_id user) plan billingCycle
             currentPeriodStart currentPeriodEnd now)
    end ;;
  creditLedger_create
    (mkCreditLedger (user_id user) (sub_id subscription) creditsToGrant "granted"
       ("Credits granted for " ++ plan_name plan ++ " subscription") now) ;;;
  billingHistory_create
    (mkBillingHistory (user_id user) (sub_id subscription) amount currency
       "completed" paidAt externalPaymentId) ;;;
  (if (truthy (referredById user) && PrimFloat.ltb 0 amount)%bool
   then referralStats_update (default "" (referredById user))
          (accrue (referralEarning billingCycle plan))
   else ret tt) ;;;
  ret subscription.

Definition confirmPayment (now : instant) (userId planCode : string)
    (paidAt : option instant) (externalPaymentId : string) (options : Options)
  : M ConfirmResult :=
  let paidAt := default now paidAt in
  let billingCycle := default "monthly" (opt_billingCycle options) in
  let amount := default 0%float (opt_amount options) in
  let currency := default "usd" (opt_currency options) in
  rethrow "Failed to confirm payment"
    (user <- user_findUnique userId ;;
     match user with
     | None => throw (UserNotFound userId)
     | Some user =>
         plan <- plan_findFirst planCode ;;
         match plan with
         | None => throw (PlanNotFound planCode)
         | Some plan =>
             result <- transaction
                         (confirm_transaction now user plan paidAt
                            externalPaymentId billingCycle amount currency) ;;
             ret (mkConfirmResult true result (plan_quota plan)
                    "Payment confirmed and subscription activated")
         end
     end).

Definition mark_canceled (now : instant) (r : Subscription) : Subscription :=
  mkSubscription (sub_id r) (sub_userId r) (sub_planId r) (stripeSubscriptionId r)
    (billingCycle r) (status r) (currentPeriodStart r) (currentPeriodEnd r)
    true (Some now) (startDate r) (endDate r) (remainingCredits r) now.

Definition cancelSubscription (now : instant) (userId : string) : M CancelResult :=
  rethrow "Failed to cancel subscription"
    (user <- user_findUnique userId ;;
     match user with
     | None => throw (UserNotFound userId)
     | Some user =>
         subscription <- subscription_findFirst (user_id user) ;;
         match subscription with
         | None => throw NoActiveSubscription
         | Some subscription =>
             updatedSubscription <-
               subscription_update (sub_id subscription) (mark_canceled now) ;;
             ret (mkCancelResult true updatedSubscription
                    "Subscription will be canceled at period end")
         end
     end).

Definition getSubscriptionDetails (now : instant) (userId : string) : M Details :=
  rethrow "Failed to get subscription details"
    (user <- user_findUnique userId ;;
     match user with
     | None => throw (UserNotFound userId)
     | Some user =>
         subscription <- subscription_findFirst_with_plan (user_id user) ;;
         match subscription with
         | None =>
             ret (NoSubscriptionDetails true 0 "No active subscription found")
         | Some (subscription, plan) =>
             recent <- recent_ledger (sub_id subscription) ;;
             creditSum <- creditLedger_aggregate (user_id user) ;;
             let availableCredits := or0 creditSum in
             let today := JsDate.startOfDay now in
             todayUsage <- dailyUsage_findFirst (user_id user) today ;;
             ret (ActiveDetails true
                    (mkSubscriptionView (sub_id subscription) plan
                       (status subscription) (currentPeriodStart subscription)
                       (currentPeriodEnd subscription)
                       (cancelAtPeriodEnd subscription) (billingCycle subscription))
                    availableCredits
                    (or0 (option_map usageCount todayUsage))
                    (if isDaily plan then Some (dailyCredits plan) else None)
                    recent)
         end
     end).

Definition add_usage (n : Z) (r : DailyUsage) : DailyUsage :=
  mkDailyUsage (du_userId r) (du_subscriptionId r) (du_date r) (usageCount r + n).

Definition consumeCredits (now : instant) (userId : string) (creditsToConsume : Z)
    (description : string) : M ConsumeResult :=
  rethrow "Failed to consume credits"
    (user <- user_findUnique userId ;;
     match user with
     | None => throw (UserNotFound userId)
     | Some user =>
         subscription <- subscription_findFirst_with_plan (user_id user) ;;
         match subscription with
         | None => throw NoActiveSubscription
         | Some (subscription, plan) =>
             (if isDaily plan then
                let today := JsDate.startOfDay now in
                todayUsage <- dailyUsage_findFirst (user_id user) today ;;
                let currentUsage := or0 (option_map usageCount todayUsage) in
                if dailyCredits plan <? currentUsage + creditsToConsume
                then throw (DailyLimitExceeded currentUsage (dailyCredits plan))
                else ret tt
              else ret tt) ;;;
             creditSum <- creditLedger_aggregate (user_id user) ;;
             let availableCredits := or0 creditSum in
             if availableCredits <? creditsToConsume
             then throw (InsufficientCredits availableCredits creditsToConsume)
             else
               result <- transaction
                 (creditLedger_create
                    (mkCreditLedger (user_id user) (sub_id subscription)
                       (- creditsToConsume) "consumed" description now) ;;;
                  (if isDaily plan then
                     let today := JsDate.startOfDay now in
                     dailyUsage_upsert (user_id user) today
                       (add_usage creditsToConsume)
                       (mkDailyUsage (user_id user) (sub_id subscription) today
                          creditsToConsume)
                   else ret tt) ;;;
                  ret (creditsToConsume, availableCredits - creditsToConsume)) ;;
               ret (mkConsumeResult true (fst result) (snd result)
                      "Credits consumed successfully")
         end
     end).

(** A subscription the renewal job picks up. *)
Definition due (now : instant) (s : Subscription) : bool :=
  ((status s =? "active")%string && negb (cancelAtPeriodEnd s)
   && (currentPeriodEnd s <=? now))%bool.

Fixpoint with_plan_and_user (rows : list Subscription)
  : M (list (Subscription * Plan * User)) :=
  match rows with
  | [] => ret []
  | s :: rest =>
      p <- include_plan s ;;
      u <- include_user s ;;
      others <- with_plan_and_user rest ;;
      ret ((s, p, u) :: others)
  end.

Definition subscription_findMany_due (now : instant)
  : M (list (Subscription * Plan * User)) :=
  call_store SubscriptionFindMany ;;;
  db <- get ;;
  with_plan_and_user (filter (due now) (subscriptions db)).

Definition advance (periodStart periodEnd now : instant) (r : Subscription)
  : Subscription :=
  mkSubscription (sub_id r) (sub_userId r) (sub_planId r) (stripeSubscriptionId r)
    (billingCycle r) (status r) periodStart periodEnd
    (cancelAtPeriodEnd r) (canceledAt r) (startDate r) (endDate r)
    (remainingCredits r) now.

Definition next_period_end (s : Subscription) : instant :=
  JsDate.addMonths (currentPeriodEnd s) (cycle_months (billingCycle s)).

(** The transaction that renews one subscription. *)
Definition renew_transaction (now : instant) (subscription : Subscription)
    (plan : Plan) : M Subscription :=
  let newPeriodEnd := next_period_end subscription in
  updated <- subscription_update (sub_id subscription)
               (advance (currentPeriodEnd subscription) newPeriodEnd now) ;;
  let creditsToGrant := plan_quota plan in
  creditLedger_create
    (mkCreditLedger (sub_userId subscription) (sub_id subscription) creditsToGrant
       "granted"
       ("Credits granted for " ++ billingCycle subscription ++ " renewal") now) ;;;
  ret updated.

(** One turn of the loop: the [try] around a subscription's renewal. *)
Definition renew_one (now : instant) (item : Subscription * Plan * User)
  : M RenewalResult :=
  let '(subscription, plan, user) := item in
  try_catch
    (transaction (renew_transaction now subscription plan) ;;;
     ret (mkRenewalResult (sub_id subscription) (clerkUserId user) true
            (Some (next_period_end subscription)) (Some (plan_quota plan)) None))
    (fun error =>
       ret (mkRenewalResult (sub_id subscription) (clerkUserId user) false
              None None (Some (message error)))).

Fixpoint renewal_loop (now : instant) (dueSubscriptions : list (Subscription * Plan * User))
    (renewalResults : list RenewalResult) : M (list RenewalResult) :=
  match dueSubscriptions with
  | [] => ret renewalResults
  | item :: rest =>
      r <- renew_one now item ;;
      renewal_loop now rest (renewalResults ++ [r])
  end.

Definition renewDueSubscriptions (now : instant) : M RenewalSummary :=
  rethrow "Failed to renew subscriptions"
    (dueSubscriptions <- subscription_findMany_due now ;;
     renewalResults <- renewal_loop now dueSubscriptions [] ;;
     ret (mkRenewalSummary true
            (List.length (filter rr_success renewalResults))
            (List.length (filter (fun r => negb (rr_success r)) renewalResults))
            renewalResults
            ("Processed " ++ show_Z (Z.of_nat (List.length dueSubscriptions))
             ++ " subscriptions"))).

(** *** Controllers *)

(** [POST /api/usage/consume] *)
Definition consume_controller (now : instant) (body : ConsumeBody)
  : DB -> Response ConsumeResult * DB :=
  fun db =>
    let userId := body_userId body in
    let credits := default (JNumber 1) (body_credits body) in
    let description := default "API usage" (body_description body) in
    if negb (truthy userId)
    then (mkResponse 400 false "Missing required field: userId is required"
            None None, db)
    else
      match credits with
      | JNumber n =>
          if n <=? 0
          then (mkResponse 400 false "Credits must be a positive number"
                  None None, db)
          else
            match consumeCredits now (default "" userId) n description db with
            | (Ok result, db') =>
                (mkResponse 200 true "Credits consumed successfully"
                   (Some result) None, db')
            | (Throw error, db') =>
                let msg := message error in
                if includes msg "User not found"
                then (mkResponse 404 false "User not found" None (Some msg), db')
                else if includes msg "No active subscription"
                then (mkResponse 400 false "No active subscription found"
                        None (Some msg), db')
                else if (includes msg "Insufficient credits"
                         || includes msg "Daily limit exceeded")%bool
                then (mkResponse 400 false "Credit limit exceeded"
                        None (Some msg), db')
                else (mkResponse 500 false "Failed to consume credits"
                        None (Some msg), db')
            end
      | _ =>
          (mkResponse 400 false "Credits must be a positive number" None None, db)
      end.

(** The plan signup creates when the catalogue has no plan named Free; the
    call leaves [isDaily] to the schema. *)
Definition free_plan (id : string) : Plan :=
  mkPlan id "Free" 0%float 0%float 0 2 false "1-month free trial with 2 credits".

(** The subscription signup creates.  The call names [startDate], [endDate]
    and [remainingCredits]; the period columns are left to the schema and
    come from the environment. *)
Definition signup_subscription (now : instant) (user : User) (plan : Plan)
    (startDate endDate : instant) (id : string) : Subscription :=
  mkSubscription id (user_id user) (plan_id plan)
    (Some ("free-" ++ user_id user ++ "-" ++ show_Z now))
    "monthly" "active"
    (fst (default_period E now)) (snd (default_period E now))
    false None (Some startDate) (Some endDate) (Some 2) now.

Definition count_signup (r : ReferralStats) : ReferralStats :=
  mkReferralStats (rs_userId r) (referenceId r) (totalUsersSigned r + 1)
    (totalPaidSubscribers r) (totalEarning r) (amountDeduct r).

(** The transaction of [setupNewUser]. *)
Definition setup_transaction (now : instant) (clerk mail : string)
    (name : option string) (referrer : option User) (freePlan : Plan)
    (startDate endDate : instant) : M (User * string) :=
  user <- user_create
            (fun id => mkUser id clerk mail
                         (if truthy name then default "" name else "Anonymous")
                         (option_map user_id referrer)) ;;
  db <- get ;;
  stats <- referralStats_create
             (mkReferralStats (user_id user) ("AURA-REF-" ++ random_ref E db)
                0 0 0%float 0%float) ;;
  subscription_create (user_id user)
    (signup_subscription now user freePlan startDate endDate) ;;;
  match referrer with
  | Some referrer => referralStats_update (user_id referrer) count_signup
  | None => ret tt
  end ;;;
  ret (user, referenceId stats).

Definition setup_body (now : instant) (clerk mail : string) (body : SetupBody)
  : M SetupResponse :=
  existingUser <- user_findUnique clerk ;;
  match existingUser with
  | Some existingUser =>
      ret (mkResponse 200 true "User already exists" (Some (existingUser, None)) None)
  | None =>
      referrer <-
        (if truthy (body_referredById body)
         then found <- user_findFirst_by_reference
                         (default "" (body_referredById body)) ;;
              ret (Some found)
         else ret None) ;;
      match referrer with
      | Some None =>
          ret (mkResponse 400 false
                 ("Invalid referredById: No referrer found with referenceId "
                  ++ default "" (body_referredById body)) None None)
      | _ =>
          let referrer := match referrer with Some r => r | None => None end in
          found <- plan_findUnique "Free" ;;
          freePlan <- match found with
                      | Some p => ret p
                      | None => plan_create free_plan
                      end ;;
          let startDate := now in
          let endDate := JsDate.addMonths startDate 1 in
          newUser <- transaction
                       (setup_transaction now clerk mail (body_name body)
                          referrer freePlan startDate endDate) ;;
          ret (mkResponse 201 true "User created with 1-month free plan (2 credits)"
                 (Some (fst newUser, Some (snd newUser))) None)
      end
  end.

(** [POST /api/user/setupUser] *)
Definition setupNewUser (now : instant) (body : SetupBody) : DB -> SetupResponse * DB :=
  fun db =>
    if (negb (truthy (body_clerkUserId body)) || negb (truthy (body_email body)))%bool
    then (mkResponse 400 false
            "Missing required fields: clerkUserId and email are mandatory"
            None None, db)
    else
      match setup_body now (default "" (body_clerkUserId body))
              (default "" (body_email body)) body db with
      | (Ok response, db') => (response, db')
      | (Throw error, db') =>
          (mkResponse 500 false "An error occurred while setting up the user"
             None (Some (message error)), db')
      end.

End Service.

(** *** The operations as one interface

    What a client of the running service can ask for: the service methods
    and signup.  [serve_all] runs a sequence of such requests, each at the
    instant the clock shows when it is served. *)
Inductive request : Type :=
| SetupNewUser (body : SetupBody)
| ConfirmPayment (userId planCode : string) (paidAt : option instant)
    (externalPaymentId : string) (options : Options)
| CancelSubscription (userId : string)
| GetSubscriptionDetails (userId : string)
| ConsumeCredits (userId : string) (creditsToConsume : Z) (description : string)
| ConsumeRequest (body : ConsumeBody)
| RenewDueSubscriptions.

Definition serve (E : Env) (now : instant) (r : request) (db : DB) : DB :=
  match r with
  | SetupNewUser body => snd (setupNewUser E now body db)
  | ConfirmPayment userId planCode paidAt ext options =>
      snd (confirmPayment E now userId planCode paidAt ext options db)
  | CancelSubscription userId => snd (cancelSubscription E now userId db)
  | GetSubscriptionDetails userId => snd (getSubscriptionDetails E now userId db)
  | ConsumeCredits userId n description =>
      snd (consumeCredits E now userId n description db)
  | ConsumeRequest body => snd (consume_controller E now body db)
  | RenewDueSubscriptions => snd (renewDueSubscriptions E now db)
  end.

Fixpoint serve_all (E : Env) (trace : list (instant * request)) (db : DB) : DB :=
  match trace with
  | [] => db
  | (now, r) :: rest => serve_all E rest (serve E now r db)
  end.

(** ** Notions the properties are stated with *)

(** The lookups of the service, as functions of the store. *)
Definition user_of (userId : string) (db : DB) : option User :=
  find (fun u => (clerkUserId u =? userId)%string) (users db).

Definition plan_by_code (planCode : string) (db : DB) : option Plan :=
  find (fun p => ((plan_id p =? planCode)%string
                  || (plan_name p =? planCode)%string)%bool) (plans db).

Definition active_of (uid : string) (db : DB) : option Subscription :=
  find (is_active uid) (subscriptions db).

Definition plan_of (s : Subscription) (db : DB) : option Plan :=
  find (fun p => (plan_id p =? sub_planId s)%string) (plans db).

Definition owner_of (s : Subscription) (db : DB) : option User :=
  find (fun u => (user_id u =? sub_userId s)%string) (users db).

Definition stats_of (uid : string) (db : DB) : option ReferralStats :=
  find (fun r => (rs_userId r =? uid)%string) (referralStats db).

Definition usage_on (uid : string) (date : instant) (db : DB) : Z :=
  or0 (option_map usageCount (find (same_day uid date) (dailyUsage db))).

(** The active subscriptions of a user. *)
Definition active_subscriptions (uid : string) (db : DB) : list Subscription :=
  filter (is_active uid) (subscriptions db).

(** What the invariant reads of a subscription row. *)
Definition key (s : Subscription) : string * string * string :=
  (sub_id s, sub_userId s, status s).

(** The state invariant: subscription ids are a primary key, every
    subscription belongs to a user of the store, and no user has two active
    subscriptions. *)
Definition Inv (db : DB) : Prop :=
  NoDup (map sub_id (subscriptions db))
  /\ (forall s, In s (subscriptions db) ->
        exists u, In u (users db) /\ user_id u = sub_userId s)
  /\ (forall uid, (List.length (active_subscriptions uid db) <= 1)%nat).

(** Every subscription has its plan and its user in the store. *)
Definition referential_integrity (db : DB) : Prop :=
  forall s, In s (subscriptions db) ->
    plan_of s db <> None /\ owner_of s db <> None.

(** The row of a due subscription after its renewal, and the ledger entry
    the renewal appends. *)
Definition renewed_row (now : instant) (s : Subscription) : Subscription :=
  advance (currentPeriodEnd s) (next_period_end s) now s.

Definition renewal_grant (now : instant) (s : Subscription) (quota : Z) : CreditLedger :=
  mkCreditLedger (sub_userId s) (sub_id s) quota "granted"
    ("Credits granted for " ++ billingCycle s ++ " renewal") now.

Definition quota_of (s : Subscription) (db : DB) : Z :=
  match plan_of s db with
  | Some p => plan_quota p
  | None => 0
  end.

(** The store after a consumption of [n] credits commits. *)
Definition consumed_db (now : instant) (user : User) (s : Subscription) (plan : Plan)
    (n : Z) (description : string) (db : DB) : DB :=
  let today := JsDate.startOfDay now in
  let db1 :=
    set_creditLedger
      (creditLedger db
       ++ [mkCreditLedger (user_id user) (sub_id s) (- n) "consumed" description now])
      db in
  if isDaily plan then
    match find (same_day (user_id user) today) (dailyUsage db) with
    | Some _ =>
        set_dailyUsage
          (update_first (same_day (user_id user) today) (add_usage n) (dailyUsage db))
          db1
    | None =>
        set_dailyUsage
          (dailyUsage db ++ [mkDailyUsage (user_id user) (sub_id s) today n]) db1
    end
  else db1.

(** The store after one subscription's renewal transaction commits. *)
Definition renewed_db (now : instant) (s : Subscription) (p : Plan) (db : DB) : DB :=
  set_creditLedger (creditLedger db ++ [renewal_grant now s (plan_quota p)])
    (set_subscriptions
       (update_first (fun r => (sub_id r =? sub_id s)%string)
          (advance (currentPeriodEnd s) (next_period_end s) now)
          (subscriptions db)) db).

(** Signup either leaves users and subscriptions as they were, or answers
    201 and has added one user with one active subscription. *)
Definition signup_effect (db : DB) (response : SetupResponse) (db' : DB) : Prop :=
  (users db' = users db /\ subscriptions db' = subscriptions db
   /\ res_status response <> 201)
  \/ (exists u sub,
        res_status response = 201
        /\ users db' = (users db ++ [u])%list
        /\ subscriptions db' = (subscriptions db ++ [sub])%list
        /\ sub_userId sub = user_id u /\ status sub = "active"
        /\ existsb (fun x => (user_id x =? user_id u)%string) (users db) = false
        /\ existsb (fun s => (sub_id s =? sub_id sub)%string) (subscriptions db) = false).

(** The subscription row of an item of the renewal query. *)
Definition row (item : Subscription * Plan * User) : Subscription := fst (fst item).

(** How the renewal loop went: each due subscription in turn either was
    renewed, period and grant together, or failed and left the store as it
    found it; [results] records which, in order. *)
Fixpoint loop_outcome (E : Env) (now : instant)
    (items : list (Subscription * Plan * User)) (rs : list RenewalResult)
    (db db' : DB) : Prop :=
  match items, rs with
  | [], [] => db' = db
  | (s, p, u) :: items', r :: rs' =>
      rr_subscriptionId r = sub_id s /\ rr_userId r = clerkUserId u
      /\ exists db1,
           ((rr_success r = true /\ rr_error r = None
             /\ newPeriodEnd r = Some (next_period_end s)
             /\ rr_creditsGranted r = Some (plan_quota p)
             /\ db1 = renewed_db now s p db)
            \/ (rr_success r = false /\ db1 = db
                /\ exists e, fst (transaction E (renew_transaction E now s p) db) = Throw e
                             /\ rr_error r = Some (message e)))
           /\ loop_outcome E now items' rs' db1 db'
  | _, _ => False
  end.

(** The exact value of a finite binary64 number as a fraction
    [numerator / 2^shift], for comparing it with a decimal. *)
Definition exact_value (x : float) : option (Z * Z) :=
  match Prim2SF x with
  | S754_finite sign m e =>
      let n := if sign then Z.neg m else Z.pos m in
      if 0 <=? e then Some (n * 2 ^ e, 0) else Some (n, - e)
  | S754_zero _ => Some (0, 0)
  | _ => None
  end.

(** [x] is exactly the decimal [num / den]. *)
Definition is_decimal (x : float) (num den : Z) : Prop :=
  match exact_value x with
  | Some (n, shift) => n * den = num * 2 ^ shift
  | None => False
  end.

(** ** The other controllers

    The controllers of [/api/subscriptions] and [/api/admin], and the cron
    script: each validates its request, makes one call of the service and
    maps the outcome to a response. *)

(** [c] is one of the characters of [s]. *)
Fixpoint occurs (c : Ascii.ascii) (s : string) : bool :=
  match s with
  | EmptyString => false
  | String b s' => (Ascii.eqb b c || occurs c s')%bool
  end.

(** The body of [POST /api/subscriptions/confirm].  [cb_paidAt] is the date
    the field [paidAt] denotes, where the body has a truthy one; amounts are
    JSON numbers. *)
Record ConfirmBody := mkConfirmBody {
  cb_userId : option string;
  cb_planCode : option string;
  cb_paidAt : option instant;
  cb_externalPaymentId : option string;
  cb_billingCycle : option string;
  cb_amount : option float;
  cb_currency : option string
}.

(** [x || d] on a nullable string. *)
Definition string_or (d : string) (x : option string) : string :=
  if truthy x then default "" x else d.

(** [x || 0] on a nullable number: 0 for a missing one, for a zero and for
    NaN. *)
Definition number_or0 (x : option float) : float :=
  match x with
  | Some v =>
      if (PrimFloat.eqb v 0 || negb (PrimFloat.eqb v v))%bool then 0%float else v
  | None => 0%float
  end.

(** [['monthly', 'yearly'].includes(c)] *)
Definition known_cycle (c : string) : bool :=
  ((c =? "monthly")%string || (c =? "yearly")%string)%bool.

Definition dquote : string := String (Ascii.ascii_of_nat 34) EmptyString.

(** [a !== b] negated, on two values that are a string or undefined. *)
Definition same_token (a b : option string) : bool :=
  match a, b with
  | Some x, Some y => (x =? y)%string
  | None, None => true
  | _, _ => false
  end.

Section Endpoints.

Variable E : Env.

(** [POST /api/subscriptions/confirm] *)
Definition confirm_controller (now : instant) (body : ConfirmBody)
  : DB -> Response ConfirmResult * DB :=
  fun db =>
    if (negb (truthy (cb_userId body)) || negb (truthy (cb_planCode body))
        || negb (truthy (cb_externalPaymentId body)))%bool
    then (mkResponse 400 false
            "Missing required fields: userId, planCode, and externalPaymentId are required"
            None None, db)
    else if (truthy (cb_billingCycle body)
             && negb (known_cycle (default "" (cb_billingCycle body))))%bool
    then (mkResponse 400 false
            ("Invalid billingCycle. Must be " ++ dquote ++ "monthly" ++ dquote
             ++ " or " ++ dquote ++ "yearly" ++ dquote)
            None None, db)
    else
      let paymentDate := default now (cb_paidAt body) in
      match confirmPayment E now (default "" (cb_userId body))
              (default "" (cb_planCode body)) (Some paymentDate)
              (default "" (cb_externalPaymentId body))
              (mkOptions (Some (string_or "monthly" (cb_billingCycle body)))
                 (Some (number_or0 (cb_amount body)))
                 (Some (string_or "usd" (cb_currency body)))) db with
      | (Ok result, db') =>
          (mkResponse 200 true "Payment confirmed and subscription activated"
             (Some result) None, db')
      | (Throw error, db') =>
          (mkResponse 500 false "Failed to confirm payment" None
             (Some (message error)), db')
      end.

(** [POST /api/subscriptions/cancel] *)
Definition cancel_controller (now : instant) (userId : option string)
  : DB -> Response CancelResult * DB :=
  fun db =>
    if negb (truthy userId)
    then (mkResponse 400 false "Missing required field: userId is required"
            None None, db)
    else
      match cancelSubscription E now (default "" userId) db with
      | (Ok result, db') =>
          (mkResponse 200 true "Subscription canceled successfully"
             (Some result) None, db')
      | (Throw error, db') =>
          let msg := message error in
          if includes msg "User not found"
          then (mkResponse 404 false "User not found" None (Some msg), db')
          else if includes msg "No active subscription"
          then (mkResponse 400 false "No active subscription found"
                  None (Some msg), db')
          else (mkResponse 500 false "Failed to cancel subscription"
                  None (Some msg), db')
      end.

(** [GET /api/subscriptions/me] *)
Definition details_controller (now : instant) (userId : option string)
  : DB -> Response Details * DB :=
  fun db =>
    if negb (truthy userId)
    then (mkResponse 400 false "Missing required field: userId is required"
            None None, db)
    else
      match getSubscriptionDetails E now (default "" userId) db with
      | (Ok result, db') =>
          (mkResponse 200 true "Subscription details retrieved successfully"
             (Some result) None, db')
      | (Throw error, db') =>
          let msg := message error in
          if includes msg "User not found"
          then (mkResponse 404 false "User not found" None (Some msg), db')
          else if includes msg "No active subscription"
          then (mkResponse 404 false "No active subscription found"
                  None (Some msg), db')
          else (mkResponse 500 false "Failed to get subscription details"
                  None (Some msg), db')
      end.

(** [POST /api/admin/subscriptions/renew-due]; [ADMIN_TOKEN] is the variable
    of the process environment, [adminToken] the header [x-admin-token]. *)
Definition renew_controller (ADMIN_TOKEN : option string) (now : instant)
    (adminToken : option string) : DB -> Response RenewalSummary * DB :=
  fun db =>
    if (negb (truthy adminToken) || negb (same_token adminToken ADMIN_TOKEN))%bool
    then (mkResponse 401 false "Unauthorized. Admin token required." None None, db)
    else
      match renewDueSubscriptions E now db with
      | (Ok result, db') =>
          (mkResponse 200 true "Subscription renewals processed" (Some result) None,
           db')
      | (Throw error, db') =>
          (mkResponse 500 false "Failed to run subscription renewals" None
             (Some (message error)), db')
      end.

(** [scripts/runRenewals.js]: the exit code of the process. *)
Definition runRenewals (now : instant) : DB -> Z * DB :=
  fun db =>
    match renewDueSubscriptions E now db with
    | (Ok result, db') => (if (0 <? failed result)%nat then 1 else 0, db')
    | (Throw _, db') => (1, db')
    end.

End Endpoints.

(** The requests of the HTTP interface and the run of the cron script. *)
Inductive api : Type :=
| PostSetupUser (body : SetupBody)
| PostConfirm (body : ConfirmBody)
| GetMe (userId : option string)
| PostCancel (userId : option string)
| PostConsume (body : ConsumeBody)
| PostRenewDue (adminToken : option string)
| RunRenewals.

Definition handle (E : Env) (ADMIN_TOKEN : option string) (now : instant) (r : api)
    (db : DB) : DB :=
  match r with
  | PostSetupUser body => snd (setupNewUser E now body db)
  | PostConfirm body => snd (confirm_controller E now body db)
  | GetMe userId => snd (details_controller E now userId db)
  | PostCancel userId => snd (cancel_controller E now userId db)
  | PostConsume body => snd (consume_controller E now body db)
  | PostRenewDue adminToken => snd (renew_controller E ADMIN_TOKEN now adminToken db)
  | RunRenewals => snd (runRenewals E now db)
  end.

Fixpoint handle_all (E : Env) (ADMIN_TOKEN : option string)
    (trace : list (instant * api)) (db : DB) : DB :=
  match trace with
  | [] => db
  | (now, r) :: rest => handle_all E ADMIN_TOKEN rest (handle E ADMIN_TOKEN now r db)
  end.

(** ** [getUser]

    [GET /api/user/getUser]: one query for the user with the related rows,
    by the relations the writes of the sources establish (statistics,
    subscriptions, receipts by user id; a subscription's plan by plan id and
    its receipts by subscription id; referrals and referrer by
    [referredById]). *)

Record Referral := mkReferral {
  rf_id : string;
  rf_clerkUserId : string;
  rf_email : string;
  rf_name : string
}.

(** The statistics of the response: the user's row, or the default it puts
    in its place. *)
Inductive StatsView : Type :=
| OwnStats (row : ReferralStats)
| NoStats (totalUsersSigned totalPaidSubscribers : Z) (totalEarning amountDeduct : float).

Record SubscriptionDetail := mkSubscriptionDetail {
  sd_subscription : Subscription;
  sd_plan : Plan;
  sd_billingHistory : list BillingHistory
}.

Record UserView := mkUserView {
  uv_id : string;
  uv_clerkUserId : string;
  uv_email : string;
  uv_name : string;
  uv_referredById : option string;
  uv_referralStats : StatsView;
  uv_subscriptions : list SubscriptionDetail;
  uv_billingHistory : list BillingHistory;
  uv_referrals : list Referral;
  uv_referredBy : option Referral
}.

Definition referral_of (u : User) : Referral :=
  mkReferral (user_id u) (clerkUserId u) (email u) (user_name u).

Section GetUser.

Variable E : Env.

(** [subscriptions: { include: { plan: true, billingHistory: true } }] *)
Fixpoint with_plan_and_receipts (rows : list Subscription)
  : M (list SubscriptionDetail) :=
  match rows with
  | [] => ret []
  | s :: rest =>
      p <- include_plan s ;;
      db <- get ;;
      others <- with_plan_and_receipts rest ;;
      ret (mkSubscriptionDetail s p
             (filter (fun b => (bh_subscriptionId b =? sub_id s)%string)
                     (billingHistory db)) :: others)
  end.

(** [user.findUnique({ where: { clerkUserId }, include: { ... } })] *)
Definition user_findUnique_with_relations (clerk : string) : M (option UserView) :=
  call_store E (UserFindUnique clerk) ;;;
  db <- get ;;
  match find (fun u => (clerkUserId u =? clerk)%string) (users db) with
  | None => ret None
  | Some user =>
      subs <- with_plan_and_receipts
                (filter (fun s => (sub_userId s =? user_id user)%string)
                        (subscriptions db)) ;;
      ret (Some
             (mkUserView (user_id user) (clerkUserId user) (email user)
                (user_name user) (referredById user)
                match find (fun r => (rs_userId r =? user_id user)%string)
                        (referralStats db) with
                | Some r => OwnStats r
                | None => NoStats 0 0 0%float 0%float
                end
                subs
                (filter (fun b => (bh_userId b =? user_id user)%string)
                        (billingHistory db))
                (map referral_of
                   (filter (fun u => match referredById u with
                                     | Some r => (r =? user_id user)%string
                                     | None => false
                                     end) (users db)))
                match referredById user with
                | Some r =>
                    option_map referral_of
                      (find (fun u => (user_id u =? r)%string) (users db))
                | None => None
                end))
  end.

Definition getUser (clerkUserId : option string) : DB -> Response UserView * DB :=
  fun db =>
    if negb (truthy clerkUserId)
    then (mkResponse 400 false "Missing required field: clerkUserId is mandatory"
            None None, db)
    else
      match user_findUnique_with_relations (default "" clerkUserId) db with
      | (Ok None, db') => (mkResponse 404 false "User not found" None None, db')
      | (Ok (Some user), db') =>
          (mkResponse 200 true "User details retrieved successfully" (Some user) None,
           db')
      | (Throw error, db') =>
          (mkResponse 500 false "An error occurred while retrieving the user" None
             (Some (message error)), db')
      end.

End GetUser.

(** ** The Stripe webhook

    [POST /api/user/stripe-webhook].  The event is what
    [stripe.webhooks.constructEvent] returns for the request, with the
    fields of [event.data.object] the handler reads. *)

Record Metadata := mkMetadata {
  md_userId : option string;
  md_planId : option string;
  md_billingCycle : option string
}.

Record PaymentObject := mkPaymentObject {
  po_id : option string;
  po_payment_intent : option string;
  po_amount : option float;
  po_amount_total : option float;
  po_currency : option string;
  po_metadata : option Metadata
}.

Record StripeEvent := mkStripeEvent {
  ev_type : string;
  ev_object : PaymentObject
}.

(** Truthiness of a nullable number: false for a missing one, for a zero
    and for NaN. *)
Definition truthy_number (x : option float) : bool :=
  match x with
  | Some v => negb (PrimFloat.eqb v 0 || negb (PrimFloat.eqb v v))
  | None => false
  end.

(** [amount ? amount / 100 : 0]: cents to currency units. *)
Definition from_cents (amount : option float) : float :=
  match amount with
  | Some v => if truthy_number amount then PrimFloat.div v 100 else 0%float
  | None => 0%float
  end.

Definition payment_event (type : string) : bool :=
  ((type =? "payment_intent.succeeded")%string
   || (type =? "checkout.session.completed")%string)%bool.

(** The handler, given the verified event ([None] where the verification of
    the signature throws).  It has no answer here ([None]) for a payment
    event whose object carries neither [id] nor [payment_intent]: the call
    then passes no payment id, and what the store makes of a receipt without
    one is the schema's to say. *)
Definition handleStripeWebhook (E : Env) (now : instant) (verified : option StripeEvent)
  : DB -> option (Response ConfirmResult * DB) :=
  fun db =>
    match verified with
    | None =>
        Some (mkResponse 400 false "Invalid webhook signature" None None, db)
    | Some event =>
        if payment_event (ev_type event) then
          let paymentData := ev_object event in
          let paymentIntentId :=
            if truthy (po_id paymentData) then po_id paymentData
            else po_payment_intent paymentData in
          let amount :=
            if truthy_number (po_amount paymentData) then po_amount paymentData
            else po_amount_total paymentData in
          let currency := string_or "usd" (po_currency paymentData) in
          let metadata := default (mkMetadata None None None) (po_metadata paymentData) in
          let userId := md_userId metadata in
          let planId := md_planId metadata in
          let billingCycle := string_or "monthly" (md_billingCycle metadata) in
          if (negb (truthy userId) || negb (truthy planId))%bool
          then Some (mkResponse 400 false "Missing userId or planId in payment metadata"
                       None None, db)
          else if negb (known_cycle billingCycle)
          then Some (mkResponse 400 false "Invalid billingCycle value in metadata"
                       None None, db)
          else
            match paymentIntentId with
            | None => None
            | Some externalPaymentId =>
                match confirmPayment E now (default "" userId) (default "" planId)
                        (Some now) externalPaymentId
                        (mkOptions (Some billingCycle) (Some (from_cents amount))
                           (Some currency)) db with
                | (Ok result, db') =>
                    Some (mkResponse 200 true
                            "Payment processed and subscription updated successfully"
                            (Some result) None, db')
                | (Throw error, db') =>
                    Some (mkResponse 500 false
                            "An error occurred while processing the payment" None
                            (Some (message error)), db')
                end
            end
        else
          Some (mkResponse 200 true "Webhook received (non-payment event)" None None, db)
    end.

(** ** Further notions the properties are stated with *)

(** All plans of the catalogue grant a non-negative number of credits. *)
Definition nonneg_quotas (db : DB) : Prop :=
  forall p, In p (plans db) -> 0 <= dailyCredits p /\ 0 <= monthlyCredits p.

(** No user has consumed more than they were granted. *)
Definition solvent (db : DB) : Prop := forall uid, 0 <= balance uid db.

(** The user who holds a reference code. *)
Definition holder_of (reference : string) (db : DB) : option User :=
  find (fun u =>
          existsb (fun r => ((rs_userId r =? user_id u)%string
                             && (referenceId r =? reference)%string)%bool)
                  (referralStats db))
       (users db).

Definition plan_by_name (name : string) (db : DB) : option Plan :=
  find (fun p => (plan_name p =? name)%string) (plans db).

(** Every ledger entry belongs to a user of the store. *)
Definition ledger_owned (db : DB) : Prop :=
  forall e, In e (creditLedger db) -> exists u, In u (users db) /\ user_id u = cl_userId e.

(** The store after the subscription [s] was cancelled at [now]. *)
Definition canceled_db (now : instant) (s : Subscription) (db : DB) : DB :=
  set_subscriptions
    (map (fun r => if (sub_id r =? sub_id s)%string then mark_canceled now s else r)
         (subscriptions db)) db.

(** What [consumeCredits] reads of the store: users, plans, ledger and usage
    rows, and of a subscription its id, owner, status and plan. *)
Definition consumption_view (db : DB)
  : list User * list Plan * list (string * string * string * string)
    * list CreditLedger * list DailyUsage :=
  (users db, plans db,
   map (fun s => (sub_id s, sub_userId s, status s, sub_planId s)) (subscriptions db),
   creditLedger db, dailyUsage db).

(** What a renewal pass at [now] makes of a subscription row. *)
Definition renew_row (now : instant) (s : Subscription) : Subscription :=
  if due now s then renewed_row now s else s.

(** [k] runs of the renewal job, one after the other, at the same instant. *)
Fixpoint renew_passes (E : Env) (now : instant) (k : nat) (db : DB) : DB :=
  match k with
  | O => db
  | S k' => renew_passes E now k' (snd (renewDueSubscriptions E now db))
  end.

(** ** A worked example

    A healthy environment, the catalogue of the README, and a store built by
    running the operations: Alice and Bob sign up, Bob with Alice's
    reference code; Alice pays for Premium and Bob for Pro, so that the
    periods of both subscriptions are the ones [confirmPayment] sets. *)
Module Example.

#[local] Set Warnings "-inexact-float".

Definition no_fault : call -> DB -> option string := fun _ _ => None.

Definition E_ok : Env :=
  mkEnv no_fault
    (fun db => "c" ++ show_Z (Z.of_nat (List.length (users db)
                                         + List.length (subscriptions db)
                                         + List.length (plans db))))
    (fun db => show_Z (Z.of_nat (List.length (referralStats db))))
    (fun now => (now, now)).

(** An environment whose store rejects every ledger insert for subscription
    [sid] and nothing else. *)
Definition E_ledger_down (sid : string) : Env :=
  mkEnv (fun c _ =>
           match c with
           | CreditLedgerCreate _ s =>
               if (s =? sid)%string then Some "Connection reset by peer" else None
           | _ => None
           end)
    (cuid E_ok) (random_ref E_ok) (default_period E_ok).

Definition free : Plan :=
  mkPlan "free-plan-id" "Free" 0%float 0%float 0 2 false "Free trial with 2 credits".

Definition pro : Plan :=
  mkPlan "pro-plan-id" "Pro" 9.99%float 99.99%float 25 0 true
    "Pro plan with 25 daily searches".

Definition premium : Plan :=
  mkPlan "premium-plan-id" "Premium" 19.99%float 199.99%float 0 1000 false
    "Premium plan with 1000 monthly credits".

Definition catalogue : DB := set_plans [free; pro; premium] empty_db.

Definition jan15 : instant := JsDate.utc 2024 1 15 10 0.
Definition jan16 : instant := JsDate.utc 2024 1 16 9 30.
Definition feb20 : instant := JsDate.utc 2024 2 20 0 0.
Definition apr01 : instant := JsDate.utc 2024 4 1 0 0.

Definition with_alice : DB :=
  snd (setupNewUser E_ok jan15
         (mkSetupBody (Some "clerk_alice") (Some "alice@example.org") (Some "Alice") None)
         catalogue).

Definition with_bob : DB :=
  snd (setupNewUser E_ok jan15
         (mkSetupBody (Some "clerk_bob") (Some "bob@example.org") None
            (Some "AURA-REF-0"))
         with_alice).

Definition price_9_99 : float := 9.99%float.

Definition price_19_99 : float := 19.99%float.

Definition premium_monthly : Options :=
  mkOptions (Some "monthly") (Some price_19_99) None.

(** Alice pays 19.99 for a month of Premium on 15 January, 10:00. *)
Definition alice_paid : DB :=
  snd (confirmPayment E_ok jan15 "clerk_alice" "Premium" (Some jan15) "pi_0"
         premium_monthly with_bob).

Definition pro_monthly : Options := mkOptions (Some "monthly") (Some price_9_99) None.

(** Bob pays 9.99 for a month of Pro on 16 January, 9:30. *)
Definition bob_paid : DB :=
  snd (confirmPayment E_ok jan16 "clerk_bob" "Pro" (Some jan16) "pi_1" pro_monthly
         alice_paid).

(** Bob has used 20 of his 25 daily credits. *)
Definition bob_used_20 : DB :=
  snd (consumeCredits E_ok jan16 "clerk_bob" 20 "Face search API call" bob_paid).

(** The store before Bob's payment with every referral row gone, so that
    the commission update of his payment has no row to update. *)
Definition no_referral_rows : DB := set_referralStats [] alice_paid.

Definition lapse (s : Subscription) : Subscription :=
  mkSubscription (sub_id s) (sub_userId s) (sub_planId s) (stripeSubscriptionId s)
    (billingCycle s) "expired" (currentPeriodStart s) (currentPeriodEnd s)
    (cancelAtPeriodEnd s) (canceledAt s) (startDate s) (endDate s)
    (remainingCredits s) (updatedAt s).

(** Bob's store after his subscription lapsed: the ledger still holds his
    25 credits. *)
Definition bob_lapsed : DB :=
  set_subscriptions (map lapse (subscriptions bob_paid)) bob_paid.

(** Requests served one after the other, starting from an empty store:
    two signups, then two payments by Bob in immediate succession. *)
Definition trace : list (instant * request) :=
  [ (jan15, SetupNewUser (mkSetupBody (Some "clerk_alice") (Some "alice@example.org")
                            (Some "Alice") None));
    (jan15, SetupNewUser (mkSetupBody (Some "clerk_bob") (Some "bob@example.org")
                            None (Some "AURA-REF-0")));
    (jan16, ConfirmPayment "clerk_bob" "Free" None "pi_1" (mkOptions None None None));
    (jan16, ConfirmPayment "clerk_bob" "Free" None "pi_2" (mkOptions None None None));
    (feb20, RenewDueSubscriptions) ].

(** The binary64 number nearest to the decimal 1.998. *)
Definition nearest_1_998 : float := 1.998%float.

End Example.

(** ** Further scenarios *)
Module Scenario.

(** A store that rejects the insert of a statistics row and nothing else. *)
Definition E_stats_down : Env :=
  mkEnv (fun c _ =>
           match c with
           | ReferralStatsCreate _ => Some "Connection reset by peer"
           | _ => None
           end)
    (cuid Example.E_ok) (random_ref Example.E_ok) (default_period Example.E_ok).

Definition alice : SetupBody :=
  mkSetupBody (Some "clerk_alice") (Some "alice@example.org") (Some "Alice") None.

Definition bob : SetupBody :=
  mkSetupBody (Some "clerk_bob") (Some "bob@example.org") None (Some "AURA-REF-0").

Definition carol_with_a_wrong_code : SetupBody :=
  mkSetupBody (Some "clerk_carol") (Some "carol@example.org") (Some "Carol")
    (Some "AURA-REF-nobody").

(** The event Stripe sends when Bob's payment of 9.99 for the Pro plan has
    succeeded: 999 cents, with the metadata the payment intent was created
    with. *)
Definition bob_payment_succeeded : StripeEvent :=
  mkStripeEvent "payment_intent.succeeded"
    (mkPaymentObject (Some "pi_3Bob") None (Some 999%float) None (Some "usd")
       (Some (mkMetadata (Some "clerk_bob") (Some "pro-plan-id") (Some "monthly")))).

End Scenario.

(** * Properties

    ** Calendar arithmetic *)

Module JsDateFacts.
Import JsDate.

Lemma leapOf_range y : 0 <= leapOf y <= 1.
Proof. unfold leapOf. destruct (DaysInYear y =? 366); lia. Qed.

Lemma DaysInYear_leapOf y : DaysInYear y = 365 + leapOf y.
Proof.
  unfold leapOf, DaysInYear.
  destruct (negb (y mod 4 =? 0)); [reflexivity |].
  destruct (negb (y mod 100 =? 0)); [reflexivity |].
  destruct (negb (y mod 400 =? 0)); reflexivity.
Qed.

Lemma DayFromYear_next y : DayFromYear (y + 1) = DayFromYear y + DaysInYear y.
Proof.
  unfold DayFromYear, DaysInYear.
  destruct (y mod 4 =? 0) eqn:H4; destruct (y mod 100 =? 0) eqn:H100;
    destruct (y mod 400 =? 0) eqn:H400; cbn [negb];
    repeat match goal with
           | H : (_ =? _) = true |- _ => apply Z.eqb_eq in H
           | H : (_ =? _) = false |- _ => apply Z.eqb_neq in H
           end;
    Z.div_mod_to_equations; lia.
Qed.

Lemma DayFromYear_le y1 y2 : y1 <= y2 -> DayFromYear y1 <= DayFromYear y2.
Proof. intros H. unfold DayFromYear. Z.div_mod_to_equations. lia. Qed.

Lemma DayFromYear_estimate d :
  DayFromYear (1970 + (d * 400) / 146097 - 1) <= d
  < DayFromYear (1970 + (d * 400) / 146097 + 2).
Proof. unfold DayFromYear. Z.div_mod_to_equations. lia. Qed.

Lemma Day_bounds t : Day t * msPerDay <= t < Day t * msPerDay + msPerDay.
Proof. unfold Day, msPerDay. Z.div_mod_to_equations. lia. Qed.

(** [YearFromTime] is the year ECMAScript defines: the one whose first
    instant is the last not after [t]. *)
Lemma YearFromTime_spec t :
  TimeFromYear (YearFromTime t) <= t < TimeFromYear (YearFromTime t + 1).
Proof.
  unfold YearFromTime, TimeFromYear.
  pose proof (DayFromYear_estimate (Day t)) as H.
  set (y := 1970 + Day t * 400 / 146097) in *.
  pose proof (Day_bounds t) as Ht.
  pose proof (DayFromYear_next (y - 1)) as Hn0. replace (y - 1 + 1) with y in Hn0 by lia.
  pose proof (DayFromYear_next y) as Hn1.
  pose proof (DayFromYear_next (y + 1)) as Hn2.
  replace (y + 1 + 1) with (y + 2) in * by lia.
  unfold msPerDay in *.
  destruct (86400000 * DayFromYear (y + 1) <=? t) eqn:H1.
  - apply Z.leb_le in H1. replace (y + 1 + 1) with (y + 2) by lia. lia.
  - apply Z.leb_gt in H1. destruct (t <? 86400000 * DayFromYear y) eqn:H2.
    + apply Z.ltb_lt in H2. replace (y - 1 + 1) with y by lia. lia.
    + apply Z.ltb_ge in H2. lia.
Qed.

Lemma YearFromTime_unique t y :
  TimeFromYear y <= t < TimeFromYear (y + 1) -> YearFromTime t = y.
Proof.
  intros H. pose proof (YearFromTime_spec t) as Hs. unfold TimeFromYear, msPerDay in *.
  destruct (Z.lt_trichotomy (YearFromTime t) y) as [Hlt | [Heq | Hgt]]; [| exact Heq |].
  - pose proof (DayFromYear_le (YearFromTime t + 1) y ltac:(lia)). lia.
  - pose proof (DayFromYear_le (y + 1) (YearFromTime t) ltac:(lia)). lia.
Qed.

Lemma DayWithinYear_range t :
  0 <= DayWithinYear t < 365 + InLeapYear t.
Proof.
  pose proof (YearFromTime_spec t) as Hs. pose proof (Day_bounds t) as Ht.
  unfold DayWithinYear, InLeapYear, TimeFromYear, msPerDay in *.
  rewrite DayFromYear_next, DaysInYear_leapOf in Hs. lia.
Qed.

Ltac month_cases m :=
  let H := fresh in
  assert (m = 0 \/ m = 1 \/ m = 2 \/ m = 3 \/ m = 4 \/ m = 5 \/ m = 6 \/ m = 7
          \/ m = 8 \/ m = 9 \/ m = 10 \/ m = 11) as H by lia;
  repeat (destruct H as [H | H]); subst m.

(** Evaluate the month tables where they are applied to numerals. *)
Ltac eval_months :=
  repeat match goal with
         | |- context [daysBeforeMonth ?l ?m] =>
             let v := eval vm_compute in (daysBeforeMonth l m) in
             progress change (daysBeforeMonth l m) with v
         | |- context [daysInMonth ?l ?m] =>
             let v := eval vm_compute in (daysInMonth l m) in
             progress change (daysInMonth l m) with v
         | H : context [daysBeforeMonth ?l ?m] |- _ =>
             let v := eval vm_compute in (daysBeforeMonth l m) in
             progress change (daysBeforeMonth l m) with v in H
         | H : context [daysInMonth ?l ?m] |- _ =>
             let v := eval vm_compute in (daysInMonth l m) in
             progress change (daysInMonth l m) with v in H
         end.

Lemma daysBeforeMonth_next leap m :
  0 <= leap <= 1 -> 0 <= m < 11 ->
  daysBeforeMonth leap (m + 1) = daysBeforeMonth leap m + daysInMonth leap m.
Proof.
  intros Hl Hm. assert (leap = 0 \/ leap = 1) as [-> | ->] by lia;
    month_cases m; try lia; reflexivity.
Qed.

Lemma daysInMonth_range leap m : 0 <= leap <= 1 -> 28 <= daysInMonth leap m <= 31.
Proof.
  intros Hl. unfold daysInMonth.
  destruct (m =? 1); [lia |]. destruct (_ || _)%bool; lia.
Qed.

Lemma MonthFromTime_range t : 0 <= MonthFromTime t <= 11.
Proof.
  unfold MonthFromTime.
  repeat match goal with |- context [if ?c then _ else _] => destruct c end; lia.
Qed.

(** The date is a day of its month. *)
Lemma DateFromTime_range t :
  1 <= DateFromTime t <= daysInMonth (InLeapYear t) (MonthFromTime t).
Proof.
  pose proof (DayWithinYear_range t) as Hd.
  assert (Hl : 0 <= InLeapYear t <= 1) by apply leapOf_range.
  unfold DateFromTime, MonthFromTime.
  set (d := DayWithinYear t) in *. set (leap := InLeapYear t) in *.
  assert (leap = 0 \/ leap = 1) as [Hleap | Hleap] by lia; rewrite Hleap in *;
    repeat match goal with
           | |- context [if ?c <? ?e then _ else _] =>
               let Hc := fresh in destruct (c <? e) eqn:Hc;
               [apply Z.ltb_lt in Hc | apply Z.ltb_ge in Hc]
           end;
    cbn; lia.
Qed.

(** A time value is made of its own fields. *)
Lemma Day_decomposition t :
  Day t = MakeDay (YearFromTime t) (MonthFromTime t) (DateFromTime t).
Proof.
  pose proof (MonthFromTime_range t) as Hm.
  unfold MakeDay, DateFromTime, DayWithinYear, InLeapYear.
  rewrite Z.div_small, Z.mod_small by lia.
  rewrite Z.add_0_r. lia.
Qed.

(** And the fields of a time value made of a year, a month, a day of that
    month and a time of day are those. *)
Lemma fields_of_MakeDate y m d tod :
  0 <= m <= 11 -> 1 <= d <= daysInMonth (leapOf y) m -> 0 <= tod < msPerDay ->
  YearFromTime (MakeDate (MakeDay y m d) tod) = y
  /\ MonthFromTime (MakeDate (MakeDay y m d) tod) = m
  /\ DateFromTime (MakeDate (MakeDay y m d) tod) = d
  /\ TimeWithinDay (MakeDate (MakeDay y m d) tod) = tod.
Proof.
  intros Hm Hd Htod.
  pose proof (leapOf_range y) as Hl.
  assert (HD : MakeDay y m d = DayFromYear y + daysBeforeMonth (leapOf y) m + d - 1).
  { unfold MakeDay. rewrite Z.div_small, Z.mod_small by lia.
    rewrite Z.add_0_r. reflexivity. }
  assert (Hwithin : 0 <= daysBeforeMonth (leapOf y) m + d - 1 < 365 + leapOf y).
  { set (leap := leapOf y) in *.
    assert (leap = 0 \/ leap = 1) as [Hleap | Hleap] by lia; rewrite Hleap in *;
      month_cases m; eval_months; lia. }
  set (t := MakeDate (MakeDay y m d) tod).
  assert (Hday : Day t = MakeDay y m d).
  { unfold t, MakeDate, Day. unfold msPerDay in *. Z.div_mod_to_equations. nia. }
  assert (Htime : TimeWithinDay t = tod).
  { unfold t, MakeDate, TimeWithinDay.
    rewrite Z.add_comm, Z.mod_add by (unfold msPerDay; lia).
    apply Z.mod_small. assumption. }
  assert (Hy : YearFromTime t = y).
  { apply YearFromTime_unique. unfold TimeFromYear.
    rewrite DayFromYear_next, DaysInYear_leapOf.
    pose proof (Day_bounds t) as Hb. rewrite Hday, HD in Hb.
    unfold msPerDay in *. lia. }
  assert (Hdwy : DayWithinYear t = daysBeforeMonth (leapOf y) m + d - 1).
  { unfold DayWithinYear. rewrite Hy, Hday, HD. lia. }
  assert (Hmonth : MonthFromTime t = m).
  { unfold MonthFromTime, InLeapYear. rewrite Hy, Hdwy.
    set (leap := leapOf y) in *.
    assert (leap = 0 \/ leap = 1) as [Hleap | Hleap] by lia; rewrite Hleap in *;
      month_cases m; eval_months;
      repeat match goal with
             | |- context [if ?c <? ?e then _ else _] =>
                 let Hc := fresh in destruct (c <? e) eqn:Hc;
                 [apply Z.ltb_lt in Hc | apply Z.ltb_ge in Hc]; try lia
             end; reflexivity. }
  repeat split; try assumption.
  unfold DateFromTime, InLeapYear. rewrite Hmonth, Hy, Hdwy. lia.
Qed.

Lemma MakeDay_monthStart y m d : MakeDay y m d = monthStart (12 * y + m) + d - 1.
Proof.
  unfold monthStart, MakeDay.
  replace ((12 * y + m) / 12) with (y + m / 12)
    by (rewrite Z.mul_comm, Z.div_add_l by lia; reflexivity).
  replace ((12 * y + m) mod 12) with (m mod 12)
    by (rewrite Z.mul_comm, Z.add_comm, Z.mod_add by lia; reflexivity).
  cbn [Z.add]. lia.
Qed.

Lemma monthStart_step i : monthStart i < monthStart (i + 1).
Proof.
  unfold monthStart, MakeDay. cbn [Z.add].
  destruct (Z.eq_dec (i mod 12) 11) as [H11 | H11].
  - assert ((i + 1) / 12 = i / 12 + 1) as -> by (Z.div_mod_to_equations; lia).
    assert ((i + 1) mod 12 = 0) as -> by (Z.div_mod_to_equations; lia).
    rewrite H11, DayFromYear_next, DaysInYear_leapOf.
    change (daysBeforeMonth (leapOf (i / 12 + 1)) 0) with 0.
    change (daysBeforeMonth (leapOf (i / 12)) 11) with (334 + leapOf (i / 12)).
    lia.
  - assert ((i + 1) / 12 = i / 12) as -> by (Z.div_mod_to_equations; lia).
    assert ((i + 1) mod 12 = i mod 12 + 1) as -> by (Z.div_mod_to_equations; lia).
    assert (0 <= i mod 12 < 11) as Hm by (Z.div_mod_to_equations; lia).
    rewrite (daysBeforeMonth_next _ _ (leapOf_range _) Hm).
    pose proof (daysInMonth_range (leapOf (i / 12)) (i mod 12) (leapOf_range _)).
    lia.
Qed.

Lemma monthStart_lt i n : 0 < n -> monthStart i < monthStart (i + n).
Proof.
  intros Hn.
  assert (H : forall k, 0 <= k -> monthStart i < monthStart (i + 1 + k)).
  { apply natlike_ind.
    - rewrite Z.add_0_r. apply monthStart_step.
    - intros x Hx IH. replace (i + 1 + Z.succ x) with (i + 1 + x + 1) by lia.
      pose proof (monthStart_step (i + 1 + x)). lia. }
  replace (i + n) with (i + 1 + (n - 1)) by lia. apply H. lia.
Qed.

(** Adding months moves a date strictly forward. *)
Lemma addMonths_increases t n : 0 < n -> t < addMonths t n.
Proof.
  intros Hn. unfold addMonths, setMonth, getMonth, MakeDate.
  pose proof (Day_decomposition t) as Hd.
  rewrite MakeDay_monthStart in *.
  pose proof (monthStart_lt (12 * YearFromTime t + MonthFromTime t) n Hn) as Hlt.
  replace (12 * YearFromTime t + (MonthFromTime t + n))
    with (12 * YearFromTime t + MonthFromTime t + n) by lia.
  assert (Ht : t = Day t * msPerDay + TimeWithinDay t).
  { unfold Day, TimeWithinDay, msPerDay. Z.div_mod_to_equations. lia. }
  rewrite Ht at 1. rewrite Hd. unfold msPerDay. nia.
Qed.

(** Adding months to a date on or before the 28th gives the same day and
    time of day, [n] calendar months on. *)
Lemma addMonths_same_date t n :
  DateFromTime t <= 28 ->
  YearFromTime (addMonths t n) = YearFromTime t + (MonthFromTime t + n) / 12
  /\ MonthFromTime (addMonths t n) = (MonthFromTime t + n) mod 12
  /\ DateFromTime (addMonths t n) = DateFromTime t
  /\ TimeWithinDay (addMonths t n) = TimeWithinDay t.
Proof.
  intros H28. unfold addMonths, setMonth, getMonth.
  set (y := YearFromTime t). set (m := MonthFromTime t). set (d := DateFromTime t).
  assert (Hmd : MakeDay y (m + n) d = MakeDay (y + (m + n) / 12) ((m + n) mod 12) d).
  { unfold MakeDay.
    rewrite (Z.div_small ((m + n) mod 12)), (Z.mod_small ((m + n) mod 12))
      by (Z.div_mod_to_equations; lia).
    rewrite Z.add_0_r. reflexivity. }
  rewrite Hmd. apply fields_of_MakeDate.
  - Z.div_mod_to_equations. lia.
  - pose proof (DateFromTime_range t).
    pose proof (daysInMonth_range (leapOf (y + (m + n) / 12)) ((m + n) mod 12)
                  (leapOf_range _)).
    unfold d in *. lia.
  - unfold TimeWithinDay, msPerDay. Z.div_mod_to_equations. lia.
Qed.

End JsDateFacts.

(** ** Lists and rows *)

Lemma map_update_first {A B} (g : A -> B) (p : A -> bool) (f : A -> A) (l : list A) :
  (forall x, In x l -> p x = true -> g (f x) = g x) ->
  map g (update_first p f l) = map g l.
Proof.
  induction l as [| a l IH]; intros H; cbn [update_first map].
  - reflexivity.
  - destruct (p a) eqn:Hp; cbn [map].
    + rewrite (H a) by (auto using in_eq). reflexivity.
    + rewrite IH by (intros; apply H; auto using in_cons). reflexivity.
Qed.

Lemma update_first_no_match {A} (p : A -> bool) (f : A -> A) (l : list A) :
  find p l = None -> update_first p f l = l.
Proof.
  induction l as [| a l IH]; cbn [find update_first]; intros H.
  - reflexivity.
  - destruct (p a); [discriminate | rewrite IH by assumption; reflexivity].
Qed.

Lemma find_update_first {A} (p : A -> bool) (f : A -> A) (l : list A) (x : A) :
  find p l = Some x -> p (f x) = true -> find p (update_first p f l) = Some (f x).
Proof.
  induction l as [| a l IH]; cbn [find update_first]; intros H Hf.
  - discriminate.
  - destruct (p a) eqn:Hp.
    + injection H as ->. cbn [find]. rewrite Hf. reflexivity.
    + cbn [find]. rewrite Hp. auto.
Qed.

Lemma filter_find_none {A} (p : A -> bool) (l : list A) :
  find p l = None -> filter p l = [].
Proof.
  induction l as [| a l IH]; cbn [find filter]; intros H.
  - reflexivity.
  - destruct (p a); [discriminate | auto].
Qed.

Lemma find_filter_head {A} (p : A -> bool) (l : list A) (x : A) :
  find p l = Some x -> exists rest, filter p l = x :: rest.
Proof.
  induction l as [| a l IH]; cbn [find filter]; intros H.
  - discriminate.
  - destruct (p a); [injection H as ->; eauto | auto].
Qed.

Lemma existsb_false_not_In {A B} (g : A -> B) (eqb : B -> B -> bool) (l : list A) (b : B) :
  (forall x y, eqb x y = true <-> x = y) ->
  existsb (fun a => eqb (g a) b) l = false -> ~ In b (map g l).
Proof.
  intros Heq H Hin. apply in_map_iff in Hin as (a & <- & Ha).
  assert (existsb (fun a0 => eqb (g a0) (g a)) l = true) as Ht.
  { apply existsb_exists. exists a. split; [assumption | apply Heq; reflexivity]. }
  congruence.
Qed.

Lemma existsb_false_orb {A} (p q : A -> bool) (l : list A) :
  existsb (fun a => (p a || q a)%bool) l = false ->
  existsb p l = false /\ existsb q l = false.
Proof.
  induction l as [| a l IH]; cbn [existsb]; intros H.
  - split; reflexivity.
  - apply orb_false_iff in H as (Ha & Hl). apply orb_false_iff in Ha as (Hp & Hq).
    destruct (IH Hl) as (H1 & H2). rewrite Hp, Hq, H1, H2. split; reflexivity.
Qed.

Lemma sum_amounts_app l1 l2 :
  sum_amounts (l1 ++ l2) = sum_amounts l1 + sum_amounts l2.
Proof.
  induction l1 as [| a l1 IH]; cbn [sum_amounts fold_right app].
  - reflexivity.
  - fold (sum_amounts (l1 ++ l2)). fold (sum_amounts l1). lia.
Qed.

(** A primary key finds the row itself. *)
Lemma key_identifies (l : list Subscription) (s x : Subscription) :
  NoDup (map sub_id l) -> In s l -> In x l -> sub_id x = sub_id s -> x = s.
Proof.
  induction l as [| a l IH]; cbn [map In]; intros Hnd Hs Hx Hid.
  - contradiction.
  - inversion Hnd as [| ? ? Hnotin Hnd']; subst.
    destruct Hs as [Hs | Hs], Hx as [Hx | Hx].
    + congruence.
    + exfalso. apply Hnotin. subst a. rewrite <- Hid. apply in_map; assumption.
    + exfalso. apply Hnotin. subst a. rewrite Hid. apply in_map; assumption.
    + auto.
Qed.

Lemma update_first_by_key (f : Subscription -> Subscription) (l : list Subscription)
    (s : Subscription) :
  NoDup (map sub_id l) -> In s l ->
  update_first (fun r => (sub_id r =? sub_id s)%string) f l
  = map (fun r => if (sub_id r =? sub_id s)%string then f s else r) l.
Proof.
  induction l as [| a l IH]; cbn [map In update_first]; intros Hnd Hs.
  - reflexivity.
  - inversion Hnd as [| ? ? Hnotin Hnd']; subst.
    destruct (sub_id a =? sub_id s)%string eqn:Hk.
    + apply String.eqb_eq in Hk.
      assert (a = s) as ->.
      { exact (key_identifies (a :: l) s a Hnd Hs (in_eq a l) Hk). }
      f_equal. transitivity (map (fun x : Subscription => x) l);
        [symmetry; apply map_id |]. apply map_ext_in.
      intros r Hr. destruct (sub_id r =? sub_id s)%string eqn:Hr'; [| reflexivity].
      apply String.eqb_eq in Hr'. exfalso. apply Hnotin. rewrite <- Hr'.
      apply in_map; assumption.
    + destruct Hs as [-> | Hs]; [rewrite String.eqb_refl in Hk; discriminate |].
      rewrite IH by assumption. reflexivity.
Qed.

(** ** The invariant *)

Lemma is_active_key uid s s' : key s = key s' -> is_active uid s = is_active uid s'.
Proof. unfold key, is_active. intros H. injection H as _ -> ->. reflexivity. Qed.

Lemma active_count_key uid (l l' : list Subscription) :
  map key l' = map key l ->
  List.length (filter (is_active uid) l') = List.length (filter (is_active uid) l).
Proof.
  revert l'. induction l as [| a l IH]; intros [| a' l'] H; cbn [map] in H;
    try discriminate; [reflexivity |].
  assert (Ha : key a' = key a) by (injection H; intros; unfold key; congruence).
  assert (Hl : map key l' = map key l) by (injection H; auto).
  cbn [filter].
  rewrite (is_active_key uid a' a Ha).
  destruct (is_active uid a); cbn [List.length]; rewrite (IH l' Hl); reflexivity.
Qed.

Lemma map_key_proj {B} (g : string * string * string -> B) (l l' : list Subscription) :
  map key l' = map key l ->
  map (fun s => g (key s)) l' = map (fun s => g (key s)) l.
Proof. intros H. rewrite <- !(map_map key g). rewrite H. reflexivity. Qed.

Lemma Inv_frame db db' :
  users db' = users db ->
  map key (subscriptions db') = map key (subscriptions db) ->
  Inv db -> Inv db'.
Proof.
  intros Hu Hk (Hnd & Hfk & Hone). unfold Inv, active_subscriptions in *.
  assert (Hids : map sub_id (subscriptions db') = map sub_id (subscriptions db)).
  { exact (map_key_proj (fun k => fst (fst k)) _ _ Hk). }
  assert (Hown : map sub_userId (subscriptions db') = map sub_userId (subscriptions db)).
  { exact (map_key_proj (fun k => snd (fst k)) _ _ Hk). }
  repeat split.
  - rewrite Hids. assumption.
  - intros s Hs. rewrite Hu.
    assert (In (sub_userId s) (map sub_userId (subscriptions db))) as Hin
      by (rewrite <- Hown; apply in_map; assumption).
    apply in_map_iff in Hin as (s0 & Heq & Hs0).
    destruct (Hfk s0 Hs0) as (u & Hu1 & Hu2). exists u. split; congruence.
  - intros uid. rewrite (active_count_key uid _ _ Hk). apply Hone.
Qed.

Lemma Inv_extend db db' s :
  Inv db ->
  (forall u, In u (users db) -> In u (users db')) ->
  subscriptions db' = (subscriptions db ++ [s])%list ->
  ~ In (sub_id s) (map sub_id (subscriptions db)) ->
  (exists u, In u (users db') /\ user_id u = sub_userId s) ->
  active_subscriptions (sub_userId s) db = [] ->
  Inv db'.
Proof.
  intros (Hnd & Hfk & Hone) Hu Hs Hfresh Hown Hnone.
  unfold Inv, active_subscriptions in *. rewrite Hs. repeat split.
  - rewrite map_app. cbn [map]. apply NoDup_app.
    + assumption.
    + constructor; [intros [] | constructor].
    + intros x Hx [<- | []]. contradiction.
  - intros x Hx. apply in_app_or in Hx as [Hx | [<- | []]].
    + destruct (Hfk x Hx) as (u & Hu1 & Hu2). exists u. auto.
    + assumption.
  - intros uid. rewrite filter_app, length_app. cbn [filter].
    destruct (is_active uid s) eqn:Ha.
    + unfold is_active in Ha. apply andb_true_iff in Ha as (Hid & _).
      apply String.eqb_eq in Hid. subst uid. rewrite Hnone. cbn. lia.
    + cbn [List.length]. specialize (Hone uid). lia.
Qed.

Lemma Inv_empty : Inv empty_db.
Proof.
  unfold Inv, active_subscriptions, empty_db; cbn. repeat split.
  - constructor.
  - intros s [].
  - intros; lia.
Qed.

(** ** Running the client *)

Ltac db_simpl :=
  cbn [users plans subscriptions creditLedger dailyUsage billingHistory referralStats
       set_users set_plans set_subscriptions set_creditLedger set_dailyUsage
       set_billingHistory set_referralStats fst snd] in *.

Ltac break_match :=
  cbv beta in *;
  match goal with
  | H : (_, _) = (_, _) |- _ => inversion H; subst; clear H
  | H : context [match ?x with _ => _ end] |- _ => destruct x eqn:?
  | |- context [match ?x with _ => _ end] => destruct x eqn:?
  end.

Ltac unfold_monad :=
  unfold rethrow, try_catch, transaction, bind, ret, throw, get, modify, call_store in *.

Ltac run_all := repeat (break_match; try discriminate).

(** *** [confirmPayment] *)

Section ConfirmFacts.

Variable E : Env.

Lemma confirm_transaction_ok now user plan paidAt ext cycle amount currency db sub db' :
  confirm_transaction E now user plan paidAt ext cycle amount currency db = (Ok sub, db') ->
  users db' = users db /\ plans db' = plans db /\ dailyUsage db' = dailyUsage db
  /\ creditLedger db'
     = (creditLedger db ++
        [mkCreditLedger (user_id user) (sub_id sub) (plan_quota plan) "granted"
           ("Credits granted for " ++ plan_name plan ++ " subscription") now])%list
  /\ billingHistory db'
     = (billingHistory db ++
        [mkBillingHistory (user_id user) (sub_id sub) amount currency "completed"
           paidAt ext])%list
  /\ referralStats db'
     = (if (truthy (referredById user) && PrimFloat.ltb 0 amount)%bool
        then update_first
               (fun r => (rs_userId r =? default "" (referredById user))%string)
               (accrue (referralEarning cycle plan)) (referralStats db)
        else referralStats db)
  /\ ((truthy (referredById user) && PrimFloat.ltb 0 amount)%bool = true ->
      stats_of (default "" (referredById user)) db <> None).
Proof.
  unfold confirm_transaction, subscription_findFirst_with_plan, subscription_findFirst,
    include_plan, subscription_update, subscription_create, creditLedger_create,
    billingHistory_create, referralStats_update, stats_of.
  unfold_monad. intros H. run_all.
  all: db_simpl; repeat split; try reflexivity; try congruence.
Qed.

Lemma confirm_transaction_subscriptions now user plan paidAt ext cycle amount currency
    db sub db' :
  NoDup (map sub_id (subscriptions db)) ->
  confirm_transaction E now user plan paidAt ext cycle amount currency db = (Ok sub, db') ->
  match active_of (user_id user) db with
  | Some s =>
      sub = activate plan cycle paidAt
              (JsDate.addMonths paidAt (cycle_months cycle)) now s
      /\ subscriptions db'
         = update_first (fun r => (sub_id r =? sub_id s)%string)
             (activate plan cycle paidAt
                (JsDate.addMonths paidAt (cycle_months cycle)) now)
             (subscriptions db)
  | None =>
      sub = new_subscription (user_id user) plan cycle paidAt
              (JsDate.addMonths paidAt (cycle_months cycle)) now (cuid E db)
      /\ existsb (fun s => (sub_id s =? cuid E db)%string) (subscriptions db) = false
      /\ subscriptions db' = (subscriptions db ++ [sub])%list
  end.
Proof.
  intros Hnd.
  unfold confirm_transaction, subscription_findFirst_with_plan, subscription_findFirst,
    include_plan, subscription_update, subscription_create, creditLedger_create,
    billingHistory_create, referralStats_update, active_of.
  unfold_monad. intros H. run_all.
  all: db_simpl; repeat split; try reflexivity; try congruence.
  all: repeat match goal with
         | Hs : Some _ = Some _ |- _ => injection Hs as Hs; subst
         | Hf : find _ _ = Some _ |- _ => apply find_some in Hf; destruct Hf
         end;
       match goal with
       | Hk : (sub_id ?a =? sub_id ?b)%string = true |- _ =>
           apply String.eqb_eq in Hk;
           assert (a = b) by (eapply key_identifies; eauto); subst; reflexivity
       end.
Qed.

Lemma confirmPayment_ok now userId planCode paidAt ext options db res db' :
  confirmPayment E now userId planCode paidAt ext options db = (Ok res, db') ->
  exists user plan,
    user_of userId db = Some user /\ plan_by_code planCode db = Some plan
    /\ cp_success res = true /\ creditsGranted res = plan_quota plan
    /\ confirm_transaction E now user plan (default now paidAt) ext
         (default "monthly" (opt_billingCycle options))
         (default 0%float (opt_amount options))
         (default "usd" (opt_currency options)) db
       = (Ok (cp_subscription res), db').
Proof.
  unfold confirmPayment, user_findUnique, plan_findFirst, user_of, plan_by_code.
  unfold_monad. intros H. run_all.
  eexists _, _. cbn. repeat split; eauto.
Qed.

Lemma confirmPayment_throw now userId planCode paidAt ext options db e db' :
  confirmPayment E now userId planCode paidAt ext options db = (Throw e, db') ->
  db' = db.
Proof.
  unfold confirmPayment, user_findUnique, plan_findFirst.
  unfold_monad. intros H. run_all; reflexivity.
Qed.

End ConfirmFacts.

(** *** [cancelSubscription], [getSubscriptionDetails], [consumeCredits] *)

Section OperationFacts.

Variable E : Env.

Lemma cancelSubscription_throw now userId db e db' :
  cancelSubscription E now userId db = (Throw e, db') -> db' = db.
Proof.
  unfold cancelSubscription, user_findUnique, subscription_findFirst, subscription_update.
  unfold_monad. intros H. run_all; reflexivity.
Qed.

Lemma cancelSubscription_ok now userId db res db' :
  cancelSubscription E now userId db = (Ok res, db') ->
  exists user s,
    user_of userId db = Some user /\ active_of (user_id user) db = Some s
    /\ db' = set_subscriptions
               (update_first (fun r => (sub_id r =? sub_id s)%string)
                  (mark_canceled now) (subscriptions db)) db.
Proof.
  unfold cancelSubscription, user_findUnique, subscription_findFirst, subscription_update,
    user_of, active_of.
  unfold_monad. intros H. run_all. eauto.
Qed.

Lemma getSubscriptionDetails_readonly now userId db :
  snd (getSubscriptionDetails E now userId db) = db.
Proof.
  unfold getSubscriptionDetails, user_findUnique, subscription_findFirst_with_plan,
    subscription_findFirst, include_plan, recent_ledger, creditLedger_aggregate,
    dailyUsage_findFirst.
  unfold_monad. run_all; reflexivity.
Qed.

Lemma or0_aggregate uid db : or0 (sum_or_null (ledger_of uid db)) = balance uid db.
Proof.
  unfold balance, sum_or_null. destruct (ledger_of uid db) eqn:Hl; cbn [or0].
  - reflexivity.
  - destruct (sum_amounts (c :: l) =? 0) eqn:Hz; [apply Z.eqb_eq in Hz; lia | reflexivity].
Qed.

Lemma consumeCredits_throw now userId n description db e db' :
  consumeCredits E now userId n description db = (Throw e, db') -> db' = db.
Proof.
  unfold consumeCredits, user_findUnique, subscription_findFirst_with_plan,
    subscription_findFirst, include_plan, creditLedger_aggregate, dailyUsage_findFirst,
    creditLedger_create, dailyUsage_upsert.
  unfold_monad. intros H. run_all; reflexivity.
Qed.

Lemma consumeCredits_ok now userId n description db res db' :
  consumeCredits E now userId n description db = (Ok res, db') ->
  exists user s plan,
    user_of userId db = Some user /\ active_of (user_id user) db = Some s
    /\ plan_of s db = Some plan
    /\ (isDaily plan = true ->
        usage_on (user_id user) (JsDate.startOfDay now) db + n <= dailyCredits plan)
    /\ n <= balance (user_id user) db
    /\ res = mkConsumeResult true n (balance (user_id user) db - n)
               "Credits consumed successfully"
    /\ db' = consumed_db now user s plan n description db.
Proof.
  unfold consumeCredits, user_findUnique, subscription_findFirst_with_plan,
    subscription_findFirst, include_plan, creditLedger_aggregate, dailyUsage_findFirst,
    creditLedger_create, dailyUsage_upsert, user_of, active_of, plan_of, usage_on,
    consumed_db.
  unfold_monad. intros H. run_all.
  all: rewrite or0_aggregate in *.
  all: eexists _, _, _; repeat split; try reflexivity; try eassumption;
       db_simpl; try congruence; try lia.
  all: repeat match goal with
         | Hx : ?x = _ |- context [?x] => rewrite Hx
         end; try reflexivity; try discriminate.
Qed.

End OperationFacts.

(** *** [renewDueSubscriptions] *)

Section RenewalFacts.

Variable E : Env.

Lemma renew_one_outcome now s p u db :
  exists r db1,
    renew_one E now (s, p, u) db = (Ok r, db1)
    /\ rr_subscriptionId r = sub_id s /\ rr_userId r = clerkUserId u
    /\ ((rr_success r = true /\ rr_error r = None
         /\ newPeriodEnd r = Some (next_period_end s)
         /\ rr_creditsGranted r = Some (plan_quota p)
         /\ db1 = renewed_db now s p db)
        \/ (rr_success r = false /\ db1 = db
            /\ exists e, fst (transaction E (renew_transaction E now s p) db) = Throw e
                         /\ rr_error r = Some (message e))).
Proof.
  unfold renew_one, renew_transaction, subscription_update, creditLedger_create,
    renewed_db, renewal_grant.
  unfold_monad. run_all.
  all: eexists _, _; split; [reflexivity |]; cbn [rr_subscriptionId rr_userId rr_success
         rr_error newPeriodEnd rr_creditsGranted fst snd]; repeat split.
  all: first [ left; repeat split; reflexivity
             | right; repeat split; eexists; split; reflexivity ].
Qed.

Lemma renewal_loop_outcome now items :
  forall acc db,
  exists rs db',
    renewal_loop E now items acc db = (Ok (acc ++ rs)%list, db')
    /\ loop_outcome E now items rs db db'.
Proof.
  induction items as [| [[s p] u] items IH]; intros acc db.
  - exists [], db. cbn. rewrite app_nil_r. split; reflexivity.
  - destruct (renew_one_outcome now s p u db) as (r & db1 & Hr & Hid & Hu & Hcase).
    destruct (IH (acc ++ [r])%list db1) as (rs & db' & Hl & Ho).
    exists (r :: rs), db'. split.
    + cbn [renewal_loop]. unfold bind. rewrite Hr, Hl, <- app_assoc. reflexivity.
    + cbn [loop_outcome]. repeat split; try assumption. exists db1. split; assumption.
Qed.

Lemma with_plan_and_user_readonly rows :
  forall db, snd (with_plan_and_user rows db) = db.
Proof.
  induction rows as [| s rows IH]; intros db; cbn [with_plan_and_user].
  - reflexivity.
  - unfold include_plan, include_user. unfold_monad.
    specialize (IH db). run_all; cbn [snd] in *; congruence.
Qed.

Lemma with_plan_and_user_ok rows :
  forall db items db',
  with_plan_and_user rows db = (Ok items, db') ->
  map row items = rows
  /\ Forall (fun item => plan_of (row item) db = Some (snd (fst item))) items.
Proof.
  induction rows as [| s rows IH]; intros db items db'; cbn [with_plan_and_user].
  - unfold ret. intros H. injection H as <- <-. split; [reflexivity | constructor].
  - unfold include_plan, include_user, plan_of. unfold_monad. intros H.
    destruct (find (fun p => (plan_id p =? sub_planId s)%string) (plans db)) eqn:Hp;
      [| discriminate].
    destruct (find (fun u => (user_id u =? sub_userId s)%string) (users db)) eqn:Hu;
      [| discriminate].
    destruct (with_plan_and_user rows db) as [[its | e] db1] eqn:Hrest;
      [| discriminate].
    injection H as <- <-. destruct (IH db its db1 Hrest) as (Hm & Hf).
    split.
    + cbn [map row fst]. rewrite Hm. reflexivity.
    + constructor; [exact Hp | exact Hf].
Qed.

Lemma with_plan_and_user_total rows :
  forall db,
  (forall s, In s rows -> plan_of s db <> None /\ owner_of s db <> None) ->
  exists items, with_plan_and_user rows db = (Ok items, db).
Proof.
  induction rows as [| s rows IH]; intros db Hri; cbn [with_plan_and_user].
  - exists []. reflexivity.
  - destruct (Hri s (in_eq _ _)) as (Hp & Hu). unfold plan_of, owner_of in Hp, Hu.
    destruct (IH db) as (its & Hits); [intros; apply Hri; auto using in_cons |].
    unfold include_plan, include_user. unfold_monad.
    destruct (find (fun p => (plan_id p =? sub_planId s)%string) (plans db));
      [| contradiction].
    destruct (find (fun u => (user_id u =? sub_userId s)%string) (users db));
      [| contradiction].
    rewrite Hits. eauto.
Qed.

(** What [renewDueSubscriptions] returns, from what its query returns. *)
Lemma renewDueSubscriptions_run now db :
  match subscription_findMany_due E now db with
  | (Ok items, _) =>
      exists rs db',
        renewDueSubscriptions E now db
        = (Ok (mkRenewalSummary true
                 (List.length (filter rr_success rs))
                 (List.length (filter (fun r => negb (rr_success r)) rs))
                 rs
                 ("Processed " ++ show_Z (Z.of_nat (List.length items))
                  ++ " subscriptions")), db')
        /\ loop_outcome E now items rs db db'
  | (Throw e, _) =>
      renewDueSubscriptions E now db
      = (Throw (Failed "Failed to renew subscriptions" e), db)
  end.
Proof.
  unfold renewDueSubscriptions.
  assert (Hro : snd (subscription_findMany_due E now db) = db).
  { unfold subscription_findMany_due. unfold_monad.
    destruct (fault E SubscriptionFindMany db); [reflexivity |].
    apply with_plan_and_user_readonly. }
  destruct (subscription_findMany_due E now db) as [[items | e] db0] eqn:Hq;
    cbn [snd] in Hro; subst db0.
  - destruct (renewal_loop_outcome now items [] db) as (rs & db' & Hl & Ho).
    exists rs, db'. split; [| exact Ho].
    unfold rethrow, bind. rewrite Hq, Hl. reflexivity.
  - unfold rethrow, bind. rewrite Hq. reflexivity.
Qed.

(** The loop leaves untouched what the invariant reads, and every table but
    the subscriptions and the ledger. *)
Lemma loop_outcome_frame now items :
  forall rs db db',
  loop_outcome E now items rs db db' ->
  users db' = users db /\ plans db' = plans db
  /\ map key (subscriptions db') = map key (subscriptions db)
  /\ dailyUsage db' = dailyUsage db /\ billingHistory db' = billingHistory db
  /\ referralStats db' = referralStats db.
Proof.
  induction items as [| [[s p] u] items IH]; intros [| r rs] db db' H;
    cbn [loop_outcome] in H; try contradiction.
  - subst. repeat split.
  - destruct H as (_ & _ & db1 & Hcase & Hrest).
    apply IH in Hrest as (H1 & H2 & H3 & H4 & H5 & H6).
    destruct Hcase as [(_ & _ & _ & _ & ->) | (_ & -> & _)].
    + unfold renewed_db in *. db_simpl.
      rewrite map_update_first in H3 by (intros; reflexivity).
      repeat split; assumption.
    + repeat split; assumption.
Qed.

Lemma loop_outcome_results now items :
  forall rs db db',
  loop_outcome E now items rs db db' ->
  map rr_subscriptionId rs = map (fun item => sub_id (row item)) items
  /\ map rr_userId rs = map (fun item => clerkUserId (snd item)) items.
Proof.
  induction items as [| [[s p] u] items IH]; intros [| r rs] db db' H;
    cbn [loop_outcome] in H; try contradiction.
  - split; reflexivity.
  - destruct H as (Hid & Hu & db1 & _ & Hrest).
    apply IH in Hrest as (H1 & H2). cbn [map row fst snd].
    rewrite Hid, Hu, H1, H2. split; reflexivity.
Qed.

End RenewalFacts.

(** *** Renewal against a store that rejects nothing *)

Section HealthyRenewal.

Variable E : Env.
Hypothesis E_healthy : healthy E.

Ltac no_fault :=
  match goal with
  | Hx : fault E _ _ = Some _ |- _ => rewrite E_healthy in Hx; discriminate
  end.

Lemma renew_transaction_healthy now s p db e :
  find (fun r => (sub_id r =? sub_id s)%string) (subscriptions db) <> None ->
  fst (transaction E (renew_transaction E now s p) db) <> Throw e.
Proof.
  unfold renew_transaction, subscription_update, creditLedger_create.
  unfold_monad. intros Hf Ht. run_all; try no_fault; try contradiction; discriminate.
Qed.

Lemma renewed_row_id now r : sub_id (renewed_row now r) = sub_id r.
Proof. reflexivity. Qed.

Lemma loop_outcome_healthy now items :
  forall rs db db',
  NoDup (map sub_id (subscriptions db)) ->
  NoDup (map (fun i => sub_id (row i)) items) ->
  (forall i, In i items -> In (row i) (subscriptions db)) ->
  loop_outcome E now items rs db db' ->
  Forall (fun r => rr_success r = true) rs
  /\ subscriptions db'
     = map (fun r => if existsb (fun i => (sub_id (row i) =? sub_id r)%string) items
                     then renewed_row now r else r) (subscriptions db)
  /\ creditLedger db'
     = (creditLedger db
        ++ map (fun i => renewal_grant now (row i) (plan_quota (snd (fst i)))) items)%list.
Proof.
  induction items as [| [[s p] u] items IH]; intros [| r rs] db db' Hnd Hni Hin H;
    cbn [loop_outcome] in H; try contradiction.
  - subst. repeat split.
    + constructor.
    + cbn [existsb]. symmetry. apply map_id.
    + cbn [map]. rewrite app_nil_r. reflexivity.
  - destruct H as (_ & _ & db1 & Hcase & Hrest).
    assert (Hs : In s (subscriptions db)) by (apply (Hin (s, p, u)), in_eq).
    destruct Hcase as [(Hok & _ & _ & _ & ->) | (_ & _ & e & He & _)].
    2:{ exfalso. revert He. apply renew_transaction_healthy.
        destruct (find (fun r0 => (sub_id r0 =? sub_id s)%string) (subscriptions db))
          eqn:Hf; [discriminate |].
        apply (find_none _ _ Hf) in Hs. rewrite String.eqb_refl in Hs. discriminate. }
    cbn [map row fst] in Hni. inversion Hni as [| ? ? Hfresh Hni']; subst.
    unfold renewed_db in Hrest.
    rewrite (update_first_by_key _ _ s Hnd Hs) in Hrest.
    fold (renewed_row now s) in Hrest.
    set (g := fun r0 => if (sub_id r0 =? sub_id s)%string then renewed_row now s else r0)
      in Hrest.
    assert (Hg : map sub_id (map g (subscriptions db)) = map sub_id (subscriptions db)).
    { rewrite map_map. apply map_ext. intros a. unfold g.
      destruct (sub_id a =? sub_id s)%string eqn:Ha; [| reflexivity].
      apply String.eqb_eq in Ha. rewrite renewed_row_id. congruence. }
    apply IH in Hrest; db_simpl.
    + destruct Hrest as (Hall & Hsubs & Hled). repeat split.
      * constructor; assumption.
      * rewrite Hsubs, map_map. apply map_ext_in. intros a Ha. unfold g.
        cbn [existsb row fst].
        destruct (sub_id a =? sub_id s)%string eqn:Has.
        -- apply String.eqb_eq in Has.
           assert (a = s) by (eapply key_identifies; eauto). subst a.
           rewrite String.eqb_refl. cbn [orb].
           rewrite renewed_row_id.
           destruct (existsb (fun i => (sub_id (row i) =? sub_id s)%string) items)
             eqn:Hex; [| reflexivity].
           exfalso. apply Hfresh. apply existsb_exists in Hex as (i & Hi & Hk).
           apply String.eqb_eq in Hk. rewrite <- Hk.
           apply (in_map (fun i => sub_id (row i))). assumption.
        -- rewrite String.eqb_sym, Has. cbn [orb]. reflexivity.
      * rewrite Hled. cbn [map row fst snd]. rewrite <- app_assoc. reflexivity.
    + rewrite Hg. assumption.
    + assumption.
    + intros i Hi. 
      assert (Hne : (sub_id (row i) =? sub_id s)%string = false).
      { apply String.eqb_neq. intros Heq. apply Hfresh. rewrite <- Heq.
        apply (in_map (fun i => sub_id (row i))). assumption. }
      apply in_map_iff. exists (row i). split.
      * unfold g. rewrite Hne. reflexivity.
      * apply Hin. apply in_cons. assumption.
Qed.

Lemma filter_NoDup_ids (p : Subscription -> bool) (l : list Subscription) :
  NoDup (map sub_id l) -> NoDup (map sub_id (filter p l)).
Proof.
  induction l as [| a l IH]; cbn [map filter]; intros Hnd.
  - constructor.
  - inversion Hnd as [| ? ? Hn Hnd']; subst. destruct (p a); cbn [map]; auto.
    constructor; auto. intros Hin. apply Hn.
    apply in_map_iff in Hin as (x & Hx & Hf). apply in_map_iff. exists x.
    split; [assumption |]. apply filter_In in Hf. tauto.
Qed.

(** The closed form of a renewal pass over a well-formed store. *)
Lemma renewDueSubscriptions_healthy now db :
  NoDup (map sub_id (subscriptions db)) ->
  referential_integrity db ->
  exists summary db',
    renewDueSubscriptions E now db = (Ok summary, db')
    /\ map rr_subscriptionId (results summary)
       = map sub_id (filter (due now) (subscriptions db))
    /\ Forall (fun r => rr_success r = true) (results summary)
    /\ subscriptions db'
       = map (fun s => if due now s then renewed_row now s else s) (subscriptions db)
    /\ creditLedger db'
       = (creditLedger db
          ++ map (fun s => renewal_grant now s (quota_of s db))
               (filter (due now) (subscriptions db)))%list
    /\ users db' = users db /\ plans db' = plans db
    /\ dailyUsage db' = dailyUsage db /\ billingHistory db' = billingHistory db
    /\ referralStats db' = referralStats db.
Proof.
  intros Hnd Hri.
  pose proof (renewDueSubscriptions_run E now db) as Hrun.
  destruct (with_plan_and_user_total (filter (due now) (subscriptions db)) db)
    as (items & Hitems).
  { intros s Hs. apply Hri. apply filter_In in Hs. tauto. }
  assert (Hq : subscription_findMany_due E now db = (Ok items, db)).
  { unfold subscription_findMany_due. unfold_monad. rewrite E_healthy. exact Hitems. }
  rewrite Hq in Hrun. destruct Hrun as (rs & db' & Hr & Ho).
  apply with_plan_and_user_ok in Hitems as (Hrows & Hplans).
  pose proof (loop_outcome_frame E now items rs db db' Ho)
    as (Hu & Hp & _ & Hd & Hb & Hrf).
  pose proof (loop_outcome_results E now items rs db db' Ho) as (Hids & _).
  assert (Hmap : map (fun i => sub_id (row i)) items
                 = map sub_id (filter (due now) (subscriptions db))).
  { rewrite <- Hrows, map_map. reflexivity. }
  apply loop_outcome_healthy in Ho as (Hall & Hsubs & Hled).
  - eexists _, db'. split; [exact Hr |]. cbn [results].
    repeat split; try assumption.
    + congruence.
    + rewrite Hsubs. apply map_ext_in. intros a Ha.
      destruct (due now a) eqn:Hdue.
      * assert (Hex : existsb (fun i => (sub_id (row i) =? sub_id a)%string) items = true).
        { assert (In a (map row items)) as Hin
            by (rewrite Hrows; apply filter_In; auto).
          apply in_map_iff in Hin as (i & Hi & Hin). apply existsb_exists.
          exists i. split; [assumption |]. rewrite Hi. apply String.eqb_refl. }
        rewrite Hex. reflexivity.
      * destruct (existsb (fun i => (sub_id (row i) =? sub_id a)%string) items) eqn:Hex;
          [| reflexivity].
        exfalso. apply existsb_exists in Hex as (i & Hi & Hk).
        apply String.eqb_eq in Hk.
        assert (In (row i) (filter (due now) (subscriptions db))) as Hin
          by (rewrite <- Hrows; apply in_map; assumption).
        apply filter_In in Hin as (Hin & Hd').
        assert (row i = a) by (eapply key_identifies; eauto). congruence.
    + rewrite Hled. f_equal. rewrite <- Hrows, map_map.
      apply map_ext_in. intros i Hi. unfold quota_of.
      rewrite Forall_forall in Hplans. rewrite (Hplans i Hi). reflexivity.
  - assumption.
  - rewrite Hmap. apply filter_NoDup_ids. assumption.
  - intros i Hi.
    assert (In (row i) (filter (due now) (subscriptions db))) as Hin
      by (rewrite <- Hrows; apply in_map; assumption).
    apply filter_In in Hin. tauto.
Qed.

End HealthyRenewal.

(** *** [setupNewUser] *)

Section SetupFacts.

Variable E : Env.

Lemma setup_transaction_ok now clerk mail name referrer plan sd ed db u ref db' :
  setup_transaction E now clerk mail name referrer plan sd ed db = (Ok (u, ref), db') ->
  users db' = (users db ++ [u])%list
  /\ existsb (fun x => (user_id x =? user_id u)%string) (users db) = false
  /\ clerkUserId u = clerk
  /\ exists sub,
       subscriptions db' = (subscriptions db ++ [sub])%list
       /\ sub_userId sub = user_id u /\ status sub = "active"
       /\ existsb (fun s => (sub_id s =? sub_id sub)%string) (subscriptions db) = false.
Proof.
  unfold setup_transaction, user_create, referralStats_create, subscription_create,
    referralStats_update.
  unfold_monad. intros H. run_all.
  all: db_simpl; cbn [referenceId user_id clerkUserId] in *;
    match goal with
    | Hx : existsb _ (users _) = false |- _ =>
        apply existsb_false_orb in Hx
    end.
  all: repeat split; try reflexivity; try tauto.
  all: eexists; repeat split; try reflexivity; assumption.
Qed.

Lemma setupNewUser_effect now body db :
  signup_effect db (fst (setupNewUser E now body db)) (snd (setupNewUser E now body db)).
Proof.
  unfold setupNewUser, setup_body, user_findUnique, user_findFirst_by_reference,
    plan_findUnique, plan_create, signup_effect.
  unfold_monad. run_all; cbn [fst snd res_status].
  all: try (left; db_simpl; repeat split; try reflexivity; discriminate).
  all: match goal with
       | Hx : setup_transaction _ _ _ _ _ _ _ _ _ _ = (Ok ?p, _) |- _ =>
           destruct p; apply setup_transaction_ok in Hx;
           destruct Hx as (Hu & Hfu & _ & sub & Hs & Ho & Hst & Hfs)
       end.
  all: right; db_simpl; eexists _, _; repeat split; eassumption.
Qed.

End SetupFacts.

(** ** Every operation keeps the invariant *)

Section InvariantFacts.

Variable E : Env.

Lemma fresh_subscription_id (l : list Subscription) (id : string) :
  existsb (fun s => (sub_id s =? id)%string) l = false -> ~ In id (map sub_id l).
Proof. apply existsb_false_not_In. apply String.eqb_eq. Qed.

Lemma is_active_status uid s : is_active uid s = true -> sub_userId s = uid /\ status s = "active".
Proof.
  unfold is_active. intros H. apply andb_true_iff in H as (H1 & H2).
  split; apply String.eqb_eq; assumption.
Qed.

Lemma confirmPayment_Inv now userId planCode paidAt ext options db :
  Inv db -> Inv (snd (confirmPayment E now userId planCode paidAt ext options db)).
Proof.
  intros HI.
  destruct (confirmPayment E now userId planCode paidAt ext options db)
    as [[res | e] db'] eqn:Hrun; cbn [snd].
  2:{ apply confirmPayment_throw in Hrun. subst. assumption. }
  apply confirmPayment_ok in Hrun as (user & plan & Hu & _ & _ & _ & Htx).
  pose proof (confirm_transaction_ok _ _ _ _ _ _ _ _ _ _ _ _ Htx) as (Husers & _).
  pose proof (confirm_transaction_subscriptions _ _ _ _ _ _ _ _ _ _ _ _
                (proj1 HI) Htx) as Hsubs.
  destruct (active_of (user_id user) db) as [s |] eqn:Ha.
  - destruct Hsubs as (_ & Hsubs).
    apply (Inv_frame db db'); [assumption | | assumption].
    rewrite Hsubs. apply map_update_first. intros x Hx Hk.
    apply String.eqb_eq in Hk. unfold active_of in Ha.
    apply find_some in Ha as (Hs & Hact).
    assert (x = s) by (eapply key_identifies; eauto; apply HI). subst x.
    apply is_active_status in Hact as (_ & Hst).
    unfold key, activate. cbn. rewrite Hst. reflexivity.
  - destruct Hsubs as (Hsub & Hfresh & Hsubs).
    apply (Inv_extend db db' (cp_subscription res)); try assumption.
    + intros u Hin. rewrite Husers. assumption.
    + rewrite Hsub. cbn. apply fresh_subscription_id. assumption.
    + exists user. unfold user_of in Hu. apply find_some in Hu as (Hin & _).
      rewrite Husers, Hsub. split; [assumption | reflexivity].
    + rewrite Hsub. cbn [sub_userId new_subscription].
      apply filter_find_none. exact Ha.
Qed.

Lemma cancelSubscription_Inv now userId db :
  Inv db -> Inv (snd (cancelSubscription E now userId db)).
Proof.
  intros HI.
  destruct (cancelSubscription E now userId db) as [[res | e] db'] eqn:Hrun; cbn [snd].
  2:{ apply cancelSubscription_throw in Hrun. subst. assumption. }
  apply cancelSubscription_ok in Hrun as (user & s & _ & _ & ->).
  apply (Inv_frame db); [reflexivity | | assumption].
  db_simpl. apply map_update_first. intros; reflexivity.
Qed.

Lemma consumed_db_frame now user s plan n description db :
  users (consumed_db now user s plan n description db) = users db
  /\ subscriptions (consumed_db now user s plan n description db) = subscriptions db.
Proof.
  unfold consumed_db. destruct (isDaily plan); [| split; reflexivity].
  destruct (find _ _); split; reflexivity.
Qed.

Lemma consumeCredits_Inv now userId n description db :
  Inv db -> Inv (snd (consumeCredits E now userId n description db)).
Proof.
  intros HI.
  destruct (consumeCredits E now userId n description db) as [[res | e] db'] eqn:Hrun;
    cbn [snd].
  2:{ apply consumeCredits_throw in Hrun. subst. assumption. }
  apply consumeCredits_ok in Hrun as (user & s & plan & _ & _ & _ & _ & _ & _ & ->).
  destruct (consumed_db_frame now user s plan n description db) as (Hu & Hs).
  apply (Inv_frame db); [assumption | rewrite Hs; reflexivity | assumption].
Qed.

Lemma consume_controller_Inv now body db :
  Inv db -> Inv (snd (consume_controller E now body db)).
Proof.
  intros HI. unfold consume_controller.
  destruct (negb (truthy (body_userId body))); [assumption |].
  destruct (default (JNumber 1) (body_credits body)); try assumption.
  destruct (n <=? 0); [assumption |].
  pose proof (consumeCredits_Inv now (default "" (body_userId body)) n
                (default "API usage" (body_description body)) db HI) as H.
  destruct (consumeCredits E now (default "" (body_userId body)) n
              (default "API usage" (body_description body)) db) as [[res | e] db'];
    cbn [snd] in *; [assumption |].
  repeat match goal with |- context [if ?c then _ else _] => destruct c end; assumption.
Qed.

Lemma renewDueSubscriptions_Inv now db :
  Inv db -> Inv (snd (renewDueSubscriptions E now db)).
Proof.
  intros HI. pose proof (renewDueSubscriptions_run E now db) as Hrun.
  destruct (subscription_findMany_due E now db) as [[items | e] db0].
  - destruct Hrun as (rs & db' & -> & Ho). cbn [snd].
    apply loop_outcome_frame in Ho as (Hu & _ & Hk & _).
    apply (Inv_frame db); assumption.
  - rewrite Hrun. assumption.
Qed.

Lemma no_subscription_of_new_user db uid :
  Inv db ->
  existsb (fun x => (user_id x =? uid)%string) (users db) = false ->
  active_subscriptions uid db = [].
Proof.
  intros (_ & Hfk & _) Hfresh. unfold active_subscriptions.
  destruct (filter (is_active uid) (subscriptions db)) as [| s rest] eqn:Hf;
    [reflexivity | exfalso].
  assert (In s (filter (is_active uid) (subscriptions db))) as Hin
    by (rewrite Hf; apply in_eq).
  apply filter_In in Hin as (Hin & Hact). apply is_active_status in Hact as (Hown & _).
  destruct (Hfk s Hin) as (u & Hu & Hid).
  assert (existsb (fun x => (user_id x =? uid)%string) (users db) = true).
  { apply existsb_exists. exists u. split; [assumption |].
    apply String.eqb_eq. congruence. }
  congruence.
Qed.

Lemma setupNewUser_Inv now body db :
  Inv db -> Inv (snd (setupNewUser E now body db)).
Proof.
  intros HI. destruct (setupNewUser_effect E now body db) as [(Hu & Hs & _) | H].
  - apply (Inv_frame db); [assumption | rewrite Hs; reflexivity | assumption].
  - destruct H as (u & sub & _ & Hu & Hs & Hown & _ & Hfu & Hfs).
    apply (Inv_extend db _ sub); try assumption.
    + intros x Hx. rewrite Hu. apply in_or_app. left. assumption.
    + apply fresh_subscription_id. assumption.
    + exists u. split; [| auto]. rewrite Hu. apply in_or_app. right. apply in_eq.
    + rewrite Hown. apply no_subscription_of_new_user; assumption.
Qed.

Lemma serve_Inv now r db : Inv db -> Inv (serve E now r db).
Proof.
  intros HI. destruct r; cbn [serve].
  - apply setupNewUser_Inv; assumption.
  - apply confirmPayment_Inv; assumption.
  - apply cancelSubscription_Inv; assumption.
  - rewrite getSubscriptionDetails_readonly. assumption.
  - apply consumeCredits_Inv; assumption.
  - apply consume_controller_Inv; assumption.
  - apply renewDueSubscriptions_Inv; assumption.
Qed.

Lemma serve_all_Inv trace : forall db, Inv db -> Inv (serve_all E trace db).
Proof.
  induction trace as [| [now r] trace IH]; intros db HI; cbn [serve_all].
  - assumption.
  - apply IH. apply serve_Inv. assumption.
Qed.

End InvariantFacts.

(** * The claims

    ** Payment confirmation *)

Lemma balance_after_append uid db db' entry :
  creditLedger db' = (creditLedger db ++ [entry])%list ->
  cl_userId entry = uid ->
  balance uid db' = balance uid db + cl_amount entry.
Proof.
  intros Hl Hu. unfold balance, ledger_of. rewrite Hl, filter_app, sum_amounts_app.
  cbn [filter]. rewrite Hu, String.eqb_refl. cbn [sum_amounts fold_right]. lia.
Qed.

Lemma find_update_first_other {A} (p q : A -> bool) (f : A -> A) (l : list A) :
  (forall x, p x = true -> q x = false /\ q (f x) = false) ->
  find q (update_first p f l) = find q l.
Proof.
  intros H. induction l as [| a l IH]; cbn [update_first find].
  - reflexivity.
  - destruct (p a) eqn:Hp; cbn [find].
    + destruct (H a Hp) as (-> & ->). reflexivity.
    + rewrite IH. reflexivity.
Qed.

(** C1.  A confirmed payment raises the payer's balance by exactly the
    credits granted, which are the plan's daily credits for a daily plan and
    its monthly credits otherwise: the ledger gains one entry, of type
    granted, for that amount, and the billing history gains one row, with
    status completed, both for the payer and the subscription returned.
    Whatever the store rejects on the way (a lookup, the upsert, the grant,
    the receipt, the referral update or the commit), a payment that does not
    succeed leaves the whole store exactly as it was. *)
Theorem confirmPayment_grants_credits_atomically
    (E : Env) (now : instant) (userId planCode : string) (paidAt : option instant)
    (ext : string) (options : Options) (db : DB) :
  match confirmPayment E now userId planCode paidAt ext options db with
  | (Ok res, db') =>
      exists user plan,
        user_of userId db = Some user /\ plan_by_code planCode db = Some plan
        /\ creditsGranted res
           = (if isDaily plan then dailyCredits plan else monthlyCredits plan)
        /\ balance (user_id user) db' = balance (user_id user) db + creditsGranted res
        /\ (exists entry,
              creditLedger db' = (creditLedger db ++ [entry])%list
              /\ cl_userId entry = user_id user
              /\ cl_subscriptionId entry = sub_id (cp_subscription res)
              /\ cl_amount entry = creditsGranted res /\ cl_type entry = "granted")
        /\ (exists receipt,
              billingHistory db' = (billingHistory db ++ [receipt])%list
              /\ bh_userId receipt = user_id user
              /\ bh_subscriptionId receipt = sub_id (cp_subscription res)
              /\ bh_status receipt = "completed"
              /\ externalPaymentId receipt = ext)
  | (Throw _, db') => db' = db
  end.
Proof.
  destruct (confirmPayment E now userId planCode paidAt ext options db)
    as [[res | e] db'] eqn:Hrun.
  - apply confirmPayment_ok in Hrun as (user & plan & Hu & Hp & _ & Hg & Htx).
    apply confirm_transaction_ok in Htx as (_ & _ & _ & Hl & Hb & _).
    exists user, plan. repeat split; try assumption.
    + rewrite (balance_after_append (user_id user) _ _ _ Hl eq_refl).
      cbn [cl_amount]. lia.
    + eexists. split; [exact Hl |]. cbn. repeat split. congruence.
    + eexists. split; [exact Hb |]. cbn. repeat split.
  - eapply confirmPayment_throw. exact Hrun.
Qed.

(** The rollback at work: Bob's payment is refused at its last step (the
    referrer has no statistics row to update), after the subscription, the
    grant and the receipt were written; none of them is kept. *)
Example confirmPayment_rolls_back :
  confirmPayment Example.E_ok Example.jan16 "clerk_bob" "Pro" (Some Example.jan16)
    "pi_1" Example.pro_monthly Example.no_referral_rows
  = (Throw (Failed "Failed to confirm payment" (not_found_to_update)),
     Example.no_referral_rows).
Proof. vm_compute. reflexivity. Qed.

(** And a payment that goes through: Bob's balance goes from 0 to 25. *)
Example confirmPayment_grants_25 :
  balance "c5" Example.alice_paid = 0 /\ balance "c5" Example.bob_paid = 25
  /\ List.length (billingHistory Example.alice_paid) = 1%nat
  /\ List.length (billingHistory Example.bob_paid) = 2%nat.
Proof. vm_compute. repeat split. Qed.

(** C7, as the code has it.  When a payment succeeds for a payer whose
    referrer is set and whose amount is greater than zero, the referrer's
    statistics row gets one more paid subscriber and its total earning
    becomes the binary64 sum of the previous total and the binary64 product
    of the price of the chosen cycle (yearly price for yearly, monthly price
    otherwise) with the literal 0.20; the rows of all other users stay as
    they were.  This holds for every such payment, first or not.  When the
    amount is not greater than zero or the payer has no referrer, no
    statistics row changes. *)
Theorem confirmPayment_referral_accrual
    (E : Env) (now : instant) (userId planCode : string) (paidAt : option instant)
    (ext : string) (options : Options) (db : DB) (res : ConfirmResult) (db' : DB) :
  confirmPayment E now userId planCode paidAt ext options db = (Ok res, db') ->
  exists user plan,
    user_of userId db = Some user /\ plan_by_code planCode db = Some plan
    /\ let cycle := default "monthly" (opt_billingCycle options) in
       let amount := default 0%float (opt_amount options) in
       let price := if (cycle =? "yearly")%string
                    then priceYearly plan else priceMonthly plan in
       match referredById user with
       | Some referrer =>
           if (negb (referrer =? "")%string && PrimFloat.ltb 0 amount)%bool then
             exists stats,
               stats_of referrer db = Some stats
               /\ stats_of referrer db'
                  = Some (mkReferralStats (rs_userId stats) (referenceId stats)
                            (totalUsersSigned stats)
                            (totalPaidSubscribers stats + 1)
                            (PrimFloat.add (totalEarning stats)
                               (PrimFloat.mul price referral_rate))
                            (amountDeduct stats))
               /\ (forall other, other <> referrer ->
                     stats_of other db' = stats_of other db)
           else referralStats db' = referralStats db
       | None => referralStats db' = referralStats db
       end.
Proof.
  intros Hrun.
  apply confirmPayment_ok in Hrun as (user & plan & Hu & Hp & _ & _ & Htx).
  apply confirm_transaction_ok in Htx as (_ & _ & _ & _ & _ & Hr & Hex).
  exists user, plan. repeat split; try assumption. cbv zeta.
  unfold truthy in Hr, Hex.
  destruct (referredById user) as [referrer |]; [| exact Hr].
  change (default "" (Some referrer)) with referrer in *.
  destruct (negb (referrer =? "")%string && PrimFloat.ltb 0 _)%bool eqn:Hc;
    [| exact Hr].
  specialize (Hex eq_refl). unfold stats_of in *.
  destruct (find (fun r => (rs_userId r =? referrer)%string) (referralStats db))
    as [stats |] eqn:Hs; [| contradiction].
  exists stats. split; [reflexivity |]. split.
  - rewrite Hr.
    rewrite (find_update_first _ _ _ stats Hs).
    + unfold accrue, referralEarning.
      destruct (default "monthly" (opt_billingCycle options) =? "yearly")%string;
        reflexivity.
    + apply find_some in Hs. cbn [accrue rs_userId]. tauto.
  - intros other Hne. rewrite Hr. apply find_update_first_other.
    intros x Hx. apply String.eqb_eq in Hx. cbn [accrue rs_userId]. rewrite Hx.
    split; apply String.eqb_neq; congruence.
Qed.

(** The theorem at Bob's payment of 9.99 for a month of Pro: Alice, who
    referred him, gets one paid subscriber and the product of 9.99 and 0.20
    as computed in binary64. *)
Lemma confirmPayment_referral_accrual_witness :
  exists user plan,
    user_of "clerk_bob" Example.alice_paid = Some user
    /\ plan_by_code "Pro" Example.alice_paid = Some plan
    /\ match referredById user with
       | Some referrer =>
           if (negb (referrer =? "")%string
               && PrimFloat.ltb 0 Example.price_9_99)%bool then
             exists stats,
               stats_of referrer Example.alice_paid = Some stats
               /\ stats_of referrer Example.bob_paid
                  = Some (mkReferralStats (rs_userId stats) (referenceId stats)
                            (totalUsersSigned stats)
                            (totalPaidSubscribers stats + 1)
                            (PrimFloat.add (totalEarning stats)
                               (PrimFloat.mul (priceMonthly plan) referral_rate))
                            (amountDeduct stats))
               /\ (forall other, other <> referrer ->
                     stats_of other Example.bob_paid
                     = stats_of other Example.alice_paid)
           else referralStats Example.bob_paid = referralStats Example.alice_paid
       | None => referralStats Example.bob_paid = referralStats Example.alice_paid
       end.
Proof.
  assert (exists res,
             confirmPayment Example.E_ok Example.jan16 "clerk_bob" "Pro"
               (Some Example.jan16) "pi_1" Example.pro_monthly Example.alice_paid
             = (Ok res, Example.bob_paid)) as [res Hrun]
    by (eexists; vm_compute; reflexivity).
  exact (confirmPayment_referral_accrual Example.E_ok Example.jan16 "clerk_bob" "Pro"
           (Some Example.jan16) "pi_1" Example.pro_monthly Example.alice_paid
           res Example.bob_paid Hrun).
Defined.

(** C7, as stated, fails: the commission on a payment of 9.99 is not 1.998.
    Alice's total earning goes from 0 to the binary64 number
    1.9980000000000002 (0x1.ff7ced916872cp+0), which is neither the decimal
    1.998 nor the binary64 number nearest to it. *)
Lemma referral_commission_is_not_1_998 :
  (exists before after,
     stats_of "c3" Example.alice_paid = Some before
     /\ stats_of "c3" Example.bob_paid = Some after
     /\ totalEarning before = 0%float
     /\ totalPaidSubscribers after = totalPaidSubscribers before + 1
     /\ totalEarning after = 0x1.ff7ced916872cp+0%float
     /\ ~ is_decimal (totalEarning after) 1998 1000
     /\ PrimFloat.eqb (totalEarning after) Example.nearest_1_998 = false).
Proof.
  eexists _, _. split; [vm_compute; reflexivity |].
  split; [vm_compute; reflexivity |].
  repeat split; try (vm_compute; reflexivity).
  vm_compute. discriminate.
Qed.

(** ** The single active subscription *)

Lemma filter_map_commute {A} (q : A -> bool) (g : A -> A) (l : list A) :
  (forall r, In r l -> q (g r) = q r) ->
  filter q (map g l) = map g (filter q l).
Proof.
  induction l as [| a l IH]; intros H; cbn [map filter].
  - reflexivity.
  - rewrite (H a (in_eq _ _)), IH by (intros; apply H; auto using in_cons).
    destruct (q a); reflexivity.
Qed.

Lemma filter_singleton_find {A} (p : A -> bool) (l : list A) (x : A) :
  filter p l = [x] -> find p l = Some x.
Proof.
  induction l as [| a l IH]; cbn [filter find]; intros H.
  - discriminate.
  - destruct (p a); [injection H as -> _; reflexivity | auto].
Qed.

Lemma the_active_subscription db uid s :
  Inv db -> active_of uid db = Some s -> active_subscriptions uid db = [s].
Proof.
  intros (_ & _ & Hone) Ha. specialize (Hone uid). unfold active_of in Ha.
  unfold active_subscriptions in *.
  apply find_filter_head in Ha as (rest & Hf). rewrite Hf in *.
  destruct rest; [reflexivity | cbn in Hone; lia].
Qed.

(** What a confirmed payment does to the payer's subscriptions. *)
Lemma confirmPayment_upsert E now userId planCode paidAt ext options db res db' :
  Inv db ->
  confirmPayment E now userId planCode paidAt ext options db = (Ok res, db') ->
  exists user plan,
    user_of userId db = Some user /\ plan_by_code planCode db = Some plan
    /\ users db' = users db
    /\ active_subscriptions (user_id user) db' = [cp_subscription res]
    /\ status (cp_subscription res) = "active"
    /\ sub_userId (cp_subscription res) = user_id user
    /\ sub_planId (cp_subscription res) = plan_id plan
    /\ billingCycle (cp_subscription res) = default "monthly" (opt_billingCycle options)
    /\ currentPeriodStart (cp_subscription res) = default now paidAt
    /\ currentPeriodEnd (cp_subscription res)
       = JsDate.addMonths (default now paidAt)
           (if (default "monthly" (opt_billingCycle options) =? "yearly")%string
            then 12 else 1)
    /\ cancelAtPeriodEnd (cp_subscription res) = false
    /\ canceledAt (cp_subscription res) = None
    /\ match active_of (user_id user) db with
       | Some s =>
           sub_id (cp_subscription res) = sub_id s
           /\ subscriptions db'
              = map (fun r => if (sub_id r =? sub_id s)%string
                              then cp_subscription res else r) (subscriptions db)
       | None =>
           subscriptions db' = (subscriptions db ++ [cp_subscription res])%list
           /\ ~ In (sub_id (cp_subscription res)) (map sub_id (subscriptions db))
       end.
Proof.
  intros HI Hrun.
  apply confirmPayment_ok in Hrun as (user & plan & Hu & Hp & _ & _ & Htx).
  pose proof (confirm_transaction_ok _ _ _ _ _ _ _ _ _ _ _ _ Htx) as (Husers & _).
  pose proof (confirm_transaction_subscriptions _ _ _ _ _ _ _ _ _ _ _ _
                (proj1 HI) Htx) as Hsubs.
  exists user, plan. split; [assumption |]. split; [assumption |].
  split; [assumption |].
  destruct (active_of (user_id user) db) as [s |] eqn:Ha.
  - destruct Hsubs as (Hsub & Hsubs).
    pose proof (the_active_subscription db _ s HI Ha) as Hone.
    unfold active_of in Ha. apply find_some in Ha as (Hin & Hact).
    pose proof (is_active_status _ _ Hact) as (Hown & Hst).
    rewrite (update_first_by_key _ _ s (proj1 HI) Hin), <- Hsub in Hsubs.
    rewrite Hsub at 2 3 4 5 6 7 8 9 10. cbn. rewrite Hown.
    repeat split; try reflexivity; try assumption.
    unfold active_subscriptions in *. rewrite Hsubs, filter_map_commute.
    + rewrite Hone. cbn [map]. rewrite String.eqb_refl. reflexivity.
    + intros r Hr. destruct (sub_id r =? sub_id s)%string eqn:Hk; [| reflexivity].
      apply String.eqb_eq in Hk.
      assert (r = s) by (eapply key_identifies; eauto; apply HI). subst r.
      rewrite Hact, Hsub. unfold is_active. cbn. rewrite Hown, String.eqb_refl.
      reflexivity.
  - destruct Hsubs as (Hsub & Hfresh & Hsubs).
    rewrite Hsub at 2 3 4 5 6 7 8 9. cbn.
    repeat split; try reflexivity; try assumption.
    + unfold active_subscriptions. rewrite Hsubs, filter_app.
      unfold active_of in Ha. rewrite (filter_find_none _ _ Ha). cbn [filter app].
      rewrite Hsub at 1. unfold is_active. cbn. rewrite String.eqb_refl. reflexivity.
    + rewrite Hsub. cbn. apply fresh_subscription_id. assumption.
Qed.

(** C2.  In a store that satisfies the invariant (as the empty store does),
    every user has at most one active subscription after any sequence of
    requests: signup, payment confirmation, cancellation, the details query,
    credit consumption and the renewal job all keep the invariant.  A
    confirmed payment leaves the payer with exactly one active subscription,
    the one it returns, with the new plan, cycle and period bounds, status
    active and both cancellation fields cleared: where the payer had an
    active subscription that row is replaced in place and no row is added,
    and only where there was none a row with a new id is appended.  A signup
    answered with 201 has added one user whose only subscription is active.
    A second payment confirmed right after a first updates the row of the
    first and adds none. *)
Theorem at_most_one_active_subscription (E : Env) (db : DB) :
  Inv db ->
  (forall trace, Inv (serve_all E trace db))
  /\ (forall trace uid,
        (List.length (active_subscriptions uid (serve_all E trace db)) <= 1)%nat)
  /\ (forall now userId planCode paidAt ext options res db',
        confirmPayment E now userId planCode paidAt ext options db = (Ok res, db') ->
        exists user plan,
          user_of userId db = Some user /\ plan_by_code planCode db = Some plan
          /\ active_subscriptions (user_id user) db' = [cp_subscription res]
          /\ status (cp_subscription res) = "active"
          /\ sub_planId (cp_subscription res) = plan_id plan
          /\ billingCycle (cp_subscription res)
             = default "monthly" (opt_billingCycle options)
          /\ currentPeriodStart (cp_subscription res) = default now paidAt
          /\ currentPeriodEnd (cp_subscription res)
             = JsDate.addMonths (default now paidAt)
                 (if (default "monthly" (opt_billingCycle options) =? "yearly")%string
                  then 12 else 1)
          /\ cancelAtPeriodEnd (cp_subscription res) = false
          /\ canceledAt (cp_subscription res) = None
          /\ match active_of (user_id user) db with
             | Some s =>
                 sub_id (cp_subscription res) = sub_id s
                 /\ subscriptions db'
                    = map (fun r => if (sub_id r =? sub_id s)%string
                                    then cp_subscription res else r)
                        (subscriptions db)
             | None =>
                 subscriptions db' = (subscriptions db ++ [cp_subscription res])%list
                 /\ ~ In (sub_id (cp_subscription res)) (map sub_id (subscriptions db))
             end)
  /\ (forall now body,
        res_status (fst (setupNewUser E now body db)) = 201 ->
        exists u sub,
          users (snd (setupNewUser E now body db)) = (users db ++ [u])%list
          /\ subscriptions (snd (setupNewUser E now body db))
             = (subscriptions db ++ [sub])%list
          /\ status sub = "active"
          /\ active_subscriptions (user_id u) (snd (setupNewUser E now body db)) = [sub])
  /\ (forall now1 now2 userId plan1 plan2 paid1 paid2 ext1 ext2 opts1 opts2
             res1 db1 res2 db2,
        confirmPayment E now1 userId plan1 paid1 ext1 opts1 db = (Ok res1, db1) ->
        confirmPayment E now2 userId plan2 paid2 ext2 opts2 db1 = (Ok res2, db2) ->
        exists user,
          user_of userId db = Some user
          /\ active_subscriptions (user_id user) db2 = [cp_subscription res2]
          /\ sub_id (cp_subscription res2) = sub_id (cp_subscription res1)
          /\ List.length (subscriptions db2) = List.length (subscriptions db1)).
Proof.
  intros HI. split; [| split; [| split; [| split]]].
  - intros trace. apply serve_all_Inv. assumption.
  - intros trace uid. apply (serve_all_Inv E trace db HI).
  - intros now userId planCode paidAt ext options res db' Hrun.
    destruct (confirmPayment_upsert _ _ _ _ _ _ _ _ _ _ HI Hrun)
      as (user & plan & H). exists user, plan. tauto.
  - intros now body H201.
    destruct (setupNewUser_effect E now body db) as [(_ & _ & Hne) | H];
      [contradiction |].
    destruct H as (u & sub & _ & Hu & Hs & Hown & Hst & Hfu & Hfs).
    exists u, sub. repeat split; try assumption.
    unfold active_subscriptions. rewrite Hs, filter_app.
    pose proof (no_subscription_of_new_user db (user_id u) HI Hfu) as Hnone.
    unfold active_subscriptions in Hnone. rewrite Hnone. cbn [filter app].
    unfold is_active. rewrite Hown, Hst, String.eqb_refl. reflexivity.
  - intros now1 now2 userId plan1 plan2 paid1 paid2 ext1 ext2 opts1 opts2
      res1 db1 res2 db2 Hrun1 Hrun2.
    assert (HI1 : Inv db1).
    { pose proof (confirmPayment_Inv E now1 userId plan1 paid1 ext1 opts1 db HI) as H.
      rewrite Hrun1 in H. exact H. }
    destruct (confirmPayment_upsert _ _ _ _ _ _ _ _ _ _ HI Hrun1)
      as (user & p1 & Hu & _ & Husers & Hact1 & _).
    destruct (confirmPayment_upsert _ _ _ _ _ _ _ _ _ _ HI1 Hrun2)
      as (user' & p2 & Hu' & _ & _ & Hact2 & _ & _ & _ & _ & _ & _ & _ & _ & Hm).
    assert (user' = user) as ->.
    { unfold user_of in *. rewrite Husers in Hu'. congruence. }
    exists user. split; [assumption |]. split; [assumption |].
    unfold active_subscriptions in Hact1.
    unfold active_of in Hm. rewrite (filter_singleton_find _ _ _ Hact1) in Hm.
    destruct Hm as (Hid & Hsubs). split; [assumption |].
    rewrite Hsubs. apply length_map.
Qed.

(** The theorem at the empty store and the example trace: after two signups,
    two payments by Bob in a row and a renewal pass, Bob ("c3" here) and
    Alice ("c1") have at most one active subscription each. *)
Lemma at_most_one_active_subscription_witness :
  (List.length (active_subscriptions "c3"
                  (serve_all Example.E_ok Example.trace empty_db)) <= 1)%nat
  /\ (List.length (active_subscriptions "c1"
                     (serve_all Example.E_ok Example.trace empty_db)) <= 1)%nat.
Proof.
  split;
    apply (proj1 (proj2 (at_most_one_active_subscription Example.E_ok empty_db
                           ltac:(repeat split;
                                 [constructor | intros s [] | intros; cbn; lia])))).
Defined.

(** ** Credit consumption *)

(** Evaluation against a healthy store: reduce, and replace each consulted
    fault by its absence. *)
Ltac hstep Hh :=
  repeat progress (cbv beta iota zeta; rewrite ?Hh; cbn [fst snd]).

(** What [consumeCredits] returns against a store that rejects nothing. *)
Lemma consumeCredits_healthy
    (E : Env) (now : instant) (userId : string) (n : Z) (description : string)
    (db : DB) :
  healthy E ->
  match user_of userId db with
  | None =>
      consumeCredits E now userId n description db
      = (Throw (Failed "Failed to consume credits" (UserNotFound userId)), db)
  | Some user =>
      match active_of (user_id user) db with
      | None =>
          consumeCredits E now userId n description db
          = (Throw (Failed "Failed to consume credits" NoActiveSubscription), db)
      | Some s =>
          match plan_of s db with
          | None =>
              consumeCredits E now userId n description db
              = (Throw (Failed "Failed to consume credits" missing_relation), db)
          | Some plan =>
              let used := usage_on (user_id user) (JsDate.startOfDay now) db in
              let available := balance (user_id user) db in
              if (isDaily plan && (dailyCredits plan <? used + n))%bool then
                consumeCredits E now userId n description db
                = (Throw (Failed "Failed to consume credits"
                            (DailyLimitExceeded used (dailyCredits plan))), db)
              else if available <? n then
                consumeCredits E now userId n description db
                = (Throw (Failed "Failed to consume credits"
                            (InsufficientCredits available n)), db)
              else
                consumeCredits E now userId n description db
                = (Ok (mkConsumeResult true n (available - n)
                         "Credits consumed successfully"),
                   consumed_db now user s plan n description db)
                /\ creditLedger (consumed_db now user s plan n description db)
                   = (creditLedger db
                      ++ [mkCreditLedger (user_id user) (sub_id s) (- n)
                            "consumed" description now])%list
                /\ balance (user_id user)
                     (consumed_db now user s plan n description db)
                   = available - n
          end
      end
  end.
Proof.
  intros Hh.
  destruct (user_of userId db) as [user |] eqn:Hu.
  2:{ unfold consumeCredits, user_findUnique. unfold_monad. unfold user_of in Hu.
      hstep Hh. rewrite Hu. reflexivity. }
  destruct (active_of (user_id user) db) as [s |] eqn:Ha.
  2:{ unfold consumeCredits, user_findUnique, subscription_findFirst_with_plan,
        subscription_findFirst. unfold_monad. unfold user_of, active_of in *.
      hstep Hh. rewrite Hu. hstep Hh. rewrite Ha. reflexivity. }
  destruct (plan_of s db) as [plan |] eqn:Hp.
  2:{ unfold consumeCredits, user_findUnique, subscription_findFirst_with_plan,
        subscription_findFirst, include_plan. unfold_monad.
      unfold user_of, active_of, plan_of in *.
      hstep Hh. rewrite Hu. hstep Hh. rewrite Ha. hstep Hh. rewrite Hp.
      reflexivity. }
  cbv zeta.
  assert (Hrun : forall P : outcome ConsumeResult * DB -> Prop,
             P (let used := usage_on (user_id user) (JsDate.startOfDay now) db in
                let available := balance (user_id user) db in
                if (isDaily plan && (dailyCredits plan <? used + n))%bool
                then (Throw (Failed "Failed to consume credits"
                               (DailyLimitExceeded used (dailyCredits plan))), db)
                else if available <? n
                then (Throw (Failed "Failed to consume credits"
                               (InsufficientCredits available n)), db)
                else (Ok (mkConsumeResult true n (available - n)
                            "Credits consumed successfully"),
                      consumed_db now user s plan n description db)) ->
             P (consumeCredits E now userId n description db)).
  { intros P HP.
    unfold consumeCredits, user_findUnique, subscription_findFirst_with_plan,
      subscription_findFirst, include_plan, dailyUsage_findFirst,
      creditLedger_aggregate, creditLedger_create, dailyUsage_upsert.
    unfold_monad. unfold user_of, active_of, plan_of, usage_on, consumed_db in *.
    hstep Hh. rewrite Hu. hstep Hh. rewrite Ha. hstep Hh. rewrite Hp. hstep Hh.
    cbv zeta in HP.
    destruct (isDaily plan) eqn:Hd; cbn [andb] in HP; hstep Hh.
    - destruct (dailyCredits plan <? _) eqn:Hlim; [exact HP |].
      hstep Hh. rewrite or0_aggregate.
      destruct (balance (user_id user) db <? n) eqn:Hbal; [exact HP |].
      hstep Hh. db_simpl. hstep Hh.
      destruct (find (same_day (user_id user) (JsDate.startOfDay now)) (dailyUsage db));
        hstep Hh; exact HP.
    - rewrite or0_aggregate.
      destruct (balance (user_id user) db <? n) eqn:Hbal; [exact HP |].
      hstep Hh. db_simpl. hstep Hh. exact HP. }
  apply Hrun. cbv zeta.
  destruct (isDaily plan && _)%bool; [reflexivity |].
  destruct (balance (user_id user) db <? n); [reflexivity |].
  assert (Hledger : creditLedger (consumed_db now user s plan n description db)
                    = (creditLedger db
                       ++ [mkCreditLedger (user_id user) (sub_id s) (- n)
                             "consumed" description now])%list).
  { unfold consumed_db. destruct (isDaily plan); [| reflexivity].
    destruct (find _ _); reflexivity. }
  split; [reflexivity | split; [exact Hledger |]].
  rewrite (balance_after_append (user_id user) db _ _ Hledger eq_refl).
  cbn [cl_amount]. lia.
Qed.


(** C3.  [consumeCredits] checks, in this order, that the user exists (else
    it fails with a user-not-found error), that the user has an active
    subscription (else with no-active-subscription), for a daily plan that
    today's usage plus [n] does not exceed the plan's daily credits (else
    with daily-limit-exceeded, reporting used and limit), and that [n] does
    not exceed the balance, the sum of the user's ledger entries (else with
    insufficient-credits, reporting available and required).  Otherwise it
    succeeds: it returns [n] consumed and the balance minus [n] remaining,
    and the store gains exactly one ledger entry, of [-n] and type consumed
    (and today's usage row is created with [n] or raised by [n] when the
    plan is daily).  Every failed attempt, whatever the store rejected,
    leaves the whole store unchanged, ledger and daily usage included. *)
Theorem consumeCredits_outcomes
    (E : Env) (now : instant) (userId : string) (n : Z) (description : string)
    (db : DB) :
  (forall e db', consumeCredits E now userId n description db = (Throw e, db') ->
                 db' = db)
  /\ (healthy E ->
      match user_of userId db with
      | None =>
          consumeCredits E now userId n description db
          = (Throw (Failed "Failed to consume credits" (UserNotFound userId)), db)
      | Some user =>
          match active_of (user_id user) db with
          | None =>
              consumeCredits E now userId n description db
              = (Throw (Failed "Failed to consume credits" NoActiveSubscription), db)
          | Some s =>
              match plan_of s db with
              | None =>
                  consumeCredits E now userId n description db
                  = (Throw (Failed "Failed to consume credits" missing_relation), db)
              | Some plan =>
                  let used := usage_on (user_id user) (JsDate.startOfDay now) db in
                  let available := balance (user_id user) db in
                  if (isDaily plan && (dailyCredits plan <? used + n))%bool then
                    consumeCredits E now userId n description db
                    = (Throw (Failed "Failed to consume credits"
                                (DailyLimitExceeded used (dailyCredits plan))), db)
                  else if available <? n then
                    consumeCredits E now userId n description db
                    = (Throw (Failed "Failed to consume credits"
                                (InsufficientCredits available n)), db)
                  else
                    consumeCredits E now userId n description db
                    = (Ok (mkConsumeResult true n (available - n)
                             "Credits consumed successfully"),
                       consumed_db now user s plan n description db)
                    /\ creditLedger (consumed_db now user s plan n description db)
                       = (creditLedger db
                          ++ [mkCreditLedger (user_id user) (sub_id s) (- n)
                                "consumed" description now])%list
                    /\ balance (user_id user)
                         (consumed_db now user s plan n description db)
                       = available - n
              end
          end
      end).
Proof.
  split; [intros e db'; apply consumeCredits_throw |].
  apply consumeCredits_healthy.
Qed.

Lemma E_ok_healthy : healthy Example.E_ok.
Proof. intros c db. reflexivity. Qed.

(** The theorem at Bob's store after he used 20 of his 25 daily credits:
    asking for 10 more fails with the daily limit, reporting 20 used of 25,
    and the store is unchanged. *)
Lemma consumeCredits_outcomes_witness :
  consumeCredits Example.E_ok Example.jan16 "clerk_bob" 10 "Face search API call"
    Example.bob_used_20
  = (Throw (Failed "Failed to consume credits" (DailyLimitExceeded 20 25)),
     Example.bob_used_20).
Proof.
  exact (proj2 (consumeCredits_outcomes Example.E_ok Example.jan16 "clerk_bob" 10
                  "Face search API call" Example.bob_used_20) E_ok_healthy).
Defined.

(** ** Cancellation *)

Lemma find_by_key (l : list Subscription) (s : Subscription) :
  NoDup (map sub_id l) -> In s l ->
  find (fun r => (sub_id r =? sub_id s)%string) l = Some s.
Proof.
  intros Hnd Hin.
  destruct (find (fun r => (sub_id r =? sub_id s)%string) l) as [x |] eqn:Hf.
  - apply find_some in Hf as (Hx & Hk). apply String.eqb_eq in Hk.
    f_equal. eapply key_identifies; eauto.
  - apply (find_none _ _ Hf) in Hin. rewrite String.eqb_refl in Hin. discriminate.
Qed.

Lemma find_map_commute {A} (q : A -> bool) (g : A -> A) (l : list A) :
  (forall r, In r l -> q (g r) = q r) ->
  find q (map g l) = option_map g (find q l).
Proof.
  induction l as [| a l IH]; intros H; cbn [map find].
  - reflexivity.
  - rewrite (H a (in_eq _ _)). destruct (q a); [reflexivity |].
    apply IH. intros; apply H; auto using in_cons.
Qed.

(** C8.  [cancelSubscription] fails with user-not-found for an unknown user
    and with no-active-subscription for a user without one, leaving the
    store unchanged.  For a user with an active subscription it succeeds and
    replaces that row, and no other, by the same row with
    [cancelAtPeriodEnd = true] and [canceledAt = now] (and the bookkeeping
    column [updatedAt = now]): id, owner, status, plan, billing cycle and
    both period bounds are the old ones, so the row is still the user's
    active subscription, with its period end where it was. *)
Theorem cancelSubscription_sets_only_the_flag
    (E : Env) (now : instant) (userId : string) (db : DB) :
  healthy E ->
  NoDup (map sub_id (subscriptions db)) ->
  match user_of userId db with
  | None =>
      cancelSubscription E now userId db
      = (Throw (Failed "Failed to cancel subscription" (UserNotFound userId)), db)
  | Some user =>
      match active_of (user_id user) db with
      | None =>
          cancelSubscription E now userId db
          = (Throw (Failed "Failed to cancel subscription" NoActiveSubscription), db)
      | Some s =>
          exists s',
            cancelSubscription E now userId db
            = (Ok (mkCancelResult true s' "Subscription will be canceled at period end"),
               set_subscriptions
                 (map (fun r => if (sub_id r =? sub_id s)%string then s' else r)
                      (subscriptions db)) db)
            /\ cancelAtPeriodEnd s' = true /\ canceledAt s' = Some now
            /\ sub_id s' = sub_id s /\ sub_userId s' = sub_userId s
            /\ status s' = status s /\ status s' = "active"
            /\ sub_planId s' = sub_planId s /\ billingCycle s' = billingCycle s
            /\ currentPeriodStart s' = currentPeriodStart s
            /\ currentPeriodEnd s' = currentPeriodEnd s
            /\ active_of (user_id user)
                 (set_subscriptions
                    (map (fun r => if (sub_id r =? sub_id s)%string then s' else r)
                         (subscriptions db)) db) = Some s'
      end
  end.
Proof.
  intros Hh Hnd.
  unfold cancelSubscription, user_findUnique, subscription_findFirst, subscription_update.
  unfold_monad. unfold user_of, active_of.
  hstep Hh. destruct (find _ (users db)) as [user |] eqn:Hu; [| reflexivity].
  hstep Hh. destruct (find (is_active (user_id user)) (subscriptions db)) as [s |] eqn:Ha;
    [| reflexivity].
  hstep Hh. pose proof (find_some _ _ Ha) as (Hin & Hact).
  rewrite (find_by_key _ _ Hnd Hin). hstep Hh.
  rewrite (update_first_by_key _ _ s Hnd Hin).
  exists (mark_canceled now s). split; [reflexivity |].
  apply is_active_status in Hact as (Hown & Hst).
  cbn [mark_canceled cancelAtPeriodEnd canceledAt sub_id sub_userId status sub_planId
       billingCycle currentPeriodStart currentPeriodEnd].
  repeat split; try reflexivity; try assumption.
  db_simpl. rewrite find_map_commute.
  - rewrite Ha. cbn [option_map]. rewrite String.eqb_refl. reflexivity.
  - intros r Hr. destruct (sub_id r =? sub_id s)%string eqn:Hk; [| reflexivity].
    apply String.eqb_eq in Hk.
    assert (r = s) by (eapply key_identifies; eauto). subst r. reflexivity.
Qed.

(** The theorem at Bob's store: his subscription "c6" is flagged, and is
    still active with its period end of 16 February. *)
Lemma cancelSubscription_sets_only_the_flag_witness :
  exists s',
    cancelSubscription Example.E_ok Example.feb20 "clerk_bob" Example.bob_paid
    = (Ok (mkCancelResult true s' "Subscription will be canceled at period end"),
       set_subscriptions
         (map (fun r => if (sub_id r =? "c6")%string then s' else r)
              (subscriptions Example.bob_paid)) Example.bob_paid)
    /\ cancelAtPeriodEnd s' = true /\ canceledAt s' = Some Example.feb20
    /\ status s' = "active"
    /\ currentPeriodEnd s' = JsDate.utc 2024 2 16 9 30.
Proof.
  pose proof (cancelSubscription_sets_only_the_flag Example.E_ok Example.feb20
                "clerk_bob" Example.bob_paid E_ok_healthy
                ltac:(vm_compute; repeat constructor; cbn; intuition discriminate))
    as H.
  vm_compute in H.
  destruct H as (s' & Hrun & Hflag & Hat & _ & _ & _ & Hst & _ & _ & _ & Hend & _).
  exists s'. vm_compute. repeat split; assumption.
Defined.

(** ** Request validation *)

(** C9.  A consumption request whose credit amount is a number not greater
    than zero is answered with status 400 and no data, before the service
    is called: the store after the request is the store before it, so no
    ledger entry is appended and no daily usage row is created or raised. *)
Theorem consume_request_rejects_non_positive
    (E : Env) (now : instant) (body : ConsumeBody) (n : Z) (db : DB) :
  body_credits body = Some (JNumber n) ->
  n <= 0 ->
  res_status (fst (consume_controller E now body db)) = 400
  /\ res_success (fst (consume_controller E now body db)) = false
  /\ res_data (fst (consume_controller E now body db)) = None
  /\ snd (consume_controller E now body db) = db
  /\ creditLedger (snd (consume_controller E now body db)) = creditLedger db
  /\ dailyUsage (snd (consume_controller E now body db)) = dailyUsage db.
Proof.
  intros Hc Hn. unfold consume_controller. rewrite Hc. cbn [default].
  destruct (negb (truthy (body_userId body))); [cbn; repeat split; reflexivity |].
  destruct (n <=? 0) eqn:Hle; [cbn; repeat split; reflexivity |].
  apply Z.leb_gt in Hle. lia.
Qed.

(** The theorem at a request by Bob for -5 credits. *)
Lemma consume_request_rejects_non_positive_witness :
  res_status (fst (consume_controller Example.E_ok Example.jan16
                     (mkConsumeBody (Some "clerk_bob") (Some (JNumber (-5))) None)
                     Example.bob_paid)) = 400
  /\ snd (consume_controller Example.E_ok Example.jan16
            (mkConsumeBody (Some "clerk_bob") (Some (JNumber (-5))) None)
            Example.bob_paid) = Example.bob_paid.
Proof.
  destruct (consume_request_rejects_non_positive Example.E_ok Example.jan16
              (mkConsumeBody (Some "clerk_bob") (Some (JNumber (-5))) None) (-5)
              Example.bob_paid eq_refl ltac:(lia))
    as (H400 & _ & _ & Hdb & _).
  split; assumption.
Defined.

(** ** The details query *)

(** C10.  For a user who exists and has no active subscription,
    [getSubscriptionDetails] returns a success result with no subscription
    and 0 available credits and leaves the store alone.  Only the user
    lookup and the subscription lookup have to go through: the ledger is not
    consulted, so the answer is 0 whatever the user's ledger entries sum
    to. *)
Theorem getSubscriptionDetails_without_subscription
    (E : Env) (now : instant) (userId : string) (db : DB) (user : User) :
  fault E (UserFindUnique userId) db = None ->
  fault E (SubscriptionFindFirst (user_id user)) db = None ->
  user_of userId db = Some user ->
  active_of (user_id user) db = None ->
  exists details,
    getSubscriptionDetails E now userId db = (Ok details, db)
    /\ details = NoSubscriptionDetails true 0 "No active subscription found"
    /\ details_success details = true
    /\ details_subscription details = None
    /\ details_availableCredits details = 0.
Proof.
  intros Hf1 Hf2 Hu Ha. eexists. split; [| repeat split].
  unfold getSubscriptionDetails, user_findUnique, subscription_findFirst_with_plan,
    subscription_findFirst.
  unfold_monad. unfold user_of, active_of in *.
  rewrite Hf1. cbv beta iota. rewrite Hu. cbv beta iota.
  rewrite Hf2. cbv beta iota. rewrite Ha. reflexivity.
Qed.

(** The theorem at Bob's store after his subscription lapsed: his ledger
    sums to 25, the query answers 0. *)
Lemma getSubscriptionDetails_without_subscription_witness :
  balance "c5" Example.bob_lapsed = 25
  /\ exists details,
       getSubscriptionDetails Example.E_ok Example.feb20 "clerk_bob" Example.bob_lapsed
       = (Ok details, Example.bob_lapsed)
       /\ details_subscription details = None
       /\ details_availableCredits details = 0.
Proof.
  split; [vm_compute; reflexivity |].
  destruct (getSubscriptionDetails_without_subscription Example.E_ok Example.feb20
              "clerk_bob" Example.bob_lapsed
              (mkUser "c5" "clerk_bob" "bob@example.org" "Anonymous" (Some "c3"))
              eq_refl eq_refl ltac:(vm_compute; reflexivity)
              ltac:(vm_compute; reflexivity))
    as (details & Hrun & _ & _ & Hsub & Hcredits).
  exists details. repeat split; assumption.
Defined.

(** ** Renewal *)

Lemma renew_transaction_atomic E now s p db :
  match transaction E (renew_transaction E now s p) db with
  | (Ok _, db') => db' = renewed_db now s p db
  | (Throw _, db') => db' = db
  end.
Proof.
  unfold renew_transaction, subscription_update, creditLedger_create, renewed_db,
    renewal_grant.
  unfold_monad. run_all; reflexivity.
Qed.

Lemma filter_split_length {A} (p : A -> bool) (l : list A) :
  (List.length (filter p l) + List.length (filter (fun x => negb (p x)) l))%nat
  = List.length l.
Proof.
  induction l as [| a l IH]; cbn [filter]; [reflexivity |].
  destruct (p a); cbn [negb List.length]; lia.
Qed.

Lemma filter_map {A B} (q : B -> bool) (g : A -> B) (l : list A) :
  filter q (map g l) = map g (filter (fun x => q (g x)) l).
Proof.
  induction l as [| a l IH]; cbn [map filter]; [reflexivity |].
  rewrite IH. destruct (q (g a)); reflexivity.
Qed.

Lemma due_after_renewal now s :
  due now s = true ->
  due now (renewed_row now s) = (next_period_end s <=? now).
Proof.
  unfold due, renewed_row, advance. cbn. intros H.
  apply andb_true_iff in H as (H & _). rewrite H. reflexivity.
Qed.

Lemma next_period_end_later s : currentPeriodEnd s < next_period_end s.
Proof.
  unfold next_period_end. apply JsDateFacts.addMonths_increases.
  unfold cycle_months. destruct (billingCycle s =? "yearly")%string; lia.
Qed.

(** C4.  Against a store that rejects nothing and in which subscription
    ids are unique and every subscription has its plan and its user, a
    renewal pass at [now] succeeds, and its results are, in store order,
    exactly the subscriptions with status active, [cancelAtPeriodEnd] false
    and [currentPeriodEnd <= now].  Each of them has its period start set to
    the old period end and its period end moved on by one calendar month of
    JavaScript's [setMonth] (twelve for the yearly cycle): strictly later,
    and for a period end on or before the 28th the same day of the month and
    time of day that many months on.  Every other subscription is untouched, and the ledger gains, per renewed
    subscription and in the same order, one entry of type granted for the
    quota of its plan (the daily credits of a daily plan, the monthly
    credits of any other).  Whatever the store does, the transaction of one
    subscription either commits both the new period and the grant or leaves
    the store as it was. *)
Theorem renewDueSubscriptions_renews_the_due (E : Env) (now : instant) (db : DB) :
  healthy E ->
  NoDup (map sub_id (subscriptions db)) ->
  referential_integrity db ->
  (exists summary db',
     renewDueSubscriptions E now db = (Ok summary, db')
     /\ map rr_subscriptionId (results summary)
        = map sub_id
            (filter (fun s => ((status s =? "active")%string
                               && negb (cancelAtPeriodEnd s)
                               && (currentPeriodEnd s <=? now))%bool)
                    (subscriptions db))
     /\ Forall (fun r => rr_success r = true) (results summary)
     /\ subscriptions db'
        = map (fun s => if due now s then renewed_row now s else s) (subscriptions db)
     /\ creditLedger db'
        = (creditLedger db
           ++ map (fun s => renewal_grant now s (quota_of s db))
                (filter (due now) (subscriptions db)))%list
     /\ users db' = users db /\ plans db' = plans db
     /\ dailyUsage db' = dailyUsage db /\ billingHistory db' = billingHistory db
     /\ referralStats db' = referralStats db)
  /\ (forall s,
        currentPeriodStart (renewed_row now s) = currentPeriodEnd s
        /\ currentPeriodEnd (renewed_row now s)
           = JsDate.addMonths (currentPeriodEnd s)
               (if (billingCycle s =? "yearly")%string then 12 else 1)
        /\ sub_id (renewed_row now s) = sub_id s
        /\ sub_userId (renewed_row now s) = sub_userId s
        /\ sub_planId (renewed_row now s) = sub_planId s
        /\ billingCycle (renewed_row now s) = billingCycle s
        /\ status (renewed_row now s) = status s
        /\ cancelAtPeriodEnd (renewed_row now s) = cancelAtPeriodEnd s
        /\ canceledAt (renewed_row now s) = canceledAt s
        /\ currentPeriodEnd s < currentPeriodEnd (renewed_row now s)
        /\ (JsDate.DateFromTime (currentPeriodEnd s) <= 28 ->
            let months := if (billingCycle s =? "yearly")%string then 12 else 1 in
            JsDate.YearFromTime (currentPeriodEnd (renewed_row now s))
            = JsDate.YearFromTime (currentPeriodEnd s)
              + (JsDate.MonthFromTime (currentPeriodEnd s) + months) / 12
            /\ JsDate.MonthFromTime (currentPeriodEnd (renewed_row now s))
               = (JsDate.MonthFromTime (currentPeriodEnd s) + months) mod 12
            /\ JsDate.DateFromTime (currentPeriodEnd (renewed_row now s))
               = JsDate.DateFromTime (currentPeriodEnd s)
            /\ JsDate.TimeWithinDay (currentPeriodEnd (renewed_row now s))
               = JsDate.TimeWithinDay (currentPeriodEnd s)))
  /\ (forall s plan,
        plan_of s db = Some plan ->
        cl_userId (renewal_grant now s (quota_of s db)) = sub_userId s
        /\ cl_subscriptionId (renewal_grant now s (quota_of s db)) = sub_id s
        /\ cl_type (renewal_grant now s (quota_of s db)) = "granted"
        /\ cl_amount (renewal_grant now s (quota_of s db))
           = (if isDaily plan then dailyCredits plan else monthlyCredits plan))
  /\ (forall E' s p d,
        match transaction E' (renew_transaction E' now s p) d with
        | (Ok _, d') =>
            subscriptions d'
            = update_first (fun r => (sub_id r =? sub_id s)%string)
                (advance (currentPeriodEnd s) (next_period_end s) now)
                (subscriptions d)
            /\ creditLedger d'
               = (creditLedger d ++ [renewal_grant now s (plan_quota p)])%list
        | (Throw _, d') => d' = d
        end).
Proof.
  intros Hh Hnd Hri. split; [| split; [| split]].
  - destruct (renewDueSubscriptions_healthy E Hh now db Hnd Hri)
      as (summary & db' & H).
    exists summary, db'. exact H.
  - intros s. do 9 (split; [reflexivity |]).
    split; [apply next_period_end_later |].
    intros H28. cbv zeta.
    change (currentPeriodEnd (renewed_row now s))
      with (JsDate.addMonths (currentPeriodEnd s) (cycle_months (billingCycle s))).
    apply JsDateFacts.addMonths_same_date. assumption.
  - intros s plan Hp. unfold quota_of. rewrite Hp. repeat split.
  - intros E' s p d. pose proof (renew_transaction_atomic E' now s p d) as H.
    destruct (transaction E' (renew_transaction E' now s p) d) as [[x | e] d'].
    + subst d'. split; reflexivity.
    + assumption.
Qed.

Lemma bob_paid_ids : NoDup (map sub_id (subscriptions Example.bob_paid)).
Proof. vm_compute. repeat constructor; cbn; intuition discriminate. Qed.

Lemma bob_paid_integrity : referential_integrity Example.bob_paid.
Proof.
  intros s Hs. vm_compute in Hs.
  destruct Hs as [<- | [<- | []]]; vm_compute; split; discriminate.
Qed.

(** The theorem at Bob's store on 20 February: both subscriptions are due
    (period ends 15 and 16 February) and both move on to March, with 1000
    and 25 credits granted. *)
Lemma renewDueSubscriptions_renews_the_due_witness :
  exists summary db',
    renewDueSubscriptions Example.E_ok Example.feb20 Example.bob_paid = (Ok summary, db')
    /\ map rr_subscriptionId (results summary) = ["c4"; "c6"]
    /\ map currentPeriodEnd (subscriptions db')
       = [JsDate.utc 2024 3 15 10 0; JsDate.utc 2024 3 16 9 30]
    /\ map cl_amount (creditLedger db') = [1000; 25; 1000; 25].
Proof.
  destruct (proj1 (renewDueSubscriptions_renews_the_due Example.E_ok Example.feb20
                     Example.bob_paid E_ok_healthy bob_paid_ids bob_paid_integrity))
    as (summary & db' & Hrun & Hids & _ & Hsubs & Hledger & _).
  exists summary, db'. split; [exact Hrun |].
  rewrite Hids, Hsubs, Hledger. vm_compute. repeat split.
Defined.

(** C6.  [renewDueSubscriptions] throws only when its query for the due
    subscriptions does, and then with that error wrapped.  When the query
    returns, the call returns, whatever the store rejects afterwards: there
    is one result per subscription returned by the query, in order, with its
    id and its user's external id; a subscription whose transaction threw
    has [success = false] and the message of the thrown error, its
    transaction left nothing behind, and the loop went on from the store as
    it was to the subscriptions after it; [renewed] and [failed] count the
    successes and the failures and add up to the number of subscriptions. *)
Theorem renewal_failures_are_isolated (E : Env) (now : instant) (db : DB) :
  match subscription_findMany_due E now db with
  | (Ok items, _) =>
      exists summary db',
        renewDueSubscriptions E now db = (Ok summary, db')
        /\ rn_success summary = true
        /\ map rr_subscriptionId (results summary)
           = map (fun item => sub_id (row item)) items
        /\ map rr_userId (results summary)
           = map (fun item => clerkUserId (snd item)) items
        /\ loop_outcome E now items (results summary) db db'
        /\ renewed summary = List.length (filter rr_success (results summary))
        /\ failed summary
           = List.length (filter (fun r => negb (rr_success r)) (results summary))
        /\ (renewed summary + failed summary)%nat = List.length items
  | (Throw e, _) =>
      renewDueSubscriptions E now db
      = (Throw (Failed "Failed to renew subscriptions" e), db)
  end.
Proof.
  pose proof (renewDueSubscriptions_run E now db) as Hrun.
  destruct (subscription_findMany_due E now db) as [[items | e] db0]; [| exact Hrun].
  destruct Hrun as (rs & db' & Hrun & Ho).
  pose proof (loop_outcome_results E now items rs db db' Ho) as (Hids & Hus).
  eexists _, db'. split; [exact Hrun |]. cbn [rn_success results renewed failed].
  repeat split; try assumption.
  rewrite filter_split_length.
  rewrite <- (length_map rr_subscriptionId rs), Hids. apply length_map.
Qed.

(** Isolation at work: on 1 April the store rejects the ledger insert for
    Alice's subscription "c4".  The pass still returns: "c4" is reported as
    failed with the store's message and its row is as before, and Bob's
    "c6", which comes after it, is renewed. *)
Example renewal_goes_on_after_a_failure :
  exists summary db',
    renewDueSubscriptions (Example.E_ledger_down "c4") Example.apr01 Example.bob_paid
    = (Ok summary, db')
    /\ map (fun r => (rr_subscriptionId r, rr_success r, rr_error r)) (results summary)
       = [("c4", false, Some "Connection reset by peer"); ("c6", true, None)]
    /\ (renewed summary, failed summary) = (1%nat, 1%nat)
    /\ map currentPeriodEnd (subscriptions Example.bob_paid)
       = [JsDate.utc 2024 2 15 10 0; JsDate.utc 2024 2 16 9 30]
    /\ map currentPeriodEnd (subscriptions db')
       = [JsDate.utc 2024 2 15 10 0; JsDate.utc 2024 3 16 9 30]
    /\ map cl_amount (creditLedger db') = [1000; 25; 25].
Proof. eexists _, _. vm_compute. repeat split. Qed.

(** ** Two renewal passes in a row *)

Lemma renewed_rows_ids now (l : list Subscription) :
  map sub_id (map (fun s => if due now s then renewed_row now s else s) l)
  = map sub_id l.
Proof.
  rewrite map_map. apply map_ext. intros s. destruct (due now s); reflexivity.
Qed.

Lemma renewed_rows_integrity now db db' :
  referential_integrity db ->
  users db' = users db -> plans db' = plans db ->
  subscriptions db'
  = map (fun s => if due now s then renewed_row now s else s) (subscriptions db) ->
  referential_integrity db'.
Proof.
  intros Hri Hu Hp Hs x Hx. rewrite Hs in Hx.
  apply in_map_iff in Hx as (s & <- & Hin). destruct (Hri s Hin) as (H1 & H2).
  unfold plan_of, owner_of in *. rewrite Hu, Hp.
  destruct (due now s); cbn; split; assumption.
Qed.

(** C5, as the code has it.  Two renewal passes at the same instant, against
    a store that rejects nothing and is well formed: the first renews every
    due subscription once, and the second renews again exactly those whose
    period end, moved on by one billing period, is still not after [now].  A
    period end always moves strictly forward, so a subscription less than
    one period overdue is past [now] after the first pass and the second
    pass leaves it alone; one that is a full period or more overdue is
    renewed by both. *)
Theorem second_renewal_pass (E : Env) (now : instant) (db : DB) :
  healthy E ->
  NoDup (map sub_id (subscriptions db)) ->
  referential_integrity db ->
  exists first db1 second db2,
    renewDueSubscriptions E now db = (Ok first, db1)
    /\ renewDueSubscriptions E now db1 = (Ok second, db2)
    /\ map rr_subscriptionId (results first)
       = map sub_id (filter (due now) (subscriptions db))
    /\ map rr_subscriptionId (results second)
       = map sub_id
           (filter (fun s => (due now s && (next_period_end s <=? now))%bool)
                   (subscriptions db))
    /\ forall s,
         In s (subscriptions db) -> due now s = true ->
         currentPeriodEnd s < next_period_end s
         /\ In (renewed_row now s) (subscriptions db1)
         /\ (now < next_period_end s ->
             ~ In (sub_id s) (map rr_subscriptionId (results second))
             /\ In (renewed_row now s) (subscriptions db2))
         /\ (next_period_end s <= now ->
             In (sub_id s) (map rr_subscriptionId (results second))
             /\ In (renewed_row now (renewed_row now s)) (subscriptions db2)).
Proof.
  intros Hh Hnd Hri.
  destruct (renewDueSubscriptions_healthy E Hh now db Hnd Hri)
    as (first & db1 & Hrun1 & Hids1 & _ & Hsubs1 & _ & Hu1 & Hp1 & _).
  assert (Hnd1 : NoDup (map sub_id (subscriptions db1)))
    by (rewrite Hsubs1, renewed_rows_ids; assumption).
  assert (Hri1 : referential_integrity db1)
    by (eapply renewed_rows_integrity; eauto).
  destruct (renewDueSubscriptions_healthy E Hh now db1 Hnd1 Hri1)
    as (second & db2 & Hrun2 & Hids2 & _ & Hsubs2 & _).
  assert (Hdue1 : filter (due now) (subscriptions db1)
                  = map (fun s => if due now s then renewed_row now s else s)
                      (filter (fun s => (due now s && (next_period_end s <=? now))%bool)
                              (subscriptions db))).
  { rewrite Hsubs1, filter_map. f_equal. apply filter_ext. intros s.
    destruct (due now s) eqn:Hd; cbn [andb].
    - apply due_after_renewal. assumption.
    - assumption. }
  rewrite Hdue1, renewed_rows_ids in Hids2.
  exists first, db1, second, db2.
  split; [assumption |]. split; [assumption |]. split; [assumption |].
  split; [assumption |].
  intros s Hin Hd.
  assert (Hin1 : In (renewed_row now s) (subscriptions db1)).
  { rewrite Hsubs1. apply in_map_iff. exists s. rewrite Hd. auto. }
  split; [apply next_period_end_later |]. split; [exact Hin1 |]. split.
  - intros Hlater. split.
    + rewrite Hids2. intros Hc. apply in_map_iff in Hc as (x & Hk & Hx).
      apply filter_In in Hx as (Hx & Hc).
      assert (x = s) by exact (key_identifies _ s x Hnd Hin Hx Hk). subst x.
      apply andb_true_iff in Hc as (_ & Hc). apply Z.leb_le in Hc. lia.
    + rewrite Hsubs2. apply in_map_iff. exists (renewed_row now s).
      split; [| exact Hin1].
      rewrite (due_after_renewal now s Hd).
      destruct (next_period_end s <=? now) eqn:Hc; [apply Z.leb_le in Hc; lia |].
      reflexivity.
  - intros Hstill. split.
    + rewrite Hids2. apply in_map. apply filter_In. split; [assumption |].
      rewrite Hd. cbn [andb]. apply Z.leb_le. assumption.
    + rewrite Hsubs2. apply in_map_iff. exists (renewed_row now s).
      split; [| exact Hin1].
      rewrite (due_after_renewal now s Hd).
      destruct (next_period_end s <=? now) eqn:Hc; [reflexivity |].
      apply Z.leb_gt in Hc. lia.
Qed.

(** The theorem at Bob's store on 20 February: both subscriptions are less
    than a month overdue, the first pass renews both and the second none. *)
Lemma second_renewal_pass_witness :
  exists first db1 second db2,
    renewDueSubscriptions Example.E_ok Example.feb20 Example.bob_paid = (Ok first, db1)
    /\ renewDueSubscriptions Example.E_ok Example.feb20 db1 = (Ok second, db2)
    /\ map rr_subscriptionId (results first) = ["c4"; "c6"]
    /\ map rr_subscriptionId (results second) = [].
Proof.
  destruct (second_renewal_pass Example.E_ok Example.feb20 Example.bob_paid
              E_ok_healthy bob_paid_ids bob_paid_integrity)
    as (first & db1 & second & db2 & Hrun1 & Hrun2 & Hids1 & Hids2 & _).
  exists first, db1, second, db2.
  split; [exact Hrun1 |]. split; [exact Hrun2 |].
  split; [exact Hids1 | exact Hids2].
Defined.

(** C5, as stated, fails.  On 1 April both subscriptions of Bob's store are
    more than a month overdue (period ends 15 and 16 February).  The first
    pass moves their period ends to 15 and 16 March, which is not in the
    future, and a second pass at the same instant renews both again: each is
    renewed twice, with two grants. *)
Lemma second_pass_renews_again :
  exists first db1 second db2,
    renewDueSubscriptions Example.E_ok Example.apr01 Example.bob_paid = (Ok first, db1)
    /\ renewDueSubscriptions Example.E_ok Example.apr01 db1 = (Ok second, db2)
    /\ map (fun r => (rr_subscriptionId r, rr_success r)) (results first)
       = [("c4", true); ("c6", true)]
    /\ map currentPeriodEnd (subscriptions db1)
       = [JsDate.utc 2024 3 15 10 0; JsDate.utc 2024 3 16 9 30]
    /\ JsDate.utc 2024 3 16 9 30 <= Example.apr01
    /\ map (fun r => (rr_subscriptionId r, rr_success r)) (results second)
       = [("c4", true); ("c6", true)]
    /\ map currentPeriodEnd (subscriptions db2)
       = [JsDate.utc 2024 4 15 10 0; JsDate.utc 2024 4 16 9 30]
    /\ map (fun e => (cl_subscriptionId e, cl_amount e)) (creditLedger db2)
       = [("c4", 1000); ("c6", 25); ("c4", 1000); ("c6", 25); ("c4", 1000); ("c6", 25)].
Proof.
  eexists _, _, _, _. split; [vm_compute; reflexivity |].
  split; [vm_compute; reflexivity |].
  vm_compute. repeat split; discriminate.
Qed.

(** ** Further properties of the code *)

(** X1.  A period end computed by [setMonth(getMonth() + n)] with [n] of 1
    or 12 (any positive [n]) is strictly later than the date it starts
    from, also where the day of the month overflows into the next month. *)
Theorem setMonth_moves_forward (t n : Z) : 0 < n -> t < JsDate.addMonths t n.
Proof. apply JsDateFacts.addMonths_increases. Qed.

(** 31 January 2024, 12:00, plus one month is 2 March 2024, 12:00. *)
Lemma setMonth_moves_forward_witness :
  JsDate.utc 2024 1 31 12 0 < JsDate.addMonths (JsDate.utc 2024 1 31 12 0) 1
  /\ JsDate.addMonths (JsDate.utc 2024 1 31 12 0) 1 = JsDate.utc 2024 3 2 12 0.
Proof.
  split; [apply (setMonth_moves_forward (JsDate.utc 2024 1 31 12 0) 1); lia |].
  vm_compute. reflexivity.
Defined.

(** X2.  For a date on or before the 28th, [setMonth(getMonth() + n)] gives
    the same day of the month and the same time of day, [n] calendar months
    on (the year carried when the month passes December). *)
Theorem setMonth_keeps_day_and_time (t n : Z) :
  JsDate.DateFromTime t <= 28 ->
  JsDate.YearFromTime (JsDate.addMonths t n)
  = JsDate.YearFromTime t + (JsDate.MonthFromTime t + n) / 12
  /\ JsDate.MonthFromTime (JsDate.addMonths t n) = (JsDate.MonthFromTime t + n) mod 12
  /\ JsDate.DateFromTime (JsDate.addMonths t n) = JsDate.DateFromTime t
  /\ JsDate.TimeWithinDay (JsDate.addMonths t n) = JsDate.TimeWithinDay t.
Proof. apply JsDateFacts.addMonths_same_date. Qed.

(** 16 December 2024, 9:30, plus one month is 16 January 2025, 9:30. *)
Lemma setMonth_keeps_day_and_time_witness :
  JsDate.YearFromTime (JsDate.addMonths (JsDate.utc 2024 12 16 9 30) 1) = 2025
  /\ JsDate.MonthFromTime (JsDate.addMonths (JsDate.utc 2024 12 16 9 30) 1) = 0
  /\ JsDate.DateFromTime (JsDate.addMonths (JsDate.utc 2024 12 16 9 30) 1) = 16.
Proof.
  destruct (setMonth_keeps_day_and_time (JsDate.utc 2024 12 16 9 30) 1
              ltac:(vm_compute; discriminate)) as (Hy & Hm & Hd & _).
  rewrite Hy, Hm, Hd. vm_compute. repeat split.
Defined.

(** X3.  For a user with an active subscription, against a store that
    rejects nothing, [getSubscriptionDetails] reports as available credits
    the sum of the user's ledger entries, as today's usage the count of
    today's usage row (0 without one), as daily limit the plan's daily
    credits for a daily plan and null otherwise, and at most ten recent
    ledger entries; it leaves the store alone. *)
Theorem getSubscriptionDetails_reports_ledger_sum
    (E : Env) (now : instant) (userId : string) (db : DB)
    (user : User) (s : Subscription) (plan : Plan) :
  healthy E ->
  user_of userId db = Some user ->
  active_of (user_id user) db = Some s ->
  plan_of s db = Some plan ->
  exists view recent,
    getSubscriptionDetails E now userId db
    = (Ok (ActiveDetails true view
             (balance (user_id user) db)
             (usage_on (user_id user) (JsDate.startOfDay now) db)
             (if isDaily plan then Some (dailyCredits plan) else None)
             recent), db)
    /\ sv_id view = sub_id s /\ sv_plan view = plan /\ sv_status view = status s
    /\ sv_currentPeriodEnd view = currentPeriodEnd s
    /\ (List.length recent <= 10)%nat.
Proof.
  intros Hh Hu Ha Hp.
  unfold getSubscriptionDetails, user_findUnique, subscription_findFirst_with_plan,
    subscription_findFirst, include_plan, recent_ledger, creditLedger_aggregate,
    dailyUsage_findFirst.
  unfold_monad. unfold user_of, active_of, plan_of, usage_on in *.
  hstep Hh. rewrite Hu. hstep Hh. rewrite Ha. hstep Hh. rewrite Hp. hstep Hh.
  rewrite or0_aggregate.
  eexists _, _. split; [reflexivity |]. cbn [sv_id sv_plan sv_status sv_currentPeriodEnd].
  repeat split. apply firstn_le_length.
Qed.

(** Bob, after using 20 credits: 5 available, 20 used today of 25. *)
Lemma getSubscriptionDetails_reports_ledger_sum_witness :
  exists view recent,
    getSubscriptionDetails Example.E_ok Example.jan16 "clerk_bob" Example.bob_used_20
    = (Ok (ActiveDetails true view 5 20 (Some 25) recent), Example.bob_used_20).
Proof.
  pose proof (getSubscriptionDetails_reports_ledger_sum Example.E_ok Example.jan16
                "clerk_bob" Example.bob_used_20
                (mkUser "c5" "clerk_bob" "bob@example.org" "Anonymous" (Some "c3"))
                (activate Example.pro "monthly" Example.jan16
                   (JsDate.addMonths Example.jan16 1) Example.jan16
                   (mkSubscription "c6" "c5" "free-plan-id"
                      (Some "free-c5-1705312800000") "monthly" "active"
                      Example.jan15 Example.jan15 false None (Some Example.jan15)
                      (Some (JsDate.addMonths Example.jan15 1)) (Some 2)
                      Example.jan15))
                Example.pro E_ok_healthy
                ltac:(vm_compute; reflexivity) ltac:(vm_compute; reflexivity)
                ltac:(vm_compute; reflexivity)) as H.
  vm_compute in H. destruct H as (view & recent & Hrun & _).
  exists view, recent. vm_compute. exact Hrun.
Defined.

(** X4.  The service method itself does not check the sign of the amount:
    for a user on a plan without a daily limit, against a store that
    rejects nothing, a call with [n <= 0] succeeds whenever the balance is
    not negative, and appends a ledger entry of [-n >= 0], so the balance
    does not go down.  (Requests reach the method through the controller,
    which refuses such amounts first.) *)
Theorem consumeCredits_has_no_sign_check
    (E : Env) (now : instant) (userId : string) (n : Z) (description : string)
    (db : DB) (user : User) (s : Subscription) (plan : Plan) :
  healthy E ->
  user_of userId db = Some user ->
  active_of (user_id user) db = Some s ->
  plan_of s db = Some plan ->
  isDaily plan = false ->
  n <= 0 -> 0 <= balance (user_id user) db ->
  exists db',
    consumeCredits E now userId n description db
    = (Ok (mkConsumeResult true n (balance (user_id user) db - n)
             "Credits consumed successfully"), db')
    /\ creditLedger db'
       = (creditLedger db
          ++ [mkCreditLedger (user_id user) (sub_id s) (- n) "consumed"
                description now])%list
    /\ balance (user_id user) db <= balance (user_id user) db'.
Proof.
  intros Hh Hu Ha Hp Hd Hn Hb.
  pose proof (consumeCredits_healthy E now userId n description db Hh) as H.
  rewrite Hu, Ha, Hp, Hd in H. cbv zeta in H. cbn [andb] in H.
  destruct (balance (user_id user) db <? n) eqn:Hlt; [apply Z.ltb_lt in Hlt; lia |].
  destruct H as (Hrun & Hl & Hbal).
  eexists. split; [exact Hrun |]. split; [exact Hl |]. lia.
Qed.

(** Alice, on Premium with 1000 credits: "consuming" -10 leaves her 1010. *)
Lemma consumeCredits_has_no_sign_check_witness :
  exists db',
    consumeCredits Example.E_ok Example.jan16 "clerk_alice" (-10) "refund"
      Example.bob_paid
    = (Ok (mkConsumeResult true (-10) 1010 "Credits consumed successfully"), db')
    /\ balance "c3" Example.bob_paid = 1000 /\ balance "c3" db' = 1010.
Proof.
  pose proof (consumeCredits_has_no_sign_check Example.E_ok Example.jan16
                "clerk_alice" (-10) "refund" Example.bob_paid
                (mkUser "c3" "clerk_alice" "alice@example.org" "Alice" None)
                (activate Example.premium "monthly" Example.jan15
                   (JsDate.addMonths Example.jan15 1) Example.jan15
                   (mkSubscription "c4" "c3" "free-plan-id"
                      (Some "free-c3-1705312800000") "monthly" "active"
                      Example.jan15 Example.jan15 false None (Some Example.jan15)
                      (Some (JsDate.addMonths Example.jan15 1)) (Some 2)
                      Example.jan15))
                Example.premium E_ok_healthy
                ltac:(vm_compute; reflexivity) ltac:(vm_compute; reflexivity)
                ltac:(vm_compute; reflexivity) eq_refl
                ltac:(lia) ltac:(vm_compute; discriminate)) as H.
  destruct H as (db' & Hrun & Hl & _).
  exists db'. split; [| split].
  - vm_compute. vm_compute in Hrun. exact Hrun.
  - vm_compute. reflexivity.
  - unfold balance, ledger_of. rewrite Hl. vm_compute. reflexivity.
Defined.

(** * Further properties

    ** Signup *)

Section SignupFacts.

Variable E : Env.

Lemma setup_transaction_tables now clerk mail name referrer plan sd ed db r db' :
  setup_transaction E now clerk mail name referrer plan sd ed db = (Ok r, db') ->
  plans db' = plans db /\ creditLedger db' = creditLedger db
  /\ dailyUsage db' = dailyUsage db /\ billingHistory db' = billingHistory db.
Proof.
  unfold setup_transaction, user_create, referralStats_create, subscription_create,
    referralStats_update.
  unfold_monad. intros H. run_all.
  all: db_simpl; repeat split; reflexivity.
Qed.


Lemma setup_transaction_detail now clerk mail name referrer plan sd ed db u ref db' :
  setup_transaction E now clerk mail name referrer plan sd ed db = (Ok (u, ref), db') ->
  u = mkUser (cuid E db) clerk mail
        (if truthy name then default "" name else "Anonymous")
        (option_map user_id referrer)
  /\ existsb (fun x => ((user_id x =? user_id u)%string
                        || (clerkUserId x =? clerk)%string)%bool) (users db) = false
  /\ users db' = (users db ++ [u])%list
  /\ ref = "AURA-REF-" ++ random_ref E (set_users (users db ++ [u]) db)
  /\ (exists id,
        subscriptions db'
        = (subscriptions db ++ [signup_subscription E now u plan sd ed id])%list
        /\ existsb (fun s => (sub_id s =? id)%string) (subscriptions db) = false)
  /\ existsb (fun r => ((rs_userId r =? user_id u)%string
                        || (referenceId r =? ref)%string)%bool) (referralStats db) = false
  /\ referralStats db'
     = match referrer with
       | Some r =>
           update_first (fun x => (rs_userId x =? user_id r)%string) count_signup
             (referralStats db ++ [mkReferralStats (user_id u) ref 0 0 0%float 0%float])
       | None =>
           (referralStats db ++ [mkReferralStats (user_id u) ref 0 0 0%float 0%float])%list
       end
  /\ match referrer with
     | Some r =>
         find (fun x => (rs_userId x =? user_id r)%string)
           (referralStats db ++ [mkReferralStats (user_id u) ref 0 0 0%float 0%float])
         <> None
     | None => True
     end.
Proof.
  unfold setup_transaction, user_create, referralStats_create, subscription_create,
    referralStats_update.
  unfold_monad. intros H. run_all.
  all: db_simpl; cbn [referenceId user_id clerkUserId rs_userId] in *.
  all: repeat split; try reflexivity; try assumption; try congruence.
  all: try (eexists; split; [reflexivity | assumption]).
Qed.


(** The user who holds a reference code. *)
Lemma setupNewUser_created now body db :
  res_status (fst (setupNewUser E now body db)) = 201 ->
  exists u ref plan referrer db1,
    fst (setupNewUser E now body db)
    = mkResponse 201 true "User created with 1-month free plan (2 credits)"
        (Some (u, Some ref)) None
    /\ truthy (body_clerkUserId body) = true /\ truthy (body_email body) = true
    /\ user_of (default "" (body_clerkUserId body)) db = None
    /\ referrer
       = (if truthy (body_referredById body)
          then holder_of (default "" (body_referredById body)) db else None)
    /\ (truthy (body_referredById body) = true -> referrer <> None)
    /\ plan_name plan = "Free"
    /\ (db1 = db /\ In plan (plans db)
        \/ db1 = set_plans (plans db ++ [plan]) db /\ plan = free_plan (cuid E db)
           /\ plan_by_name "Free" db = None)
    /\ setup_transaction E now (default "" (body_clerkUserId body))
         (default "" (body_email body)) (body_name body) referrer plan now
         (JsDate.addMonths now 1) db1
       = (Ok (u, ref), snd (setupNewUser E now body db)).
Proof.
  unfold setupNewUser, setup_body, user_findUnique, user_findFirst_by_reference,
    plan_findUnique, plan_create, user_of, holder_of, plan_by_name.
  unfold_monad. intros H. run_all; cbn [fst snd res_status] in *; try discriminate.
  all: repeat match goal with
         | Hx : (_ || _)%bool = false |- _ => apply orb_false_iff in Hx; destruct Hx
         | Hx : negb _ = false |- _ => apply negb_false_iff in Hx
         end.
  all: match goal with
       | Hx : setup_transaction _ _ _ _ _ ?r ?p _ _ ?d1 = (Ok ?a, _) |- _ =>
           destruct a as [u0 ref]; exists u0, ref, p, r, d1
       end.
  all: repeat match goal with
         | Hx : ?x = _ |- context [?x] => rewrite Hx
         end.
  all: split; [reflexivity |].
  all: do 3 (split; [reflexivity || assumption |]).
  all: split; [reflexivity |].
  all: split; [intros; discriminate |].
  all: split; [solve [reflexivity]
              || (match goal with
                  | Hx : find _ (plans _) = Some _ |- _ =>
                      apply find_some in Hx; destruct Hx as (_ & Hx);
                      apply String.eqb_eq in Hx; exact Hx
                  end) |].
  all: split; [| reflexivity || assumption].
  all: first [ right; repeat split; reflexivity
             | left; split; [reflexivity |];
               match goal with
               | Hx : find _ (plans _) = Some _ |- _ =>
                   apply find_some in Hx; destruct Hx as (Hx & _); exact Hx
               end ].
Qed.


(** A signup that is not answered 201 wrote nothing but, possibly, the Free
    plan. *)
Lemma setupNewUser_not_created now body db :
  res_status (fst (setupNewUser E now body db)) <> 201 ->
  snd (setupNewUser E now body db) = db
  \/ snd (setupNewUser E now body db)
     = set_plans (plans db ++ [free_plan (cuid E db)]) db
     /\ plan_by_name "Free" db = None
     /\ res_status (fst (setupNewUser E now body db)) = 500.
Proof.
  unfold setupNewUser, setup_body, user_findUnique, user_findFirst_by_reference,
    plan_findUnique, plan_create, plan_by_name.
  unfold_monad. intros H. run_all; cbn [fst snd res_status] in *;
    try (exfalso; apply H; reflexivity).
  all: first [ left; reflexivity | right; repeat split; assumption ].
Qed.



Lemma setupNewUser_tables now body db :
  (plans (snd (setupNewUser E now body db)) = plans db
   \/ exists id, plans (snd (setupNewUser E now body db))
                 = (plans db ++ [free_plan id])%list)
  /\ creditLedger (snd (setupNewUser E now body db)) = creditLedger db
  /\ dailyUsage (snd (setupNewUser E now body db)) = dailyUsage db
  /\ billingHistory (snd (setupNewUser E now body db)) = billingHistory db.
Proof.
  destruct (Z.eq_dec (res_status (fst (setupNewUser E now body db))) 201) as [H | H].
  - destruct (setupNewUser_created now body db H)
      as (u & ref & plan & referrer & db1 & _ & _ & _ & _ & _ & _ & _ & Hdb1 & Htx).
    apply setup_transaction_tables in Htx as (Hp & Hl & Hd & Hb).
    rewrite Hp, Hl, Hd, Hb.
    destruct Hdb1 as [(-> & _) | (-> & -> & _)]; db_simpl; repeat split; eauto.
  - destruct (setupNewUser_not_created now body db H) as [-> | (-> & _)];
      db_simpl; repeat split; eauto.
Qed.

Lemma find_app_none {A} (p : A -> bool) (l1 l2 : list A) :
  find p l1 = None -> find p (l1 ++ l2) = find p l2.
Proof.
  induction l1 as [| a l1 IH]; cbn [find app]; intros H; [reflexivity |].
  destruct (p a); [discriminate | auto].
Qed.

Lemma find_app_some {A} (p : A -> bool) (l1 l2 : list A) (x : A) :
  find p l1 = Some x -> find p (l1 ++ l2) = Some x.
Proof.
  induction l1 as [| a l1 IH]; cbn [find app]; intros H; [discriminate |].
  destruct (p a); [assumption | auto].
Qed.

Lemma update_first_app {A} (p : A -> bool) (f : A -> A) (l1 l2 : list A) :
  find p l1 <> None -> update_first p f (l1 ++ l2) = (update_first p f l1 ++ l2)%list.
Proof.
  induction l1 as [| a l1 IH]; cbn [find app update_first]; intros H.
  - contradiction.
  - destruct (p a); [reflexivity | rewrite IH by assumption; reflexivity].
Qed.

Lemma existsb_find_none {A} (p : A -> bool) (l : list A) :
  existsb p l = false -> find p l = None.
Proof.
  induction l as [| a l IH]; cbn [existsb find]; intros H; [reflexivity |].
  apply orb_false_iff in H as (-> & H). auto.
Qed.

(** Whoever holds a reference code has a statistics row. *)
Lemma holder_has_stats reference db r :
  holder_of reference db = Some r ->
  In r (users db) /\ stats_of (user_id r) db <> None.
Proof.
  unfold holder_of, stats_of. intros H. apply find_some in H as (Hin & Hex).
  split; [assumption |]. apply existsb_exists in Hex as (x & Hx & Hm).
  apply andb_true_iff in Hm as (Hm & _). intros Hnone.
  apply (find_none _ _ Hnone) in Hx. congruence.
Qed.

(** What a signup answered 201 has written. *)
Lemma setupNewUser_201 now body db :
  res_status (fst (setupNewUser E now body db)) = 201 ->
  exists u ref plan sid,
    fst (setupNewUser E now body db)
    = mkResponse 201 true "User created with 1-month free plan (2 credits)"
        (Some (u, Some ref)) None
    /\ user_of (default "" (body_clerkUserId body)) db = None
    /\ existsb (fun x => (user_id x =? user_id u)%string) (users db) = false
    /\ u = mkUser (user_id u) (default "" (body_clerkUserId body))
             (default "" (body_email body))
             (if truthy (body_name body) then default "" (body_name body)
              else "Anonymous")
             (if truthy (body_referredById body)
              then option_map user_id
                     (holder_of (default "" (body_referredById body)) db)
              else None)
    /\ (truthy (body_referredById body) = true ->
        holder_of (default "" (body_referredById body)) db <> None)
    /\ users (snd (setupNewUser E now body db)) = (users db ++ [u])%list
    /\ (exists suffix, ref = "AURA-REF-" ++ suffix)
    /\ plan_name plan = "Free"
    /\ (plans (snd (setupNewUser E now body db)) = plans db /\ In plan (plans db)
        \/ plans (snd (setupNewUser E now body db)) = (plans db ++ [plan])%list
           /\ plan = free_plan (plan_id plan) /\ plan_by_name "Free" db = None)
    /\ subscriptions (snd (setupNewUser E now body db))
       = (subscriptions db
          ++ [signup_subscription E now u plan now (JsDate.addMonths now 1) sid])%list
    /\ existsb (fun s => (sub_id s =? sid)%string) (subscriptions db) = false
    /\ existsb (fun r => ((rs_userId r =? user_id u)%string
                          || (referenceId r =? ref)%string)%bool)
               (referralStats db) = false
    /\ referralStats (snd (setupNewUser E now body db))
       = ((if truthy (body_referredById body)
           then match holder_of (default "" (body_referredById body)) db with
                | Some r =>
                    update_first (fun x => (rs_userId x =? user_id r)%string)
                      count_signup (referralStats db)
                | None => referralStats db
                end
           else referralStats db)
          ++ [mkReferralStats (user_id u) ref 0 0 0%float 0%float])%list
    /\ creditLedger (snd (setupNewUser E now body db)) = creditLedger db
    /\ dailyUsage (snd (setupNewUser E now body db)) = dailyUsage db
    /\ billingHistory (snd (setupNewUser E now body db)) = billingHistory db.
Proof.
  intros H.
  destruct (setupNewUser_tables now body db) as (_ & Hl & Hd & Hb).
  destruct (setupNewUser_created now body db H)
    as (u & ref & plan & referrer & db1 & Hres & Hc & Hm & Hnew & Href & Hgiven
        & Hfree & Hdb1 & Htx).
  assert (Hframe : users db1 = users db /\ subscriptions db1 = subscriptions db
                   /\ referralStats db1 = referralStats db).
  { destruct Hdb1 as [(-> & _) | (-> & _)]; repeat split. }
  destruct Hframe as (Hu1 & Hs1 & Hr1).
  pose proof (setup_transaction_tables _ _ _ _ _ _ _ _ _ _ _ Htx) as (Hp & _).
  apply setup_transaction_detail in Htx
    as (Hu & Hfresh & Husers & Hcode & (sid & Hsubs & Hsid) & Hstats & Hrs & Hfound).
  rewrite Hu1 in Hfresh, Husers. rewrite Hs1 in Hsubs, Hsid.
  rewrite Hr1 in Hstats, Hrs, Hfound.
  apply existsb_false_orb in Hfresh as (Hfresh & _).
  exists u, ref, plan, sid.
  split; [exact Hres |]. split; [exact Hnew |]. split; [exact Hfresh |].
  split.
  { rewrite Hu at 1. cbn [user_id]. f_equal.
    - rewrite Hu. reflexivity.
    - rewrite Href. destruct (truthy (body_referredById body)); reflexivity. }
  split.
  { intros Ht. specialize (Hgiven Ht). rewrite Href, Ht in Hgiven. exact Hgiven. }
  split; [exact Husers |]. split; [eauto |]. split; [exact Hfree |].
  split.
  { rewrite Hp. destruct Hdb1 as [(-> & Hin) | (-> & Hpl)].
    - left. split; [reflexivity | exact Hin].
    - right. destruct Hpl as (Hpl & Hnone). db_simpl. split; [reflexivity |].
      split; [rewrite Hpl; reflexivity | exact Hnone]. }
  split; [exact Hsubs |]. split; [exact Hsid |]. split; [exact Hstats |].
  split; [| repeat split; assumption].
  rewrite Hrs, Href. destruct (truthy (body_referredById body)); [| reflexivity].
  destruct (holder_of (default "" (body_referredById body)) db) as [r |] eqn:Hh;
    [| reflexivity].
  apply update_first_app. apply holder_has_stats in Hh as (Hin & Hst).
  exact Hst.
Qed.

(** The statistics row of the user a signup created is the one it wrote. *)
Lemma setupNewUser_new_stats now body db u ref :
  existsb (fun x => (user_id x =? user_id u)%string) (users db) = false ->
  existsb (fun r => (rs_userId r =? user_id u)%string) (referralStats db) = false ->
  referralStats (snd (setupNewUser E now body db))
  = ((if truthy (body_referredById body)
      then match holder_of (default "" (body_referredById body)) db with
           | Some r =>
               update_first (fun x => (rs_userId x =? user_id r)%string)
                 count_signup (referralStats db)
           | None => referralStats db
           end
      else referralStats db)
     ++ [mkReferralStats (user_id u) ref 0 0 0%float 0%float])%list ->
  stats_of (user_id u) (snd (setupNewUser E now body db))
  = Some (mkReferralStats (user_id u) ref 0 0 0%float 0%float).
Proof.
  intros Hfresh Hstats Hrs.
  assert (Hnone : stats_of (user_id u) db = None)
    by (unfold stats_of; apply existsb_find_none; exact Hstats).
  unfold stats_of in *. rewrite Hrs.
  rewrite find_app_none.
  - cbn [find rs_userId]. rewrite String.eqb_refl. reflexivity.
  - destruct (truthy (body_referredById body)) eqn:Ht; [| exact Hnone].
    destruct (holder_of (default "" (body_referredById body)) db) as [r |] eqn:Hh;
      [| exact Hnone].
    rewrite find_update_first_other; [exact Hnone |].
    intros x Hx. apply String.eqb_eq in Hx.
    apply holder_has_stats in Hh as (Hin & _).
    assert (Hne : (rs_userId x =? user_id u)%string = false).
    { apply String.eqb_neq. rewrite Hx. intros Heq.
      assert (existsb (fun x0 => (user_id x0 =? user_id u)%string) (users db) = true).
      { apply existsb_exists. exists r. split; [assumption |].
        apply String.eqb_eq. assumption. }
      congruence. }
    cbn [count_signup rs_userId]. split; exact Hne.
Qed.

End SignupFacts.

(** X5.  A signup answered 201 has added exactly one user, one statistics
    row and one subscription, and nothing to the ledger, the billing history
    or the usage counters.  The user is new (no user had the external id,
    and the row id is fresh), carries the e-mail address of the request and
    its name, or Anonymous without one; the statistics row has the returned
    reference code, which starts with AURA-REF-, and zero counters; the
    subscription is the user's, active, monthly, on a plan named Free of the
    catalogue, with 2 remaining credits, starting now and ending one
    [setMonth] month later. *)
Theorem setupNewUser_creates_user_stats_and_trial
    (E : Env) (now : instant) (body : SetupBody) (db : DB) :
  res_status (fst (setupNewUser E now body db)) = 201 ->
  exists u ref sub plan,
    res_data (fst (setupNewUser E now body db)) = Some (u, Some ref)
    /\ users (snd (setupNewUser E now body db)) = (users db ++ [u])%list
    /\ user_of (default "" (body_clerkUserId body)) db = None
    /\ ~ In (user_id u) (map user_id (users db))
    /\ clerkUserId u = default "" (body_clerkUserId body)
    /\ email u = default "" (body_email body)
    /\ user_name u = (if truthy (body_name body) then default "" (body_name body)
                      else "Anonymous")
    /\ (exists suffix, ref = "AURA-REF-" ++ suffix)
    /\ stats_of (user_id u) db = None
    /\ stats_of (user_id u) (snd (setupNewUser E now body db))
       = Some (mkReferralStats (user_id u) ref 0 0 0%float 0%float)
    /\ List.length (referralStats (snd (setupNewUser E now body db)))
       = S (List.length (referralStats db))
    /\ subscriptions (snd (setupNewUser E now body db)) = (subscriptions db ++ [sub])%list
    /\ ~ In (sub_id sub) (map sub_id (subscriptions db))
    /\ sub_userId sub = user_id u /\ status sub = "active"
    /\ billingCycle sub = "monthly"
    /\ sub_planId sub = plan_id plan /\ plan_name plan = "Free"
    /\ In plan (plans (snd (setupNewUser E now body db)))
    /\ remainingCredits sub = Some 2
    /\ startDate sub = Some now /\ endDate sub = Some (JsDate.addMonths now 1)
    /\ creditLedger (snd (setupNewUser E now body db)) = creditLedger db
    /\ billingHistory (snd (setupNewUser E now body db)) = billingHistory db
    /\ dailyUsage (snd (setupNewUser E now body db)) = dailyUsage db.
Proof.
  intros H.
  destruct (setupNewUser_201 E now body db H)
    as (u & ref & plan & sid & Hres & Hnew & Hfresh & Hu & Hgiven & Husers & Hcode
        & Hfree & Hplans & Hsubs & Hsid & Hstats & Hrs & Hl & Hd & Hb).
  apply existsb_false_orb in Hstats as (Hstats & _).
  assert (Hnone : stats_of (user_id u) db = None)
    by (unfold stats_of; apply existsb_find_none; exact Hstats).
  exists u, ref, (signup_subscription E now u plan now (JsDate.addMonths now 1) sid), plan.
  split; [rewrite Hres; reflexivity |]. split; [exact Husers |].
  split; [exact Hnew |].
  split; [apply (existsb_false_not_In user_id String.eqb);
          [apply String.eqb_eq | exact Hfresh] |].
  split; [rewrite Hu; reflexivity |]. split; [rewrite Hu; reflexivity |].
  split; [rewrite Hu; reflexivity |]. split; [exact Hcode |].
  split; [exact Hnone |].
  split; [apply (setupNewUser_new_stats E); assumption |].
  split.
  { rewrite Hrs, length_app. cbn [List.length].
    destruct (truthy (body_referredById body)); [| lia].
    destruct (holder_of (default "" (body_referredById body)) db); [| lia].
    rewrite <- (length_map rs_userId (update_first _ _ _)).
    rewrite map_update_first by (intros; reflexivity). rewrite length_map. lia. }
  split; [exact Hsubs |].
  split; [apply fresh_subscription_id; exact Hsid |].
  do 4 (split; [reflexivity |]). split; [exact Hfree |].
  split.
  { destruct Hplans as [(-> & Hin) | (-> & _)]; [exact Hin |].
    apply in_or_app. right. apply in_eq. }
  do 3 (split; [reflexivity |]). repeat split; assumption.
Qed.

(** Alice signs up against the catalogue of the README. *)
Lemma setupNewUser_creates_user_stats_and_trial_witness :
  exists u ref sub plan,
    res_data (fst (setupNewUser Example.E_ok Example.jan15 Scenario.alice
                     Example.catalogue)) = Some (u, Some ref)
    /\ user_id u = "c3" /\ ref = "AURA-REF-0"
    /\ subscriptions (snd (setupNewUser Example.E_ok Example.jan15 Scenario.alice
                             Example.catalogue)) = [sub]
    /\ sub_planId sub = plan_id plan /\ plan = Example.free
    /\ endDate sub = Some (JsDate.utc 2024 2 15 10 0).
Proof.
  pose proof (setupNewUser_creates_user_stats_and_trial Example.E_ok Example.jan15
                Scenario.alice Example.catalogue ltac:(vm_compute; reflexivity)) as H.
  destruct H as (u & ref & sub & plan & Hres & _ & _ & _ & _ & _ & _ & _ & _ & _ & _
                 & Hsubs & _ & _ & _ & _ & Hplan & Hname & Hin & _ & _ & Hend & _).
  exists u, ref, sub, plan.
  assert (Hdata : Some (u, Some ref)
                  = Some (mkUser "c3" "clerk_alice" "alice@example.org" "Alice" None,
                          Some "AURA-REF-0")).
  { rewrite <- Hres. vm_compute. reflexivity. }
  injection Hdata as -> ->.
  split; [exact Hres |]. split; [reflexivity |]. split; [reflexivity |].
  split; [exact Hsubs |]. split; [exact Hplan |]. split.
  - vm_compute in Hin. destruct Hin as [<- | [<- | [<- | []]]];
      [reflexivity | discriminate Hname | discriminate Hname].
  - rewrite Hend. vm_compute. reflexivity.
Defined.

(** X6.  A signup with a reference code is answered 201 only where a user
    holds that code: the new user then names that user as referrer, and the
    referrer's statistics row has [totalUsersSigned] raised by one and every
    other column as before.  Without a code the new user has no referrer.
    Either way the statistics rows of all other users are as they were. *)
Theorem setupNewUser_counts_the_referral
    (E : Env) (now : instant) (body : SetupBody) (db : DB) :
  res_status (fst (setupNewUser E now body db)) = 201 ->
  exists u ref,
    res_data (fst (setupNewUser E now body db)) = Some (u, Some ref)
    /\ if truthy (body_referredById body) then
         exists referrer st,
           holder_of (default "" (body_referredById body)) db = Some referrer
           /\ referredById u = Some (user_id referrer)
           /\ stats_of (user_id referrer) db = Some st
           /\ stats_of (user_id referrer) (snd (setupNewUser E now body db))
              = Some (mkReferralStats (rs_userId st) (referenceId st)
                        (totalUsersSigned st + 1) (totalPaidSubscribers st)
                        (totalEarning st) (amountDeduct st))
           /\ (forall other, other <> user_id referrer -> other <> user_id u ->
                 stats_of other (snd (setupNewUser E now body db)) = stats_of other db)
       else
         referredById u = None
         /\ (forall other, other <> user_id u ->
               stats_of other (snd (setupNewUser E now body db)) = stats_of other db).
Proof.
  intros H.
  destruct (setupNewUser_201 E now body db H)
    as (u & ref & plan & sid & Hres & Hnew & Hfresh & Hu & Hgiven & Husers & Hcode
        & Hfree & Hplans & Hsubs & Hsid & Hstats & Hrs & Hl & Hd & Hb).
  exists u, ref. split; [rewrite Hres; reflexivity |].
  assert (Hlast : forall other l,
             other <> user_id u ->
             find (fun r => (rs_userId r =? other)%string)
               (l ++ [mkReferralStats (user_id u) ref 0 0 0%float 0%float])
             = find (fun r => (rs_userId r =? other)%string) l).
  { intros other l Hne.
    destruct (find (fun r => (rs_userId r =? other)%string) l) as [x |] eqn:Hf.
    - apply find_app_some. exact Hf.
    - rewrite find_app_none by exact Hf. cbn [find rs_userId].
      destruct (user_id u =? other)%string eqn:Hk; [| reflexivity].
      apply String.eqb_eq in Hk. congruence. }
  destruct (truthy (body_referredById body)) eqn:Ht.
  - destruct (holder_of (default "" (body_referredById body)) db) as [r |] eqn:Hh;
      [| exfalso; apply (Hgiven eq_refl); reflexivity].
    pose proof (holder_has_stats _ _ _ Hh) as (Hin & Hst).
    destruct (stats_of (user_id r) db) as [st |] eqn:Hs; [| contradiction].
    assert (Hne : user_id r <> user_id u).
    { intros Heq.
      assert (existsb (fun x0 => (user_id x0 =? user_id u)%string) (users db) = true).
      { apply existsb_exists. exists r. split; [assumption |].
        apply String.eqb_eq. assumption. }
      congruence. }
    exists r, st. split; [reflexivity |].
    split; [rewrite Hu; reflexivity |]. split; [exact Hs |].
    unfold stats_of in *. rewrite Hrs. split.
    + rewrite Hlast by exact Hne.
      apply (find_update_first _ count_signup _ st Hs).
      cbn [count_signup rs_userId]. apply find_some in Hs. tauto.
    + intros other Hor Hou. rewrite Hlast by exact Hou.
      apply find_update_first_other. intros x Hx. apply String.eqb_eq in Hx.
      cbn [count_signup rs_userId]. rewrite Hx.
      split; apply String.eqb_neq; congruence.
  - split; [rewrite Hu; reflexivity |].
    intros other Hou. unfold stats_of. rewrite Hrs. apply Hlast. exact Hou.
Qed.

(** Bob signs up with Alice's code: Alice has one user signed. *)
Lemma setupNewUser_counts_the_referral_witness :
  exists after,
    stats_of "c3" Example.with_alice
    = Some (mkReferralStats "c3" "AURA-REF-0" 0 0 0%float 0%float)
    /\ stats_of "c3" (snd (setupNewUser Example.E_ok Example.jan15 Scenario.bob
                             Example.with_alice)) = Some after
    /\ totalUsersSigned after = 1.
Proof.
  pose proof (setupNewUser_counts_the_referral Example.E_ok Example.jan15 Scenario.bob
                Example.with_alice ltac:(vm_compute; reflexivity)) as H.
  destruct H as (u & ref & _ & H).
  change (truthy (body_referredById Scenario.bob)) with true in H. cbv iota in H.
  destruct H as (referrer & st & Hh & _ & Hst & Hafter & _).
  assert (Hr : Some referrer
               = Some (mkUser "c3" "clerk_alice" "alice@example.org" "Alice" None)).
  { rewrite <- Hh. vm_compute. reflexivity. }
  injection Hr as ->. cbn [user_id] in *.
  assert (Hs : Some st = Some (mkReferralStats "c3" "AURA-REF-0" 0 0 0%float 0%float)).
  { rewrite <- Hst. vm_compute. reflexivity. }
  injection Hs as ->.
  eexists. split; [exact Hst |]. split; [exact Hafter |]. reflexivity.
Defined.

(** X7.  Signup is keyed by the external user id.  Once a signup has been
    answered 201, any later signup with the same [clerkUserId] and an e-mail
    address, whose lookup of the user goes through, is answered 200 with the
    user the first one created, whatever its address, name or reference
    code, and writes nothing. *)
Theorem setupNewUser_twice
    (E E' : Env) (now now' : instant) (body body' : SetupBody) (db : DB) :
  res_status (fst (setupNewUser E now body db)) = 201 ->
  body_clerkUserId body' = body_clerkUserId body ->
  truthy (body_email body') = true ->
  fault E' (UserFindUnique (default "" (body_clerkUserId body)))
    (snd (setupNewUser E now body db)) = None ->
  exists u ref,
    res_data (fst (setupNewUser E now body db)) = Some (u, Some ref)
    /\ setupNewUser E' now' body' (snd (setupNewUser E now body db))
       = (mkResponse 200 true "User already exists" (Some (u, None)) None,
          snd (setupNewUser E now body db)).
Proof.
  intros H Hsame Hmail Hfault.
  destruct (setupNewUser_created E now body db H)
    as (u & ref & plan & referrer & db1 & Hres & Hc & _ & Hnew & _ & _ & _ & Hdb1 & Htx).
  assert (Hu1 : users db1 = users db) by (destruct Hdb1 as [(-> & _) | (-> & _)]; reflexivity).
  apply setup_transaction_detail in Htx as (Hu & _ & Husers & _).
  rewrite Hu1 in Husers.
  exists u, ref. split; [rewrite Hres; reflexivity |].
  set (db' := snd (setupNewUser E now body db)) in *.
  unfold setupNewUser. rewrite Hsame, Hc, Hmail. cbn [negb orb].
  unfold setup_body, user_findUnique. unfold_monad. cbv beta. rewrite Hfault.
  cbv beta iota. rewrite Husers. unfold user_of in Hnew. rewrite find_app_none by exact Hnew.
  assert (Hcu : clerkUserId u = default "" (body_clerkUserId body))
    by (rewrite Hu; reflexivity).
  cbn [find]. rewrite Hcu, String.eqb_refl. reflexivity.
Qed.

(** Alice signs up a second time, with another address and name. *)
Lemma setupNewUser_twice_witness :
  setupNewUser Example.E_ok Example.jan16
    (mkSetupBody (Some "clerk_alice") (Some "alice@example.com") (Some "Alice B.") None)
    Example.with_alice
  = (mkResponse 200 true "User already exists"
       (Some (mkUser "c3" "clerk_alice" "alice@example.org" "Alice" None, None)) None,
     Example.with_alice).
Proof.
  destruct (setupNewUser_twice Example.E_ok Example.E_ok Example.jan15 Example.jan16
              Scenario.alice
              (mkSetupBody (Some "clerk_alice") (Some "alice@example.com")
                 (Some "Alice B.") None)
              Example.catalogue ltac:(vm_compute; reflexivity) eq_refl eq_refl eq_refl)
    as (u & ref & Hres & Hrun).
  assert (Hdata : Some (u, Some ref)
                  = Some (mkUser "c3" "clerk_alice" "alice@example.org" "Alice" None,
                          Some "AURA-REF-0")).
  { rewrite <- Hres. vm_compute. reflexivity. }
  injection Hdata as -> ->. exact Hrun.
Defined.

(** X8.  A signup with an external id and an e-mail address, for a user
    not yet known, that names a reference code nobody holds is, where the
    lookups of the user and of the code go through, answered 400 with the
    code in the message, and writes nothing: no user, no statistics row, no
    subscription and no plan. *)
Theorem setupNewUser_refuses_an_unknown_code
    (E : Env) (now : instant) (body : SetupBody) (db : DB) :
  truthy (body_clerkUserId body) = true ->
  truthy (body_email body) = true ->
  truthy (body_referredById body) = true ->
  fault E (UserFindUnique (default "" (body_clerkUserId body))) db = None ->
  fault E (UserFindFirst (default "" (body_referredById body))) db = None ->
  user_of (default "" (body_clerkUserId body)) db = None ->
  holder_of (default "" (body_referredById body)) db = None ->
  setupNewUser E now body db
  = (mkResponse 400 false
       ("Invalid referredById: No referrer found with referenceId "
        ++ default "" (body_referredById body)) None None, db).
Proof.
  intros Hc Hm Hr Hf1 Hf2 Hnew Hnone.
  unfold setupNewUser. rewrite Hc, Hm. cbn [negb orb].
  unfold setup_body, user_findUnique, user_findFirst_by_reference.
  unfold_monad. cbv beta. rewrite Hf1. cbv beta iota.
  unfold user_of in Hnew. rewrite Hnew, Hr, Hf2. cbv beta iota.
  unfold holder_of in Hnone. rewrite Hnone. reflexivity.
Qed.

Lemma setupNewUser_refuses_an_unknown_code_witness :
  setupNewUser Example.E_ok Example.jan16 Scenario.carol_with_a_wrong_code
    Example.with_alice
  = (mkResponse 400 false
       "Invalid referredById: No referrer found with referenceId AURA-REF-nobody"
       None None, Example.with_alice).
Proof.
  apply (setupNewUser_refuses_an_unknown_code Example.E_ok Example.jan16
           Scenario.carol_with_a_wrong_code Example.with_alice);
    vm_compute; reflexivity.
Defined.

(** X9.  A signup that is not answered 201 leaves users, statistics,
    subscriptions, ledger, billing history and usage as they were.  The
    catalogue is as it was too, with one exception: the Free plan is created
    before the transaction opens, so where no plan named Free existed and
    the transaction then fails, the answer is 500 and the new Free plan
    stays. *)
Theorem setupNewUser_failure_keeps_only_the_plan
    (E : Env) (now : instant) (body : SetupBody) (db : DB) :
  res_status (fst (setupNewUser E now body db)) <> 201 ->
  users (snd (setupNewUser E now body db)) = users db
  /\ referralStats (snd (setupNewUser E now body db)) = referralStats db
  /\ subscriptions (snd (setupNewUser E now body db)) = subscriptions db
  /\ creditLedger (snd (setupNewUser E now body db)) = creditLedger db
  /\ billingHistory (snd (setupNewUser E now body db)) = billingHistory db
  /\ dailyUsage (snd (setupNewUser E now body db)) = dailyUsage db
  /\ (plans (snd (setupNewUser E now body db)) = plans db
      \/ plans (snd (setupNewUser E now body db))
         = (plans db ++ [free_plan (cuid E db)])%list
         /\ plan_by_name "Free" db = None
         /\ res_status (fst (setupNewUser E now body db)) = 500).
Proof.
  intros H.
  destruct (setupNewUser_not_created E now body db H) as [-> | (-> & Hnone & Hs)].
  - repeat split. left. reflexivity.
  - repeat split. right. repeat split; assumption.
Qed.

(** Alice's signup against an empty store that rejects her statistics row:
    nothing of her is kept, but the Free plan is. *)
Lemma setupNewUser_failure_keeps_only_the_plan_witness :
  res_status (fst (setupNewUser Scenario.E_stats_down Example.jan15 Scenario.alice
                     empty_db)) = 500
  /\ users (snd (setupNewUser Scenario.E_stats_down Example.jan15 Scenario.alice
                   empty_db)) = []
  /\ plans (snd (setupNewUser Scenario.E_stats_down Example.jan15 Scenario.alice
                   empty_db)) = [free_plan "c0"].
Proof.
  destruct (setupNewUser_failure_keeps_only_the_plan Scenario.E_stats_down
              Example.jan15 Scenario.alice empty_db
              ltac:(vm_compute; discriminate))
    as (Hu & _ & _ & _ & _ & _ & Hp).
  split; [vm_compute; reflexivity |]. split; [exact Hu |].
  destruct Hp as [Hp | (Hp & _)]; [| exact Hp].
  exfalso. vm_compute in Hp. discriminate Hp.
Defined.

(** X10.  The two credits of the free trial are written to the column
    [remainingCredits] of the subscription, not to the ledger, and the
    balance [consumeCredits] checks is the sum of the ledger.  So in a store
    whose ledger entries all belong to existing users, a user who has just
    signed up has a balance of 0, and every attempt of theirs to consume a
    positive number of credits fails and writes nothing, whatever the store
    does. *)
Theorem new_user_has_no_credits
    (E E' : Env) (now now' : instant) (body : SetupBody) (db : DB)
    (n : Z) (description : string) :
  ledger_owned db ->
  res_status (fst (setupNewUser E now body db)) = 201 ->
  0 < n ->
  exists u ref sub,
    res_data (fst (setupNewUser E now body db)) = Some (u, Some ref)
    /\ subscriptions (snd (setupNewUser E now body db)) = (subscriptions db ++ [sub])%list
    /\ sub_userId sub = user_id u /\ status sub = "active"
    /\ remainingCredits sub = Some 2
    /\ balance (user_id u) (snd (setupNewUser E now body db)) = 0
    /\ exists e,
         consumeCredits E' now' (default "" (body_clerkUserId body)) n description
           (snd (setupNewUser E now body db))
         = (Throw e, snd (setupNewUser E now body db)).
Proof.
  intros Hown H Hn.
  destruct (setupNewUser_201 E now body db H)
    as (u & ref & plan & sid & Hres & Hnew & Hfresh & Hu & _ & Husers & _
        & _ & _ & Hsubs & _ & _ & _ & Hl & _).
  exists u, ref, (signup_subscription E now u plan now (JsDate.addMonths now 1) sid).
  split; [rewrite Hres; reflexivity |]. split; [exact Hsubs |].
  do 3 (split; [reflexivity |]).
  set (db' := snd (setupNewUser E now body db)) in *.
  assert (Hzero : balance (user_id u) db' = 0).
  { unfold balance, ledger_of. rewrite Hl.
    replace (filter (fun r => (cl_userId r =? user_id u)%string) (creditLedger db))
      with (@nil CreditLedger); [reflexivity |].
    symmetry. apply filter_find_none. apply existsb_find_none.
    destruct (existsb (fun r => (cl_userId r =? user_id u)%string) (creditLedger db))
      eqn:Hex; [exfalso | reflexivity].
    apply existsb_exists in Hex as (e & He & Hk). apply String.eqb_eq in Hk.
    destruct (Hown e He) as (x & Hx & Hid).
    assert (existsb (fun x0 => (user_id x0 =? user_id u)%string) (users db) = true).
    { apply existsb_exists. exists x. split; [assumption |].
      apply String.eqb_eq. congruence. }
    congruence. }
  split; [exact Hzero |].
  destruct (consumeCredits E' now' (default "" (body_clerkUserId body)) n description db')
    as [[res | e] db''] eqn:Hrun.
  - exfalso. apply consumeCredits_ok in Hrun
      as (user & s & p & Huser & _ & _ & _ & Hle & _).
    assert (user = u).
    { unfold user_of in Huser, Hnew. rewrite Husers, (find_app_none _ _ _ Hnew) in Huser.
      cbn [find] in Huser.
      assert (Hcu : clerkUserId u = default "" (body_clerkUserId body))
        by (rewrite Hu; reflexivity).
      rewrite Hcu, String.eqb_refl in Huser. congruence. }
    subst user. lia.
  - exists e. apply consumeCredits_throw in Hrun. subst db''. reflexivity.
Qed.

(** Alice, just signed up, asks for one credit. *)
Lemma new_user_has_no_credits_witness :
  balance "c3" Example.with_alice = 0
  /\ consumeCredits Example.E_ok Example.jan16 "clerk_alice" 1 "API usage"
       Example.with_alice
     = (Throw (Failed "Failed to consume credits" (InsufficientCredits 0 1)),
        Example.with_alice).
Proof.
  destruct (new_user_has_no_credits Example.E_ok Example.E_ok Example.jan15
              Example.jan16 Scenario.alice Example.catalogue 1 "API usage"
              ltac:(intros e [])
              ltac:(vm_compute; reflexivity) ltac:(lia))
    as (u & ref & sub & Hres & _ & _ & _ & _ & Hzero & e & Hrun).
  assert (Hdata : Some (u, Some ref)
                  = Some (mkUser "c3" "clerk_alice" "alice@example.org" "Alice" None,
                          Some "AURA-REF-0")).
  { rewrite <- Hres. vm_compute. reflexivity. }
  injection Hdata as -> ->.
  split; [exact Hzero |]. vm_compute. reflexivity.
Defined.

(** ** What no request does *)

Section TraceFacts.

Variable E : Env.

(** The entries a renewal loop appends are the grants of some of its
    items. *)
Lemma loop_outcome_ledger now items :
  forall rs db db',
  loop_outcome E now items rs db db' ->
  exists renewed,
    incl renewed items
    /\ creditLedger db'
       = (creditLedger db
          ++ map (fun i => renewal_grant now (row i) (plan_quota (snd (fst i))))
               renewed)%list.
Proof.
  induction items as [| [[s p] u] items IH]; intros [| r rs] db db' H;
    cbn [loop_outcome] in H; try contradiction.
  - subst. exists []. split; [apply incl_nil_l |]. cbn [map]. rewrite app_nil_r.
    reflexivity.
  - destruct H as (_ & _ & db1 & Hcase & Hrest).
    apply IH in Hrest as (renewed & Hincl & Hl).
    destruct Hcase as [(_ & _ & _ & _ & ->) | (_ & -> & _)].
    + exists ((s, p, u) :: renewed). split.
      * intros x [<- | Hx]; [apply in_eq | apply in_cons, Hincl, Hx].
      * rewrite Hl. unfold renewed_db. db_simpl. cbn [map row fst snd].
        rewrite <- app_assoc. reflexivity.
    + exists renewed. split; [| exact Hl].
      intros x Hx. apply in_cons, Hincl, Hx.
Qed.

Lemma consumed_db_tables now user s plan n description db :
  plans (consumed_db now user s plan n description db) = plans db
  /\ billingHistory (consumed_db now user s plan n description db) = billingHistory db
  /\ creditLedger (consumed_db now user s plan n description db)
     = (creditLedger db
        ++ [mkCreditLedger (user_id user) (sub_id s) (- n) "consumed" description now])%list.
Proof.
  unfold consumed_db. destruct (isDaily plan); [| repeat split; reflexivity].
  destruct (find _ _); repeat split; reflexivity.
Qed.

(** A consumption request acts on the store as the service call it makes,
    where it makes one. *)
Lemma serve_consume_request now body db :
  serve E now (ConsumeRequest body) db = db
  \/ exists userId n description,
       0 < n
       /\ serve E now (ConsumeRequest body) db
          = serve E now (ConsumeCredits userId n description) db.
Proof.
  cbn [serve]. unfold consume_controller.
  destruct (negb (truthy (body_userId body))); [left; reflexivity |].
  destruct (default (JNumber 1) (body_credits body)); try (left; reflexivity).
  destruct (n <=? 0) eqn:Hn; [left; reflexivity |].
  right. exists (default "" (body_userId body)), n,
    (default "API usage" (body_description body)).
  split; [apply Z.leb_gt in Hn; lia |].
  destruct (consumeCredits E now (default "" (body_userId body)) n
              (default "API usage" (body_description body)) db) as [[res | e] db'];
    cbn [snd]; [reflexivity |].
  repeat match goal with |- context [if ?c then _ else _] => destruct c end; reflexivity.
Qed.

(** What one request appends to the ledger and to the billing history. *)
Lemma serve_appends now r db :
  exists entries receipts,
    creditLedger (serve E now r db) = (creditLedger db ++ entries)%list
    /\ billingHistory (serve E now r db) = (billingHistory db ++ receipts)%list.
Proof.
  assert (Hsame : exists entries receipts,
             creditLedger db = (creditLedger db ++ entries)%list
             /\ billingHistory db = (billingHistory db ++ receipts)%list).
  { exists [], []. rewrite !app_nil_r. split; reflexivity. }
  assert (Hconsume : forall userId n description,
             exists entries receipts,
               creditLedger (serve E now (ConsumeCredits userId n description) db)
               = (creditLedger db ++ entries)%list
               /\ billingHistory (serve E now (ConsumeCredits userId n description) db)
                  = (billingHistory db ++ receipts)%list).
  { intros userId n description. cbn [serve].
    destruct (consumeCredits E now userId n description db)
      as [[res | e] db'] eqn:Hrun; cbn [snd].
    - apply consumeCredits_ok in Hrun as (user & s & plan & _ & _ & _ & _ & _ & _ & ->).
      destruct (consumed_db_tables now user s plan n description db) as (_ & Hb & Hl).
      eexists _, []. split; [exact Hl | rewrite Hb, app_nil_r; reflexivity].
    - apply consumeCredits_throw in Hrun. subst. exact Hsame. }
  destruct r as [body | userId planCode paidAt ext options | userId | userId
                | userId n description | body |].
  - cbn [serve]. destruct (setupNewUser_tables E now body db) as (_ & Hl & _ & Hb).
    rewrite Hl, Hb. exact Hsame.
  - cbn [serve].
    destruct (confirmPayment E now userId planCode paidAt ext options db)
      as [[res | e] db'] eqn:Hrun; cbn [snd].
    + apply confirmPayment_ok in Hrun as (user & plan & _ & _ & _ & _ & Htx).
      apply confirm_transaction_ok in Htx as (_ & _ & _ & Hl & Hb & _).
      eexists _, _. split; eassumption.
    + apply confirmPayment_throw in Hrun. subst. exact Hsame.
  - cbn [serve].
    destruct (cancelSubscription E now userId db) as [[res | e] db'] eqn:Hrun; cbn [snd].
    + apply cancelSubscription_ok in Hrun as (user & s & _ & _ & ->). exact Hsame.
    + apply cancelSubscription_throw in Hrun. subst. exact Hsame.
  - cbn [serve]. rewrite getSubscriptionDetails_readonly. exact Hsame.
  - apply Hconsume.
  - destruct (serve_consume_request now body db)
      as [-> | (userId & n & description & _ & ->)]; [exact Hsame | apply Hconsume].
  - cbn [serve]. pose proof (renewDueSubscriptions_run E now db) as Hrun.
    destruct (subscription_findMany_due E now db) as [[items | e] db0].
    + destruct Hrun as (rs & db' & -> & Ho). cbn [snd].
      pose proof (loop_outcome_frame E now items rs db db' Ho)
        as (_ & _ & _ & _ & Hb & _).
      apply loop_outcome_ledger in Ho as (renewed & _ & Hl).
      eexists _, []. split; [exact Hl | rewrite Hb, app_nil_r; reflexivity].
    + rewrite Hrun. exact Hsame.
Qed.

Lemma serve_all_appends trace :
  forall db,
  exists entries receipts,
    creditLedger (serve_all E trace db) = (creditLedger db ++ entries)%list
    /\ billingHistory (serve_all E trace db) = (billingHistory db ++ receipts)%list.
Proof.
  induction trace as [| [now r] trace IH]; intros db; cbn [serve_all].
  - exists [], []. rewrite !app_nil_r. split; reflexivity.
  - destruct (IH (serve E now r db)) as (l2 & b2 & Hl2 & Hb2).
    destruct (serve_appends now r db) as (l1 & b1 & Hl1 & Hb1).
    exists (l1 ++ l2)%list, (b1 ++ b2)%list.
    rewrite Hl2, Hb2, Hl1, Hb1, !app_assoc. split; reflexivity.
Qed.


Lemma balance_append uid db db' entries :
  creditLedger db' = (creditLedger db ++ entries)%list ->
  balance uid db'
  = balance uid db + sum_amounts (filter (fun r => (cl_userId r =? uid)%string) entries).
Proof.
  intros Hl. unfold balance, ledger_of. rewrite Hl, filter_app, sum_amounts_app.
  reflexivity.
Qed.

Lemma sum_amounts_nonneg (l : list CreditLedger) :
  Forall (fun e => 0 <= cl_amount e) l -> 0 <= sum_amounts l.
Proof.
  induction 1 as [| e l He _ IH]; cbn [sum_amounts fold_right].
  - lia.
  - fold (sum_amounts l). lia.
Qed.

Lemma Forall_filter {A} (P : A -> Prop) (q : A -> bool) (l : list A) :
  Forall P l -> Forall P (filter q l).
Proof.
  induction 1 as [| a l Ha _ IH]; cbn [filter]; [constructor |].
  destruct (q a); [constructor; assumption | assumption].
Qed.

Lemma plan_quota_nonneg db p :
  nonneg_quotas db -> In p (plans db) -> 0 <= plan_quota p.
Proof.
  intros Hq Hin. destruct (Hq p Hin). unfold plan_quota. destruct (isDaily p); lia.
Qed.

(** The items of the renewal query carry plans of the catalogue. *)
Lemma findMany_due_plans now db items db0 :
  subscription_findMany_due E now db = (Ok items, db0) ->
  Forall (fun i => In (snd (fst i)) (plans db)) items.
Proof.
  unfold subscription_findMany_due. unfold_monad.
  destruct (fault E SubscriptionFindMany db); [discriminate |].
  intros H. apply with_plan_and_user_ok in H as (_ & Hf).
  eapply Forall_impl; [| exact Hf]. cbv beta. intros i Hi. unfold plan_of in Hi.
  apply find_some in Hi. tauto.
Qed.

(** The catalogue changes only by signup adding the Free plan. *)
Lemma serve_plans now r db :
  plans (serve E now r db) = plans db
  \/ exists id, plans (serve E now r db) = (plans db ++ [free_plan id])%list.
Proof.
  assert (Hconsume : forall userId n description,
             plans (serve E now (ConsumeCredits userId n description) db) = plans db).
  { intros userId n description. cbn [serve].
    destruct (consumeCredits E now userId n description db)
      as [[res | e] db'] eqn:Hrun; cbn [snd].
    - apply consumeCredits_ok in Hrun as (user & s & plan & _ & _ & _ & _ & _ & _ & ->).
      apply consumed_db_tables.
    - apply consumeCredits_throw in Hrun. subst. reflexivity. }
  destruct r as [body | userId planCode paidAt ext options | userId | userId
                | userId n description | body |].
  - cbn [serve]. apply (setupNewUser_tables E).
  - left. cbn [serve].
    destruct (confirmPayment E now userId planCode paidAt ext options db)
      as [[res | e] db'] eqn:Hrun; cbn [snd].
    + apply confirmPayment_ok in Hrun as (user & plan & _ & _ & _ & _ & Htx).
      apply confirm_transaction_ok in Htx. tauto.
    + apply confirmPayment_throw in Hrun. subst. reflexivity.
  - left. cbn [serve].
    destruct (cancelSubscription E now userId db) as [[res | e] db'] eqn:Hrun; cbn [snd].
    + apply cancelSubscription_ok in Hrun as (user & s & _ & _ & ->). reflexivity.
    + apply cancelSubscription_throw in Hrun. subst. reflexivity.
  - left. cbn [serve]. rewrite getSubscriptionDetails_readonly. reflexivity.
  - left. apply Hconsume.
  - left. destruct (serve_consume_request now body db)
      as [-> | (userId & n & description & _ & ->)]; [reflexivity | apply Hconsume].
  - left. cbn [serve]. pose proof (renewDueSubscriptions_run E now db) as Hrun.
    destruct (subscription_findMany_due E now db) as [[items | e] db0].
    + destruct Hrun as (rs & db' & -> & Ho). cbn [snd].
      apply loop_outcome_frame in Ho. tauto.
    + rewrite Hrun. reflexivity.
Qed.

Lemma serve_solvent now r db :
  nonneg_quotas db -> solvent db ->
  nonneg_quotas (serve E now r db) /\ solvent (serve E now r db).
Proof.
  intros Hq Hs. split.
  - destruct (serve_plans now r db) as [Hp | (id & Hp)]; unfold nonneg_quotas;
      rewrite Hp; [exact Hq |].
    intros p Hin. apply in_app_or in Hin as [Hin | [<- | []]]; [auto |].
    cbn. lia.
  - assert (Hgrants : forall db' entries,
               creditLedger db' = (creditLedger db ++ entries)%list ->
               Forall (fun e => 0 <= cl_amount e) entries -> solvent db').
    { intros db' entries Hl Hall uid. rewrite (balance_append uid db db' entries Hl).
      pose proof (sum_amounts_nonneg _ (Forall_filter _
                    (fun r => (cl_userId r =? uid)%string) _ Hall)).
      specialize (Hs uid). lia. }
    assert (Hconsume : forall userId n description,
               solvent (serve E now (ConsumeCredits userId n description) db)).
    { intros userId n description. cbn [serve].
      destruct (consumeCredits E now userId n description db)
        as [[res | e] db'] eqn:Hrun; cbn [snd].
      - apply consumeCredits_ok in Hrun
          as (user & s & plan & _ & _ & _ & _ & Hn & _ & ->).
        destruct (consumed_db_tables now user s plan n description db) as (_ & _ & Hl).
        intros uid. rewrite (balance_append uid db _ _ Hl). cbn [filter cl_userId].
        destruct (user_id user =? uid)%string eqn:Hu;
          cbn [sum_amounts fold_right cl_amount].
        + apply String.eqb_eq in Hu. subst uid. lia.
        + specialize (Hs uid). lia.
      - apply consumeCredits_throw in Hrun. subst. exact Hs. }
    destruct r as [body | userId planCode paidAt ext options | userId | userId
                  | userId n description | body |].
    + cbn [serve]. destruct (setupNewUser_tables E now body db) as (_ & Hl & _).
      apply (Hgrants _ []); [rewrite Hl, app_nil_r; reflexivity | constructor].
    + cbn [serve].
      destruct (confirmPayment E now userId planCode paidAt ext options db)
        as [[res | e] db'] eqn:Hrun; cbn [snd].
      * apply confirmPayment_ok in Hrun as (user & plan & _ & Hp & _ & _ & Htx).
        apply confirm_transaction_ok in Htx as (_ & _ & _ & Hl & _).
        apply (Hgrants _ _ Hl). constructor; [| constructor]. cbn [cl_amount].
        unfold plan_by_code in Hp. apply find_some in Hp as (Hin & _).
        apply (plan_quota_nonneg db); assumption.
      * apply confirmPayment_throw in Hrun. subst. exact Hs.
    + cbn [serve].
      destruct (cancelSubscription E now userId db) as [[res | e] db'] eqn:Hrun;
        cbn [snd].
      * apply cancelSubscription_ok in Hrun as (user & s & _ & _ & ->).
        intros uid. exact (Hs uid).
      * apply cancelSubscription_throw in Hrun. subst. exact Hs.
    + cbn [serve]. rewrite getSubscriptionDetails_readonly. exact Hs.
    + apply Hconsume.
    + destruct (serve_consume_request now body db)
        as [-> | (userId & n & description & _ & ->)]; [exact Hs | apply Hconsume].
    + cbn [serve]. pose proof (renewDueSubscriptions_run E now db) as Hrun.
      destruct (subscription_findMany_due E now db) as [[items | e] db0] eqn:Hq0.
      * destruct Hrun as (rs & db' & -> & Ho). cbn [snd].
        apply findMany_due_plans in Hq0.
        apply loop_outcome_ledger in Ho as (renewed & Hincl & Hl).
        apply (Hgrants _ _ Hl). apply Forall_forall. intros e He.
        apply in_map_iff in He as (i & <- & Hi). cbn [cl_amount renewal_grant].
        apply (plan_quota_nonneg db); [assumption |].
        rewrite Forall_forall in Hq0. apply Hq0, Hincl, Hi.
      * rewrite Hrun. exact Hs.
Qed.

Lemma serve_all_solvent trace :
  forall db, nonneg_quotas db -> solvent db ->
  nonneg_quotas (serve_all E trace db) /\ solvent (serve_all E trace db).
Proof.
  induction trace as [| [now r] trace IH]; intros db Hq Hs; cbn [serve_all].
  - split; assumption.
  - destruct (serve_solvent now r db Hq Hs). apply IH; assumption.
Qed.

(** A request keeps the rows of the subscription table, with their ids,
    owners and statuses, and may add rows after them. *)
Lemma serve_keeps_rows now r db :
  Inv db ->
  exists added,
    map key (subscriptions (serve E now r db))
    = (map key (subscriptions db) ++ added)%list.
Proof.
  intros HI.
  assert (Hsame : exists added,
             map key (subscriptions db) = (map key (subscriptions db) ++ added)%list).
  { exists []. rewrite app_nil_r. reflexivity. }
  assert (Hconsume : forall userId n description,
             subscriptions (serve E now (ConsumeCredits userId n description) db)
             = subscriptions db).
  { intros userId n description. cbn [serve].
    destruct (consumeCredits E now userId n description db)
      as [[res | e] db'] eqn:Hrun; cbn [snd].
    - apply consumeCredits_ok in Hrun as (user & s & plan & _ & _ & _ & _ & _ & _ & ->).
      apply consumed_db_frame.
    - apply consumeCredits_throw in Hrun. subst. reflexivity. }
  destruct r as [body | userId planCode paidAt ext options | userId | userId
                | userId n description | body |].
  - cbn [serve]. destruct (setupNewUser_effect E now body db) as [(_ & Hs & _) | H].
    + rewrite Hs. exact Hsame.
    + destruct H as (u & sub & _ & _ & Hs & _). rewrite Hs, map_app. eauto.
  - cbn [serve].
    destruct (confirmPayment E now userId planCode paidAt ext options db)
      as [[res | e] db'] eqn:Hrun; cbn [snd].
    + apply (confirmPayment_upsert E _ _ _ _ _ _ _ _ _ HI) in Hrun
        as (user & plan & _ & _ & _ & _ & Hst & Hown & _ & _ & _ & _ & _ & _ & Hup).
      destruct (active_of (user_id user) db) as [s |] eqn:Ha.
      * destruct Hup as (Hid & Hsubs). rewrite Hsubs, map_map.
        unfold active_of in Ha. apply find_some in Ha as (Hin & Hact).
        apply is_active_status in Hact as (Hown' & Hst').
        exists []. rewrite app_nil_r. apply map_ext_in. intros r Hr.
        destruct (sub_id r =? sub_id s)%string eqn:Hk; [| reflexivity].
        apply String.eqb_eq in Hk.
        assert (r = s) by (eapply key_identifies; eauto; apply HI). subst r.
        unfold key. congruence.
      * destruct Hup as (Hsubs & _). rewrite Hsubs, map_app. eauto.
    + apply confirmPayment_throw in Hrun. subst. exact Hsame.
  - cbn [serve].
    destruct (cancelSubscription E now userId db) as [[res | e] db'] eqn:Hrun; cbn [snd].
    + apply cancelSubscription_ok in Hrun as (user & s & _ & _ & ->). db_simpl.
      rewrite map_update_first by (intros; reflexivity). exact Hsame.
    + apply cancelSubscription_throw in Hrun. subst. exact Hsame.
  - cbn [serve]. rewrite getSubscriptionDetails_readonly. exact Hsame.
  - rewrite Hconsume. exact Hsame.
  - destruct (serve_consume_request now body db)
      as [-> | (userId & n & description & _ & ->)];
      [| rewrite Hconsume]; exact Hsame.
  - cbn [serve]. pose proof (renewDueSubscriptions_run E now db) as Hrun.
    destruct (subscription_findMany_due E now db) as [[items | e] db0].
    + destruct Hrun as (rs & db' & -> & Ho). cbn [snd].
      apply loop_outcome_frame in Ho as (_ & _ & Hk & _). rewrite Hk. exact Hsame.
    + rewrite Hrun. exact Hsame.
Qed.

Lemma serve_all_keeps_rows trace :
  forall db, Inv db ->
  exists added,
    map key (subscriptions (serve_all E trace db))
    = (map key (subscriptions db) ++ added)%list.
Proof.
  induction trace as [| [now r] trace IH]; intros db HI; cbn [serve_all].
  - exists []. rewrite app_nil_r. reflexivity.
  - destruct (IH (serve E now r db) (serve_Inv E now r db HI)) as (a2 & H2).
    destruct (serve_keeps_rows now r db HI) as (a1 & H1).
    exists (a1 ++ a2)%list. rewrite H2, H1, app_assoc. reflexivity.
Qed.

End TraceFacts.

Lemma catalogue_Inv : Inv Example.catalogue.
Proof. repeat split; [constructor | intros s [] | intros; cbn; lia]. Qed.

Lemma bob_paid_Inv : Inv Example.bob_paid.
Proof.
  unfold Example.bob_paid, Example.alice_paid, Example.with_bob, Example.with_alice.
  apply confirmPayment_Inv, confirmPayment_Inv, setupNewUser_Inv, setupNewUser_Inv.
  exact catalogue_Inv.
Qed.

(** X11.  From a store that satisfies the invariant, no sequence of
    requests removes a subscription, gives it to another user or changes its
    status: the rows of the table keep their order, ids, owners and
    statuses, and new rows come after them.  In particular nothing ends an
    active subscription: cancelling only sets a flag, and no request acts
    on the flag or on a period that has run out. *)
Theorem no_request_ends_a_subscription
    (E : Env) (trace : list (instant * request)) (db : DB) :
  Inv db ->
  (exists added,
     map key (subscriptions (serve_all E trace db))
     = (map key (subscriptions db) ++ added)%list)
  /\ (forall s, In s (subscriptions db) ->
        exists s', In s' (subscriptions (serve_all E trace db))
                   /\ sub_id s' = sub_id s /\ sub_userId s' = sub_userId s
                   /\ status s' = status s).
Proof.
  intros HI. destruct (serve_all_keeps_rows E trace db HI) as (added & Hk).
  split; [eauto |]. intros s Hs.
  assert (Hin : In (key s) (map key (subscriptions (serve_all E trace db)))).
  { rewrite Hk. apply in_or_app. left. apply in_map. exact Hs. }
  apply in_map_iff in Hin as (s' & Heq & Hs'). exists s'.
  unfold key in Heq. injection Heq as H1 H2 H3. auto.
Qed.

(** Bob cancels, and the renewal job runs in April, long after his period
    ran out: his subscription is still there and still active. *)
Lemma no_request_ends_a_subscription_witness :
  map key (subscriptions Example.bob_paid)
  = [("c4", "c3", "active"); ("c6", "c5", "active")]
  /\ map key (subscriptions
                (serve_all Example.E_ok
                   [(Example.jan16, CancelSubscription "clerk_bob");
                    (Example.apr01, RenewDueSubscriptions)]
                   Example.bob_paid))
     = [("c4", "c3", "active"); ("c6", "c5", "active")].
Proof.
  destruct (no_request_ends_a_subscription Example.E_ok
              [(Example.jan16, CancelSubscription "clerk_bob");
               (Example.apr01, RenewDueSubscriptions)]
              Example.bob_paid bob_paid_Inv) as ((added & Hk) & _).
  split; vm_compute; reflexivity.
Defined.

(** X12.  The credit ledger and the billing history are append-only:
    whatever the requests and whatever the store rejects, the entries and
    receipts that were there stay, unchanged and in order, and new ones come
    after them.  No request edits or deletes a ledger entry or a receipt. *)
Theorem ledger_and_receipts_are_append_only
    (E : Env) (trace : list (instant * request)) (db : DB) :
  exists entries receipts,
    creditLedger (serve_all E trace db) = (creditLedger db ++ entries)%list
    /\ billingHistory (serve_all E trace db) = (billingHistory db ++ receipts)%list.
Proof. apply serve_all_appends. Qed.

(** X13.  Where the plans of the catalogue grant non-negative numbers of
    credits and no balance is negative, no sequence of requests makes a
    balance negative, whatever the store rejects: grants only add, and a
    consumption is refused unless the balance covers it.  (Requests are
    served one after the other.) *)
Theorem balances_never_go_negative
    (E : Env) (trace : list (instant * request)) (db : DB) (uid : string) :
  nonneg_quotas db -> solvent db ->
  0 <= balance uid (serve_all E trace db).
Proof.
  intros Hq Hs. destruct (serve_all_solvent E trace db Hq Hs) as (_ & H). apply H.
Qed.

Lemma balances_never_go_negative_witness :
  0 <= balance "c3"
         (serve_all Example.E_ok
            (Example.trace
             ++ [(Example.feb20, ConsumeCredits "clerk_bob" 3 "API usage");
                 (Example.feb20, ConsumeCredits "clerk_bob" 3 "API usage")])
            Example.catalogue).
Proof.
  apply (balances_never_go_negative Example.E_ok).
  - intros p [<- | [<- | [<- | []]]]; cbn; lia.
  - intros uid. cbn. lia.
Defined.

(** ** After a cancellation *)

(** The store in which the subscription with the id of [s] is replaced by
    its cancelled version. *)
Lemma cancelSubscription_row E now userId db res db' :
  NoDup (map sub_id (subscriptions db)) ->
  cancelSubscription E now userId db = (Ok res, db') ->
  exists user s,
    user_of userId db = Some user /\ active_of (user_id user) db = Some s
    /\ res = mkCancelResult true (mark_canceled now s)
               "Subscription will be canceled at period end"
    /\ db' = canceled_db now s db.
Proof.
  intros Hnd.
  unfold cancelSubscription, user_findUnique, subscription_findFirst, subscription_update,
    user_of, active_of, canceled_db.
  unfold_monad. intros H. run_all.
  all: match goal with
  | Ha : find (is_active _) _ = Some ?s, Hf : find _ (subscriptions _) = Some ?x |- _ =>
      pose proof (find_some _ _ Ha) as (Hin & _);
      rewrite (find_by_key _ _ Hnd Hin) in Hf; injection Hf as <-;
      rewrite (update_first_by_key _ _ s Hnd Hin)
  end.
  all: eexists _, _; repeat split; eassumption || reflexivity.
Qed.

Lemma cancelSubscription_healthy E now userId db user s :
  healthy E ->
  NoDup (map sub_id (subscriptions db)) ->
  user_of userId db = Some user ->
  active_of (user_id user) db = Some s ->
  cancelSubscription E now userId db
  = (Ok (mkCancelResult true (mark_canceled now s)
           "Subscription will be canceled at period end"), canceled_db now s db).
Proof.
  intros Hh Hnd Hu Ha.
  unfold cancelSubscription, user_findUnique, subscription_findFirst, subscription_update,
    canceled_db.
  unfold_monad. unfold user_of, active_of in *.
  hstep Hh. rewrite Hu. hstep Hh. rewrite Ha. hstep Hh.
  pose proof (find_some _ _ Ha) as (Hin & _).
  rewrite (find_by_key _ _ Hnd Hin). hstep Hh.
  rewrite (update_first_by_key _ _ s Hnd Hin). reflexivity.
Qed.

Lemma canceled_db_subscriptions now s db :
  NoDup (map sub_id (subscriptions db)) -> In s (subscriptions db) ->
  map key (subscriptions (canceled_db now s db)) = map key (subscriptions db)
  /\ map sub_planId (subscriptions (canceled_db now s db))
     = map sub_planId (subscriptions db).
Proof.
  intros Hnd Hin. unfold canceled_db. db_simpl.
  split; rewrite map_map; apply map_ext_in; intros r Hr;
    (destruct (sub_id r =? sub_id s)%string eqn:Hk; [| reflexivity]);
    apply String.eqb_eq in Hk;
    assert (r = s) by (eapply key_identifies; eauto); subst r; reflexivity.
Qed.

Lemma integrity_frame db db' :
  users db' = users db -> plans db' = plans db ->
  map sub_planId (subscriptions db') = map sub_planId (subscriptions db) ->
  map key (subscriptions db') = map key (subscriptions db) ->
  referential_integrity db -> referential_integrity db'.
Proof.
  intros Hu Hp Hpl Hk Hri s Hs. unfold plan_of, owner_of. rewrite Hu, Hp. split.
  - assert (In (sub_planId s) (map sub_planId (subscriptions db))) as Hin
      by (rewrite <- Hpl; apply in_map; assumption).
    apply in_map_iff in Hin as (s0 & Heq & Hs0). rewrite <- Heq.
    apply (Hri s0 Hs0).
  - assert (In (sub_userId s) (map (fun r => snd (fst (key r))) (subscriptions db)))
      as Hin.
    { rewrite <- (map_key_proj (fun k => snd (fst k)) _ _ Hk).
      apply (in_map (fun r => snd (fst (key r)))). assumption. }
    apply in_map_iff in Hin as (s0 & Heq & Hs0). cbn in Heq. rewrite <- Heq.
    apply (Hri s0 Hs0).
Qed.

(** Two active subscriptions of one user are the same row. *)
Lemma active_unique db uid a b :
  Inv db ->
  In a (subscriptions db) -> is_active uid a = true ->
  In b (subscriptions db) -> is_active uid b = true ->
  a = b.
Proof.
  intros HI Ha Haa Hb Hba.
  destruct (active_of uid db) as [x |] eqn:Hx.
  - pose proof (the_active_subscription db uid x HI Hx) as Hone.
    assert (In a [x]) as H1 by (rewrite <- Hone; apply filter_In; auto).
    assert (In b [x]) as H2 by (rewrite <- Hone; apply filter_In; auto).
    destruct H1 as [<- | []], H2 as [<- | []]. reflexivity.
  - unfold active_of in Hx. apply (find_none _ _ Hx) in Ha. congruence.
Qed.

(** X14.  A subscription that was cancelled is passed over by the renewal
    job from then on: against a store that rejects nothing, a renewal pass
    at any instant after a successful [cancelSubscription] returns no result
    for that subscription, leaves its row as the cancellation wrote it, and
    grants its owner no credits, however long ago its period ran out. *)
Theorem canceled_subscription_is_not_renewed
    (E E' : Env) (now later : instant) (userId : string) (db : DB)
    (res : CancelResult) (db1 : DB) :
  healthy E' -> Inv db -> referential_integrity db ->
  cancelSubscription E now userId db = (Ok res, db1) ->
  exists summary db2,
    renewDueSubscriptions E' later db1 = (Ok summary, db2)
    /\ ~ In (sub_id (cn_subscription res)) (map rr_subscriptionId (results summary))
    /\ In (cn_subscription res) (subscriptions db1)
    /\ In (cn_subscription res) (subscriptions db2)
    /\ balance (sub_userId (cn_subscription res)) db2
       = balance (sub_userId (cn_subscription res)) db.
Proof.
  intros Hh HI Hri Hrun.
  pose proof (cancelSubscription_Inv E now userId db HI) as HI1.
  rewrite Hrun in HI1. cbn [snd] in HI1.
  apply (cancelSubscription_row E _ _ _ _ _ (proj1 HI)) in Hrun
    as (user & s & Hu & Ha & -> & ->).
  cbn [cn_subscription].
  unfold active_of in Ha. apply find_some in Ha as (Hin & Hact).
  destruct (canceled_db_subscriptions now s db (proj1 HI) Hin) as (Hk & Hpl).
  assert (Hri1 : referential_integrity (canceled_db now s db))
    by (apply (integrity_frame db); auto).
  assert (Hs' : In (mark_canceled now s) (subscriptions (canceled_db now s db))).
  { unfold canceled_db. db_simpl. apply in_map_iff. exists s.
    rewrite String.eqb_refl. auto. }
  assert (Hnotdue : due later (mark_canceled now s) = false).
  { unfold due. cbn [mark_canceled cancelAtPeriodEnd negb].
    rewrite andb_false_r. reflexivity. }
  destruct (renewDueSubscriptions_healthy E' Hh later (canceled_db now s db)
              (proj1 HI1) Hri1)
    as (summary & db2 & Hrenew & Hids & _ & Hsubs & Hled & _).
  exists summary, db2. split; [exact Hrenew |]. split; [| split; [exact Hs' | split]].
  - rewrite Hids. intros Hin'. apply in_map_iff in Hin' as (r & Hid & Hr).
    apply filter_In in Hr as (Hr & Hdue).
    assert (r = mark_canceled now s)
      by (eapply key_identifies; eauto; apply HI1).
    congruence.
  - rewrite Hsubs. apply in_map_iff. exists (mark_canceled now s).
    rewrite Hnotdue. auto.
  - rewrite (balance_append _ (canceled_db now s db) db2 _ Hled).
    replace (balance (sub_userId (mark_canceled now s)) (canceled_db now s db))
      with (balance (sub_userId (mark_canceled now s)) db) by reflexivity.
    rewrite filter_map. 
    replace (filter _ (filter (due later) (subscriptions (canceled_db now s db))))
      with (@nil Subscription); [cbn; lia |].
    symmetry. apply filter_find_none.
    match goal with |- find ?p ?l = None => destruct (find p l) as [r |] eqn:Hf end;
      [exfalso | reflexivity].
    apply find_some in Hf as (Hr & Hown). apply filter_In in Hr as (Hr & Hdue).
    cbn [renewal_grant cl_userId mark_canceled sub_userId] in Hown.
    assert (r = mark_canceled now s).
    { apply (active_unique (canceled_db now s db) (sub_userId s)); try assumption.
      - unfold is_active. rewrite Hown. unfold due in Hdue.
        apply andb_true_iff in Hdue as (Hdue & _).
        apply andb_true_iff in Hdue as (Hst & _). exact Hst.
      - apply is_active_status in Hact as (Hown' & Hst).
        unfold is_active. cbn [mark_canceled sub_userId status].
        rewrite Hst, !String.eqb_refl. reflexivity. }
    congruence.
Qed.

(** Bob cancels in January; the renewal job of 1 April renews Alice only. *)
Lemma canceled_subscription_is_not_renewed_witness :
  exists res db1 summary db2,
    cancelSubscription Example.E_ok Example.jan16 "clerk_bob" Example.bob_paid
    = (Ok res, db1)
    /\ renewDueSubscriptions Example.E_ok Example.apr01 db1 = (Ok summary, db2)
    /\ map rr_subscriptionId (results summary) = ["c4"]
    /\ sub_id (cn_subscription res) = "c6"
    /\ balance "c5" db2 = 25.
Proof.
  destruct (cancelSubscription Example.E_ok Example.jan16 "clerk_bob" Example.bob_paid)
    as [[res | e] db1] eqn:Hc; [| vm_compute in Hc; discriminate Hc].
  destruct (canceled_subscription_is_not_renewed Example.E_ok Example.E_ok
              Example.jan16 Example.apr01 "clerk_bob" Example.bob_paid res db1
              E_ok_healthy bob_paid_Inv bob_paid_integrity Hc)
    as (summary & db2 & Hr & _).
  exists res, db1, summary, db2. split; [reflexivity |]. split; [exact Hr |].
  vm_compute in Hc. injection Hc as <- <-.
  vm_compute in Hr. injection Hr as <- <-.
  vm_compute. repeat split.
Defined.

(** X15.  Cancelling is repeatable.  After a successful cancellation, a
    second one (against a store that rejects nothing) succeeds as well, on
    the same subscription: the flag stays set and [canceledAt] is
    overwritten with the instant of the second call.  The service has no
    answer for a subscription that is already cancelled. *)
Theorem cancelSubscription_twice
    (E E' : Env) (now now' : instant) (userId : string) (db : DB)
    (res : CancelResult) (db1 : DB) :
  healthy E' -> Inv db ->
  cancelSubscription E now userId db = (Ok res, db1) ->
  exists res' db2,
    cancelSubscription E' now' userId db1 = (Ok res', db2)
    /\ cn_success res' = true
    /\ sub_id (cn_subscription res') = sub_id (cn_subscription res)
    /\ status (cn_subscription res') = "active"
    /\ cancelAtPeriodEnd (cn_subscription res') = true
    /\ canceledAt (cn_subscription res) = Some now
    /\ canceledAt (cn_subscription res') = Some now'
    /\ currentPeriodEnd (cn_subscription res') = currentPeriodEnd (cn_subscription res)
    /\ active_of (sub_userId (cn_subscription res)) db2 = Some (cn_subscription res').
Proof.
  intros Hh HI Hrun.
  pose proof (cancelSubscription_Inv E now userId db HI) as HI1.
  rewrite Hrun in HI1. cbn [snd] in HI1.
  apply (cancelSubscription_row E _ _ _ _ _ (proj1 HI)) in Hrun
    as (user & s & Hu & Ha & -> & ->).
  cbn [cn_subscription].
  pose proof Ha as Ha0. unfold active_of in Ha0.
  apply find_some in Ha0 as (Hin & Hact).
  apply is_active_status in Hact as (Hown & Hst).
  assert (Hmap : forall t (d : DB) (x : Subscription),
             In x (subscriptions d) -> NoDup (map sub_id (subscriptions d)) ->
             find (is_active (user_id user)) (subscriptions d) = Some x ->
             find (is_active (user_id user)) (subscriptions (canceled_db t x d))
             = Some (mark_canceled t x)).
  { intros t d x Hx Hnd Hf. unfold canceled_db. db_simpl.
    rewrite find_map_commute.
    - rewrite Hf. cbn [option_map]. rewrite String.eqb_refl. reflexivity.
    - intros r Hr. destruct (sub_id r =? sub_id x)%string eqn:Hk; [| reflexivity].
      apply String.eqb_eq in Hk.
      assert (r = x) by (eapply key_identifies; eauto). subst r. reflexivity. }
  assert (Ha1 : active_of (user_id user) (canceled_db now s db)
                = Some (mark_canceled now s))
    by (apply Hmap; [assumption | apply HI | exact Ha]).
  pose proof (cancelSubscription_healthy E' now' userId (canceled_db now s db) user
                (mark_canceled now s) Hh (proj1 HI1) Hu Ha1) as Hrun2.
  eexists _, _. split; [exact Hrun2 |].
  cbn [cn_success cn_subscription mark_canceled sub_id status cancelAtPeriodEnd
       canceledAt currentPeriodEnd sub_userId].
  repeat split; try reflexivity; try assumption.
  rewrite Hown. apply Hmap; [| apply HI1 | exact Ha1].
  unfold active_of in Ha1. apply find_some in Ha1. tauto.
Qed.

Lemma cancelSubscription_twice_witness :
  exists res db1 res' db2,
    cancelSubscription Example.E_ok Example.jan16 "clerk_bob" Example.bob_paid
    = (Ok res, db1)
    /\ cancelSubscription Example.E_ok Example.feb20 "clerk_bob" db1 = (Ok res', db2)
    /\ canceledAt (cn_subscription res) = Some Example.jan16
    /\ canceledAt (cn_subscription res') = Some Example.feb20.
Proof.
  destruct (cancelSubscription Example.E_ok Example.jan16 "clerk_bob" Example.bob_paid)
    as [[res | e] db1] eqn:Hc; [| vm_compute in Hc; discriminate Hc].
  destruct (cancelSubscription_twice Example.E_ok Example.E_ok Example.jan16
              Example.feb20 "clerk_bob" Example.bob_paid res db1
              E_ok_healthy bob_paid_Inv Hc)
    as (res' & db2 & Hr & _ & _ & _ & _ & H1 & H2 & _).
  exists res, db1, res', db2. repeat split; assumption.
Defined.

(** ** What consumption reads *)

Lemma find_view {A V} (v : A -> V) (p : A -> bool) (l1 l2 : list A) :
  (forall a b, v a = v b -> p a = p b) ->
  map v l1 = map v l2 ->
  option_map v (find p l1) = option_map v (find p l2).
Proof.
  intros Hp. revert l2. induction l1 as [| a l1 IH]; intros [| b l2] H;
    cbn [map] in H; try discriminate; [reflexivity |].
  injection H as Hab Hl. cbn [find]. rewrite (Hp a b Hab).
  destruct (p b); cbn [option_map]; [congruence | auto].
Qed.

Lemma or0_some v : or0 (Some v) = v.
Proof. cbn [or0]. destruct (v =? 0) eqn:H; [apply Z.eqb_eq in H; lia | reflexivity]. Qed.

(** X16.  [consumeCredits] reads of a subscription only its id, owner,
    status and plan.  The period bounds, the billing cycle and the
    cancellation fields have no influence: against a store that rejects
    nothing, two stores that agree on users, plans, ledger, usage and on
    those four columns give the same result, error or success, and agree in
    the same way afterwards.  So credits can be consumed on an active
    subscription whose period ended or that was cancelled. *)
Theorem consumeCredits_ignores_period_and_cancellation
    (E : Env) (now : instant) (userId : string) (n : Z) (description : string)
    (db1 db2 : DB) :
  healthy E ->
  consumption_view db1 = consumption_view db2 ->
  fst (consumeCredits E now userId n description db1)
  = fst (consumeCredits E now userId n description db2)
  /\ consumption_view (snd (consumeCredits E now userId n description db1))
     = consumption_view (snd (consumeCredits E now userId n description db2)).
Proof.
  intros Hh Hv. pose proof Hv as Hv0.
  unfold consumption_view in Hv. injection Hv as Hu Hp Hs Hl Hd.
  pose proof (consumeCredits_healthy E now userId n description db1 Hh) as H1.
  pose proof (consumeCredits_healthy E now userId n description db2 Hh) as H2.
  unfold user_of in H1, H2. rewrite Hu in H1.
  destruct (find (fun u => (clerkUserId u =? userId)%string) (users db2)) as [user |];
    [| rewrite H1, H2; split; [reflexivity | exact Hv0]].
  assert (Hfind : option_map (fun s => (sub_id s, sub_userId s, status s, sub_planId s))
                    (find (is_active (user_id user)) (subscriptions db1))
                  = option_map (fun s => (sub_id s, sub_userId s, status s, sub_planId s))
                      (find (is_active (user_id user)) (subscriptions db2))).
  { apply find_view; [| exact Hs].
    intros a b Hab. injection Hab as _ Ha Hb _. unfold is_active.
    rewrite Ha, Hb. reflexivity. }
  unfold active_of in H1, H2.
  destruct (find (is_active (user_id user)) (subscriptions db1)) as [s1 |],
           (find (is_active (user_id user)) (subscriptions db2)) as [s2 |];
    cbn [option_map] in Hfind; try discriminate Hfind;
    [| rewrite H1, H2; split; [reflexivity | exact Hv0]].
  injection Hfind as Hid Hown Hst Hpl.
  unfold plan_of, usage_on, balance, ledger_of in H1, H2.
  rewrite Hp, Hpl, Hd, Hl in H1.
  destruct (find (fun p => (plan_id p =? sub_planId s2)%string) (plans db2)) as [plan |];
    [| rewrite H1, H2; split; [reflexivity | exact Hv0]].
  cbv zeta in H1, H2.
  destruct (isDaily plan && _)%bool;
    [rewrite H1, H2; split; [reflexivity | exact Hv0] |].
  destruct (_ <? n); [rewrite H1, H2; split; [reflexivity | exact Hv0] |].
  destruct H1 as (-> & _), H2 as (-> & _). cbn [fst snd]. split; [reflexivity |].
  unfold consumption_view, consumed_db. rewrite Hid, Hd, Hl.
  destruct (isDaily plan); [destruct (find _ (dailyUsage db2)) |]; db_simpl;
    rewrite ?Hu, ?Hp, ?Hs, ?Hd, ?Hl; reflexivity.
Qed.

(** On 1 April, six weeks after Bob's period ended, a credit is consumed just
    the same whether or not he cancelled in January. *)
Lemma consumeCredits_ignores_period_and_cancellation_witness :
  fst (consumeCredits Example.E_ok Example.apr01 "clerk_bob" 1 "API usage"
         (snd (cancelSubscription Example.E_ok Example.jan16 "clerk_bob"
                 Example.bob_paid)))
  = Ok (mkConsumeResult true 1 24 "Credits consumed successfully")
  /\ map currentPeriodEnd (subscriptions Example.bob_paid)
     = [JsDate.utc 2024 2 15 10 0; JsDate.utc 2024 2 16 9 30].
Proof.
  destruct (consumeCredits_ignores_period_and_cancellation Example.E_ok Example.apr01
              "clerk_bob" 1 "API usage" Example.bob_paid
              (snd (cancelSubscription Example.E_ok Example.jan16 "clerk_bob"
                      Example.bob_paid))
              E_ok_healthy ltac:(vm_compute; reflexivity)) as (H & _).
  split; [rewrite <- H |]; vm_compute; reflexivity.
Defined.

(** ** The daily counter *)

Lemma startOfDay_same_day t t' :
  JsDate.startOfDay t = JsDate.startOfDay t' <-> JsDate.Day t = JsDate.Day t'.
Proof.
  unfold JsDate.startOfDay, JsDate.MakeDate, JsDate.msPerDay. split; intros H; lia.
Qed.

Lemma startOfDay_bounds t :
  JsDate.startOfDay t <= t < JsDate.startOfDay t + JsDate.msPerDay.
Proof.
  unfold JsDate.startOfDay, JsDate.MakeDate, JsDate.Day, JsDate.msPerDay.
  pose proof (Z.div_mod t 86400000 ltac:(lia)).
  pose proof (Z.mod_pos_bound t 86400000 ltac:(lia)). lia.
Qed.

Lemma find_app_last {A} (q : A -> bool) (l : list A) (x : A) :
  q x = false -> find q (l ++ [x]) = find q l.
Proof.
  intros Hx. induction l as [| a l IH]; cbn [find app].
  - rewrite Hx. reflexivity.
  - destruct (q a); [reflexivity | exact IH].
Qed.

(** The usage counters after a consumption that committed. *)
Lemma consumed_db_usage now user s plan n description db uid date :
  usage_on uid date (consumed_db now user s plan n description db)
  = usage_on uid date db
    + (if (isDaily plan && (uid =? user_id user)%string
           && (date =? JsDate.startOfDay now))%bool then n else 0).
Proof.
  unfold usage_on, consumed_db.
  destruct (isDaily plan); cbn [andb]; [| db_simpl; lia].
  destruct ((uid =? user_id user)%string && (date =? JsDate.startOfDay now))%bool
    eqn:Hsame.
  - apply andb_true_iff in Hsame as (Hu & Hd).
    apply String.eqb_eq in Hu. apply Z.eqb_eq in Hd. subst uid date.
    destruct (find (same_day (user_id user) (JsDate.startOfDay now)) (dailyUsage db))
      as [r |] eqn:Hf; db_simpl.
    + rewrite (find_update_first _ (add_usage n) _ r Hf).
      * cbn [option_map add_usage usageCount]. rewrite !or0_some. reflexivity.
      * apply find_some in Hf. tauto.
    + rewrite (find_app_none _ _ _ Hf). unfold same_day at 1.
      cbn [find du_userId du_date].
      rewrite String.eqb_refl, Z.eqb_refl. cbn [andb option_map usageCount].
      rewrite or0_some. cbn [or0]. lia.
  - assert (Hother : forall r,
               same_day (user_id user) (JsDate.startOfDay now) r = true ->
               same_day uid date r = false).
    { intros r Hr. unfold same_day in *. apply andb_true_iff in Hr as (H1 & H2).
      apply String.eqb_eq in H1. apply Z.eqb_eq in H2. rewrite H1, H2.
      rewrite String.eqb_sym, Z.eqb_sym. exact Hsame. }
    destruct (find (same_day (user_id user) (JsDate.startOfDay now)) (dailyUsage db))
      as [r |] eqn:Hf; db_simpl.
    + rewrite find_update_first_other; [lia |].
      intros x Hx. split; [apply Hother; exact Hx |].
      apply Hother. unfold same_day in *. exact Hx.
    + rewrite find_app_last; [lia |].
      apply Hother. unfold same_day. cbn [du_userId du_date].
      rewrite String.eqb_refl, Z.eqb_refl. reflexivity.
Qed.

(** X17.  A consumption that succeeds at [now] on a daily plan raises by
    [n] the usage of its user for the calendar day of [now] (the day of the
    process clock, here UTC), and that usage is then within the plan's daily
    credits; the usage of every other day and of every other user is
    unchanged, so the count starts again from 0 at midnight.  On a plan that
    is not daily no usage is recorded at all. *)
Theorem daily_usage_is_counted_per_day
    (E : Env) (now : instant) (userId : string) (n : Z) (description : string)
    (db : DB) (res : ConsumeResult) (db' : DB) :
  consumeCredits E now userId n description db = (Ok res, db') ->
  exists user s plan,
    user_of userId db = Some user /\ active_of (user_id user) db = Some s
    /\ plan_of s db = Some plan
    /\ (forall uid t,
          usage_on uid (JsDate.startOfDay t) db'
          = usage_on uid (JsDate.startOfDay t) db
            + (if (isDaily plan && (uid =? user_id user)%string
                   && (JsDate.Day t =? JsDate.Day now))%bool then n else 0))
    /\ (isDaily plan = true ->
        usage_on (user_id user) (JsDate.startOfDay now) db' <= dailyCredits plan)
    /\ (isDaily plan = false -> dailyUsage db' = dailyUsage db).
Proof.
  intros Hrun.
  apply consumeCredits_ok in Hrun as (user & s & plan & Hu & Ha & Hp & Hlim & _ & _ & ->).
  exists user, s, plan. do 3 (split; [assumption |]). split; [| split].
  - intros uid t. rewrite consumed_db_usage.
    replace (JsDate.startOfDay t =? JsDate.startOfDay now)
      with (JsDate.Day t =? JsDate.Day now); [reflexivity |].
    destruct (JsDate.Day t =? JsDate.Day now) eqn:Hd; symmetry.
    + apply Z.eqb_eq. apply startOfDay_same_day. apply Z.eqb_eq. exact Hd.
    + apply Z.eqb_neq. intros Heq. apply startOfDay_same_day in Heq.
      apply Z.eqb_neq in Hd. contradiction.
  - intros Hd. rewrite consumed_db_usage, Hd, String.eqb_refl, Z.eqb_refl.
    cbn [andb]. apply Hlim. exact Hd.
  - intros Hd. unfold consumed_db. rewrite Hd. reflexivity.
Qed.

(** Bob used 20 credits on 16 January; on the 17th his count is 0 again. *)
Lemma daily_usage_is_counted_per_day_witness :
  usage_on "c5" (JsDate.startOfDay (JsDate.utc 2024 1 16 23 59)) Example.bob_used_20 = 20
  /\ usage_on "c5" (JsDate.startOfDay (JsDate.utc 2024 1 17 0 0)) Example.bob_used_20 = 0.
Proof.
  destruct (consumeCredits Example.E_ok Example.jan16 "clerk_bob" 20
              "Face search API call" Example.bob_paid) as [[res | e] db'] eqn:Hc;
    [| vm_compute in Hc; discriminate Hc].
  destruct (daily_usage_is_counted_per_day Example.E_ok Example.jan16 "clerk_bob" 20
              "Face search API call" Example.bob_paid res db' Hc)
    as (user & s & plan & _).
  split; vm_compute; reflexivity.
Defined.

(** ** Messages and status codes *)

Lemma occurs_append c a b : occurs c (a ++ b) = (occurs c a || occurs c b)%bool.
Proof.
  induction a as [| x a IH]; cbn [append occurs]; [reflexivity |].
  rewrite IH, orb_assoc. reflexivity.
Qed.

Lemma prefix_occurs c pat :
  forall s, prefix pat s = true -> occurs c pat = true -> occurs c s = true.
Proof.
  induction pat as [| a pat IH]; intros s Hp Ho; cbn [occurs] in Ho; [discriminate |].
  destruct s as [| b s]; cbn [prefix] in Hp; [discriminate |].
  destruct (Ascii.ascii_dec a b) as [<- | _]; [| discriminate].
  cbn [occurs]. apply orb_true_iff in Ho as [Ho | Ho]; [rewrite Ho; reflexivity |].
  rewrite (IH s Hp Ho), orb_true_r. reflexivity.
Qed.

(** A text that lacks one of the characters of [pat] does not contain
    [pat]. *)
Lemma index_occurs c pat :
  occurs c pat = true ->
  forall s n, occurs c s = false -> index n pat s = None.
Proof.
  intros Hc. induction s as [| b s IH]; intros n Hs.
  - destruct pat; [discriminate |]. destruct n; reflexivity.
  - cbn [occurs] in Hs. apply orb_false_iff in Hs as (Hb & Hs).
    destruct n as [| n]; cbn [index].
    + destruct (prefix pat (String b s)) eqn:Hp.
      * pose proof (prefix_occurs c pat _ Hp Hc) as Ho. cbn [occurs] in Ho.
        rewrite Hb, Hs in Ho. discriminate.
      * rewrite (IH 0%nat Hs). reflexivity.
    + rewrite (IH n Hs). reflexivity.
Qed.

Lemma includes_occurs c pat s :
  occurs c pat = true -> occurs c s = false -> includes s pat = false.
Proof. intros Hp Hs. unfold includes. rewrite (index_occurs c pat Hp s 0%nat Hs). reflexivity. Qed.

Lemma occurs_show_Z c z :
  occurs c "-0123456789" = false -> occurs c (show_Z z) = false.
Proof.
  intros H. cbn [occurs] in H.
  repeat match type of H with
         | (_ || _)%bool = false => apply orb_false_iff in H; destruct H as (? & H)
         end.
  assert (He : forall d, occurs c (DecimalString.NilEmpty.string_of_uint d) = false).
  { induction d; cbn [DecimalString.NilEmpty.string_of_uint occurs];
      [reflexivity | ..]; rewrite IHd, orb_false_r; assumption. }
  assert (Hu : forall d, occurs c (DecimalString.NilZero.string_of_uint d) = false).
  { intros d. destruct d; cbn [DecimalString.NilZero.string_of_uint]; try apply He.
    cbn [occurs]. rewrite orb_false_r. assumption. }
  unfold show_Z. destruct (Z.to_int z) as [d | d];
    cbn [DecimalString.NilZero.string_of_int occurs]; rewrite ?Hu.
  - reflexivity.
  - rewrite orb_false_r. assumption.
Qed.

Section StatusFacts.

Import Ascii.

Lemma cancelSubscription_unknown E now userId db :
  healthy E ->
  (user_of userId db = None ->
   cancelSubscription E now userId db
   = (Throw (Failed "Failed to cancel subscription" (UserNotFound userId)), db))
  /\ (forall user,
        user_of userId db = Some user -> active_of (user_id user) db = None ->
        cancelSubscription E now userId db
        = (Throw (Failed "Failed to cancel subscription" NoActiveSubscription), db)).
Proof.
  intros Hh.
  unfold cancelSubscription, user_findUnique, subscription_findFirst, subscription_update.
  unfold_monad. unfold user_of, active_of. split.
  - intros Hu. hstep Hh. rewrite Hu. reflexivity.
  - intros user Hu Ha. hstep Hh. rewrite Hu. hstep Hh. rewrite Ha. reflexivity.
Qed.

(** What [getSubscriptionDetails] returns against a store that rejects
    nothing. *)
Lemma getSubscriptionDetails_healthy E now userId db :
  healthy E ->
  match user_of userId db with
  | None =>
      getSubscriptionDetails E now userId db
      = (Throw (Failed "Failed to get subscription details" (UserNotFound userId)), db)
  | Some user =>
      match active_of (user_id user) db with
      | None =>
          getSubscriptionDetails E now userId db
          = (Ok (NoSubscriptionDetails true 0 "No active subscription found"), db)
      | Some s =>
          match plan_of s db with
          | None =>
              getSubscriptionDetails E now userId db
              = (Throw (Failed "Failed to get subscription details" missing_relation),
                 db)
          | Some plan =>
              exists view recent,
                getSubscriptionDetails E now userId db
                = (Ok (ActiveDetails true view (balance (user_id user) db)
                         (usage_on (user_id user) (JsDate.startOfDay now) db)
                         (if isDaily plan then Some (dailyCredits plan) else None)
                         recent), db)
                /\ sv_id view = sub_id s /\ sv_plan view = plan
          end
      end
  end.
Proof.
  intros Hh.
  unfold getSubscriptionDetails, user_findUnique, subscription_findFirst_with_plan,
    subscription_findFirst, include_plan, recent_ledger, creditLedger_aggregate,
    dailyUsage_findFirst.
  unfold_monad. unfold user_of, active_of, plan_of, usage_on.
  hstep Hh. destruct (find _ (users db)) as [user |]; [| reflexivity].
  hstep Hh. destruct (find (is_active (user_id user)) (subscriptions db)) as [s |];
    [| reflexivity].
  hstep Hh. destruct (find _ (plans db)) as [plan |]; [| reflexivity].
  hstep Hh. rewrite or0_aggregate. eexists _, _. split; [reflexivity |].
  split; reflexivity.
Qed.

(** X18.  The answers of [POST /api/usage/consume] to a request with a user
    id and a positive number of credits, against a store that rejects
    nothing: 404 for an unknown user; 400, no active subscription, for a
    user without one; 500 where the subscription's plan is missing; 400,
    credit limit exceeded, where the daily limit or the balance does not
    cover the amount; otherwise 200 with the amount consumed and the balance
    left.  Only the answer 200 comes with a change of the store. *)
Theorem consume_request_status
    (E : Env) (now : instant) (body : ConsumeBody) (n : Z) (db : DB) :
  healthy E ->
  truthy (body_userId body) = true ->
  default (JNumber 1) (body_credits body) = JNumber n ->
  0 < n ->
  match user_of (default "" (body_userId body)) db with
  | None =>
      consume_controller E now body db
      = (mkResponse 404 false "User not found" None
           (Some ("Failed to consume credits: User not found: "
                  ++ default "" (body_userId body))), db)
  | Some user =>
      match active_of (user_id user) db with
      | None =>
          consume_controller E now body db
          = (mkResponse 400 false "No active subscription found" None
               (Some "Failed to consume credits: No active subscription found"), db)
      | Some s =>
          match plan_of s db with
          | None =>
              res_status (fst (consume_controller E now body db)) = 500
              /\ snd (consume_controller E now body db) = db
          | Some plan =>
              let used := usage_on (user_id user) (JsDate.startOfDay now) db in
              let available := balance (user_id user) db in
              if ((isDaily plan && (dailyCredits plan <? used + n))
                  || (available <? n))%bool then
                res_status (fst (consume_controller E now body db)) = 400
                /\ res_message (fst (consume_controller E now body db))
                   = "Credit limit exceeded"
                /\ res_data (fst (consume_controller E now body db)) = None
                /\ snd (consume_controller E now body db) = db
              else
                consume_controller E now body db
                = (mkResponse 200 true "Credits consumed successfully"
                     (Some (mkConsumeResult true n (available - n)
                              "Credits consumed successfully")) None,
                   consumed_db now user s plan n
                     (default "API usage" (body_description body)) db)
          end
      end
  end.
Proof.
  intros Hh Hu Hc Hn.
  pose proof (consumeCredits_healthy E now (default "" (body_userId body)) n
                (default "API usage" (body_description body)) db Hh) as Hrun.
  unfold consume_controller. rewrite Hu, Hc. cbn [negb].
  replace (n <=? 0) with false by (symmetry; apply Z.leb_gt; lia).
  destruct (user_of (default "" (body_userId body)) db) as [user |].
  2:{ rewrite Hrun. cbv zeta.
      replace (includes _ "User not found") with true
        by (symmetry; vm_compute; reflexivity).
      reflexivity. }
  destruct (active_of (user_id user) db) as [s |].
  2:{ rewrite Hrun. vm_compute. reflexivity. }
  destruct (plan_of s db) as [plan |].
  2:{ rewrite Hrun. vm_compute. split; reflexivity. }
  cbv zeta in *.
  destruct (isDaily plan && _)%bool.
  { rewrite Hrun. cbn [orb]. cbv zeta.
    replace (includes _ "User not found") with false
      by (symmetry; apply (includes_occurs "f"%char); [reflexivity |];
          cbn [message]; rewrite !occurs_append, !occurs_show_Z by reflexivity;
          reflexivity).
    replace (includes _ "No active subscription") with false
      by (symmetry; apply (includes_occurs "N"%char); [reflexivity |];
          cbn [message]; rewrite !occurs_append, !occurs_show_Z by reflexivity;
          reflexivity).
    replace (includes _ "Daily limit exceeded") with true
      by (symmetry; vm_compute; reflexivity).
    rewrite orb_true_r. repeat split. }
  cbn [orb]. destruct (_ <? n).
  { rewrite Hrun. cbv zeta.
    replace (includes _ "User not found") with false
      by (symmetry; apply (includes_occurs "U"%char); [reflexivity |];
          cbn [message]; rewrite !occurs_append, !occurs_show_Z by reflexivity;
          reflexivity).
    replace (includes _ "No active subscription") with false
      by (symmetry; apply (includes_occurs "N"%char); [reflexivity |];
          cbn [message]; rewrite !occurs_append, !occurs_show_Z by reflexivity;
          reflexivity).
    replace (includes _ "Insufficient credits") with true
      by (symmetry; vm_compute; reflexivity).
    repeat split. }
  destruct Hrun as (-> & _). reflexivity.
Qed.


(** Bob, with 20 of his 25 daily credits used, asks for 10. *)
Lemma consume_request_status_witness :
  res_status (fst (consume_controller Example.E_ok Example.jan16
                     (mkConsumeBody (Some "clerk_bob") (Some (JNumber 10)) None)
                     Example.bob_used_20)) = 400
  /\ res_message (fst (consume_controller Example.E_ok Example.jan16
                         (mkConsumeBody (Some "clerk_bob") (Some (JNumber 10)) None)
                         Example.bob_used_20)) = "Credit limit exceeded"
  /\ snd (consume_controller Example.E_ok Example.jan16
            (mkConsumeBody (Some "clerk_bob") (Some (JNumber 10)) None)
            Example.bob_used_20) = Example.bob_used_20.
Proof.
  pose proof (consume_request_status Example.E_ok Example.jan16
                (mkConsumeBody (Some "clerk_bob") (Some (JNumber 10)) None) 10
                Example.bob_used_20 E_ok_healthy eq_refl eq_refl ltac:(lia)) as H.
  vm_compute in H. vm_compute. tauto.
Defined.

(** X19.  The answers of [POST /api/subscriptions/cancel] against a store
    that rejects nothing and has unique subscription ids: 400 without a user
    id; 404 for an unknown user; 400, no active subscription, for a user
    without one; otherwise 200 with the cancelled subscription.  Only the
    answer 200 comes with a change of the store, and the change is the
    cancellation of that one row. *)
Theorem cancel_request_status
    (E : Env) (now : instant) (userId : option string) (db : DB) :
  healthy E ->
  NoDup (map sub_id (subscriptions db)) ->
  if negb (truthy userId) then
    cancel_controller E now userId db
    = (mkResponse 400 false "Missing required field: userId is required" None None, db)
  else
    match user_of (default "" userId) db with
    | None =>
        cancel_controller E now userId db
        = (mkResponse 404 false "User not found" None
             (Some ("Failed to cancel subscription: User not found: "
                    ++ default "" userId)), db)
    | Some user =>
        match active_of (user_id user) db with
        | None =>
            cancel_controller E now userId db
            = (mkResponse 400 false "No active subscription found" None
                 (Some "Failed to cancel subscription: No active subscription found"),
               db)
        | Some s =>
            cancel_controller E now userId db
            = (mkResponse 200 true "Subscription canceled successfully"
                 (Some (mkCancelResult true (mark_canceled now s)
                          "Subscription will be canceled at period end")) None,
               canceled_db now s db)
        end
    end.
Proof.
  intros Hh Hnd. unfold cancel_controller.
  destruct (negb (truthy userId)); [reflexivity |].
  destruct (cancelSubscription_unknown E now (default "" userId) db Hh) as (H1 & H2).
  destruct (user_of (default "" userId) db) as [user |] eqn:Hu.
  2:{ rewrite (H1 eq_refl). cbv zeta.
      replace (includes _ "User not found") with true
        by (symmetry; vm_compute; reflexivity).
      reflexivity. }
  destruct (active_of (user_id user) db) as [s |] eqn:Ha.
  2:{ rewrite (H2 user eq_refl Ha). vm_compute. reflexivity. }
  rewrite (cancelSubscription_healthy E now _ db user s Hh Hnd Hu Ha). reflexivity.
Qed.

Lemma cancel_request_status_witness :
  res_status (fst (cancel_controller Example.E_ok Example.feb20 (Some "clerk_carol")
                     Example.bob_paid)) = 404
  /\ res_status (fst (cancel_controller Example.E_ok Example.feb20 (Some "clerk_bob")
                        Example.bob_lapsed)) = 400
  /\ res_status (fst (cancel_controller Example.E_ok Example.feb20 (Some "clerk_bob")
                        Example.bob_paid)) = 200.
Proof.
  pose proof (cancel_request_status Example.E_ok Example.feb20 (Some "clerk_carol")
                Example.bob_paid E_ok_healthy bob_paid_ids) as H.
  vm_compute in H. vm_compute. repeat split.
Defined.

(** X20.  [GET /api/subscriptions/me] never writes to the store, whatever
    the store rejects.  Against a store that rejects nothing it answers 400
    without a user id, 404 for an unknown user, 500 where the plan of the
    active subscription is missing, and 200 otherwise, also for a user who
    has no active subscription (the data then carry no subscription and 0
    credits): the answer 404, no active subscription, is never given. *)
Theorem details_request_status
    (E : Env) (now : instant) (userId : option string) (db : DB) :
  snd (details_controller E now userId db) = db
  /\ (healthy E ->
      if negb (truthy userId) then
        res_status (fst (details_controller E now userId db)) = 400
      else
        match user_of (default "" userId) db with
        | None =>
            res_status (fst (details_controller E now userId db)) = 404
            /\ res_message (fst (details_controller E now userId db)) = "User not found"
        | Some user =>
            match active_of (user_id user) db with
            | None =>
                fst (details_controller E now userId db)
                = mkResponse 200 true "Subscription details retrieved successfully"
                    (Some (NoSubscriptionDetails true 0 "No active subscription found"))
                    None
            | Some s =>
                match plan_of s db with
                | None => res_status (fst (details_controller E now userId db)) = 500
                | Some plan =>
                    res_status (fst (details_controller E now userId db)) = 200
                    /\ exists details,
                         res_data (fst (details_controller E now userId db))
                         = Some details
                         /\ details_availableCredits details
                            = balance (user_id user) db
                         /\ option_map sv_id (details_subscription details)
                            = Some (sub_id s)
                end
            end
        end).
Proof.
  split.
  - unfold details_controller. destruct (negb (truthy userId)); [reflexivity |].
    pose proof (getSubscriptionDetails_readonly E now (default "" userId) db) as Hro.
    destruct (getSubscriptionDetails E now (default "" userId) db) as [[res | e] db'];
      cbn [snd] in *; [exact Hro |].
    repeat match goal with |- context [if ?c then _ else _] => destruct c end;
      exact Hro.
  - intros Hh. unfold details_controller.
    destruct (negb (truthy userId)); [reflexivity |].
    pose proof (getSubscriptionDetails_healthy E now (default "" userId) db Hh) as Hrun.
    destruct (user_of (default "" userId) db) as [user |].
    2:{ rewrite Hrun. cbv zeta.
        replace (includes _ "User not found") with true
          by (symmetry; vm_compute; reflexivity).
        split; reflexivity. }
    destruct (active_of (user_id user) db) as [s |]; [| rewrite Hrun; reflexivity].
    destruct (plan_of s db) as [plan |]; [| rewrite Hrun; vm_compute; reflexivity].
    destruct Hrun as (view & recent & -> & Hid & _). cbn [fst res_status res_data].
    split; [reflexivity |]. eexists. split; [reflexivity |].
    cbn [details_availableCredits details_subscription option_map].
    split; [reflexivity | rewrite Hid; reflexivity].
Qed.

End StatusFacts.

Section ControllerFacts.

Variable E : Env.

Lemma confirmPayment_unknown now userId planCode paidAt ext options db :
  healthy E ->
  (user_of userId db = None ->
   confirmPayment E now userId planCode paidAt ext options db
   = (Throw (Failed "Failed to confirm payment" (UserNotFound userId)), db))
  /\ (user_of userId db <> None -> plan_by_code planCode db = None ->
      confirmPayment E now userId planCode paidAt ext options db
      = (Throw (Failed "Failed to confirm payment" (PlanNotFound planCode)), db)).
Proof.
  intros Hh. unfold confirmPayment, user_findUnique, plan_findFirst.
  unfold_monad. unfold user_of, plan_by_code. split.
  - intros Hu. hstep Hh. rewrite Hu. reflexivity.
  - intros Hu Hp. hstep Hh. destruct (find _ (users db)); [| contradiction].
    hstep Hh. rewrite Hp. reflexivity.
Qed.

(** A request acts on the store as one call of the service, or not at
    all. *)
Lemma handle_serve ADMIN_TOKEN now r db :
  handle E ADMIN_TOKEN now r db = db
  \/ exists call, handle E ADMIN_TOKEN now r db = serve E now call db.
Proof.
  destruct r as [body | body | userId | userId | body | adminToken |]; cbn [handle].
  - right. exists (SetupNewUser body). reflexivity.
  - unfold confirm_controller.
    destruct (_ || _)%bool; [left; reflexivity |].
    destruct (_ && _)%bool; [left; reflexivity |].
    right.
    exists (ConfirmPayment (default "" (cb_userId body)) (default "" (cb_planCode body))
              (Some (default now (cb_paidAt body)))
              (default "" (cb_externalPaymentId body))
              (mkOptions (Some (string_or "monthly" (cb_billingCycle body)))
                 (Some (number_or0 (cb_amount body)))
                 (Some (string_or "usd" (cb_currency body))))).
    cbn [serve].
    destruct (confirmPayment E now _ _ _ _ _ db) as [[res | e] db']; reflexivity.
  - left. unfold details_controller. destruct (negb (truthy userId)); [reflexivity |].
    pose proof (getSubscriptionDetails_readonly E now (default "" userId) db) as Hro.
    destruct (getSubscriptionDetails E now (default "" userId) db) as [[res | e] db'];
      cbn [snd] in *; [exact Hro |].
    repeat match goal with |- context [if ?c then _ else _] => destruct c end;
      exact Hro.
  - unfold cancel_controller. destruct (negb (truthy userId)); [left; reflexivity |].
    right. exists (CancelSubscription (default "" userId)). cbn [serve].
    destruct (cancelSubscription E now (default "" userId) db) as [[res | e] db'];
      [reflexivity |].
    repeat match goal with |- context [if ?c then _ else _] => destruct c end;
      reflexivity.
  - right. exists (ConsumeRequest body). reflexivity.
  - unfold renew_controller. destruct (_ || _)%bool; [left; reflexivity |].
    right. exists RenewDueSubscriptions. cbn [serve].
    destruct (renewDueSubscriptions E now db) as [[res | e] db']; reflexivity.
  - right. exists RenewDueSubscriptions. cbn [serve]. unfold runRenewals.
    destruct (renewDueSubscriptions E now db) as [[res | e] db']; reflexivity.
Qed.

Lemma handle_all_serve_all ADMIN_TOKEN trace :
  forall db,
  exists calls,
    handle_all E ADMIN_TOKEN trace db = serve_all E calls db
    /\ (List.length calls <= List.length trace)%nat.
Proof.
  induction trace as [| [now r] trace IH]; intros db; cbn [handle_all].
  - exists []. split; [reflexivity | cbn; lia].
  - destruct (handle_serve ADMIN_TOKEN now r db) as [-> | (call & ->)].
    + destruct (IH db) as (calls & Hc & Hlen). exists calls.
      split; [exact Hc | cbn [List.length]; lia].
    + destruct (IH (serve E now call db)) as (calls & Hc & Hlen).
      exists ((now, call) :: calls). split; [exact Hc | cbn [List.length]; lia].
Qed.

End ControllerFacts.

(** X21.  [POST /api/subscriptions/confirm] answers 200, 400 or 500 and
    nothing else: 400 where the user id, the plan code or the payment id is
    missing, or a billing cycle is given that is neither monthly nor yearly;
    500 for every failure of the service, an unknown user or plan included
    (there is no 404).  Only the answer 200 comes with a change of the
    store.  With 200, the receipt appended to the billing history carries
    the amount of the request (0 where it has none), its currency (usd where
    it has none), its payment id and as payment date [paidAt], or the time
    of the request where it has none; and without a positive amount no
    referral statistics change. *)
Theorem confirm_request_status
    (E : Env) (now : instant) (body : ConfirmBody) (db : DB) :
  (res_status (fst (confirm_controller E now body db)) = 200
   \/ res_status (fst (confirm_controller E now body db)) = 400
   \/ res_status (fst (confirm_controller E now body db)) = 500)
  /\ (res_status (fst (confirm_controller E now body db)) <> 200 ->
      snd (confirm_controller E now body db) = db)
  /\ ((truthy (cb_userId body) && truthy (cb_planCode body)
       && truthy (cb_externalPaymentId body))%bool = false ->
      res_status (fst (confirm_controller E now body db)) = 400)
  /\ (truthy (cb_billingCycle body) = true ->
      known_cycle (default "" (cb_billingCycle body)) = false ->
      res_status (fst (confirm_controller E now body db)) = 400)
  /\ (res_status (fst (confirm_controller E now body db)) = 200 ->
      exists result user receipt,
        res_data (fst (confirm_controller E now body db)) = Some result
        /\ user_of (default "" (cb_userId body)) db = Some user
        /\ billingHistory (snd (confirm_controller E now body db))
           = (billingHistory db ++ [receipt])%list
        /\ bh_userId receipt = user_id user
        /\ bh_amount receipt = number_or0 (cb_amount body)
        /\ bh_currency receipt = string_or "usd" (cb_currency body)
        /\ paymentDate receipt = default now (cb_paidAt body)
        /\ externalPaymentId receipt = default "" (cb_externalPaymentId body)
        /\ balance (user_id user) (snd (confirm_controller E now body db))
           = balance (user_id user) db + creditsGranted result
        /\ (PrimFloat.ltb 0 (number_or0 (cb_amount body)) = false ->
            referralStats (snd (confirm_controller E now body db)) = referralStats db))
  /\ (healthy E ->
      res_status (fst (confirm_controller E now body db)) <> 400 ->
      user_of (default "" (cb_userId body)) db = None
      \/ plan_by_code (default "" (cb_planCode body)) db = None ->
      res_status (fst (confirm_controller E now body db)) = 500).
Proof.
  unfold confirm_controller.
  destruct (truthy (cb_userId body)), (truthy (cb_planCode body)),
    (truthy (cb_externalPaymentId body)); cbn [negb orb andb];
    try (cbn [fst snd res_status]; repeat split; intros;
         try discriminate; try reflexivity; try congruence; auto; fail).
  destruct (truthy (cb_billingCycle body) && _)%bool eqn:Hcycle.
  { cbn [fst snd res_status]. repeat split; intros; try discriminate;
      try reflexivity; try congruence; auto. }
  destruct (confirmPayment E now (default "" (cb_userId body))
              (default "" (cb_planCode body)) (Some (default now (cb_paidAt body)))
              (default "" (cb_externalPaymentId body))
              (mkOptions (Some (string_or "monthly" (cb_billingCycle body)))
                 (Some (number_or0 (cb_amount body)))
                 (Some (string_or "usd" (cb_currency body)))) db)
    as [[res | e] db'] eqn:Hrun; cbn [fst snd res_status res_data].
  - split; [auto |]. split; [congruence |]. split; [discriminate |].
    split.
    { intros Ht Hk. rewrite Ht, Hk in Hcycle. discriminate. }
    split.
    + intros _. pose proof Hrun as Hrun0.
      apply confirmPayment_ok in Hrun as (user & plan & Hu & Hp & _ & Hg & Htx).
      cbn [default opt_billingCycle opt_amount opt_currency] in Htx.
      apply confirm_transaction_ok in Htx as (_ & _ & _ & Hl & Hb & Hr & _).
      eexists res, user, _. split; [reflexivity |]. split; [exact Hu |].
      split; [exact Hb |]. cbn [bh_userId bh_amount bh_currency paymentDate
                                 externalPaymentId].
      do 5 (split; [reflexivity |]). split.
      * rewrite (balance_after_append (user_id user) _ _ _ Hl eq_refl).
        cbn [cl_amount]. rewrite Hg. reflexivity.
      * intros Hz. rewrite Hr, Hz, andb_false_r. reflexivity.
    + intros Hh _ Hnone. exfalso.
      destruct (confirmPayment_unknown E now (default "" (cb_userId body))
                  (default "" (cb_planCode body)) (Some (default now (cb_paidAt body)))
                  (default "" (cb_externalPaymentId body))
                  (mkOptions (Some (string_or "monthly" (cb_billingCycle body)))
                     (Some (number_or0 (cb_amount body)))
                     (Some (string_or "usd" (cb_currency body)))) db Hh) as (H1 & H2).
      destruct (user_of (default "" (cb_userId body)) db) eqn:Hu.
      * destruct Hnone as [Hnone | Hnone]; [discriminate |].
        rewrite H2 in Hrun; [discriminate | discriminate | exact Hnone].
      * rewrite (H1 eq_refl) in Hrun. discriminate.
  - apply confirmPayment_throw in Hrun. subst db'.
    split; [auto |]. split; [reflexivity |]. split; [discriminate |].
    split.
    { intros Ht Hk. rewrite Ht, Hk in Hcycle. discriminate. }
    split; [discriminate |]. reflexivity.
Qed.

(** A payment for a user nobody knows: 500, not 404. *)
Example confirm_request_for_an_unknown_user :
  confirm_controller Example.E_ok Example.jan16
    (mkConfirmBody (Some "clerk_carol") (Some "Pro") None (Some "pi_9") None None None)
    Example.bob_paid
  = (mkResponse 500 false "Failed to confirm payment" None
       (Some "Failed to confirm payment: User not found: clerk_carol"), Example.bob_paid).
Proof. vm_compute. reflexivity. Qed.

(** X22.  [POST /api/admin/subscriptions/renew-due] runs the renewal job
    only for a request whose [x-admin-token] header is non-empty and equal
    to the [ADMIN_TOKEN] of the process; every other request is answered 401
    and leaves the store alone.  Where [ADMIN_TOKEN] is unset or empty no
    header is accepted.  An accepted request is answered 200 with the
    summary of the job, also when renewals failed, and 500 only where the
    query for the due subscriptions failed. *)
Theorem renew_request_needs_the_token
    (E : Env) (ADMIN_TOKEN : option string) (now : instant)
    (adminToken : option string) (db : DB) :
  (if (truthy adminToken && same_token adminToken ADMIN_TOKEN)%bool then
     snd (renew_controller E ADMIN_TOKEN now adminToken db)
     = snd (renewDueSubscriptions E now db)
     /\ match subscription_findMany_due E now db with
        | (Ok items, _) =>
            exists summary,
              fst (renew_controller E ADMIN_TOKEN now adminToken db)
              = mkResponse 200 true "Subscription renewals processed" (Some summary) None
              /\ List.length (results summary) = List.length items
              /\ (renewed summary + failed summary)%nat = List.length items
        | (Throw e, _) =>
            renew_controller E ADMIN_TOKEN now adminToken db
            = (mkResponse 500 false "Failed to run subscription renewals" None
                 (Some ("Failed to renew subscriptions: " ++ message e)), db)
        end
   else
     renew_controller E ADMIN_TOKEN now adminToken db
     = (mkResponse 401 false "Unauthorized. Admin token required." None None, db))
  /\ (truthy ADMIN_TOKEN = false ->
      (truthy adminToken && same_token adminToken ADMIN_TOKEN)%bool = false)
  /\ ((truthy adminToken && same_token adminToken ADMIN_TOKEN)%bool = true <->
      exists token, token <> "" /\ adminToken = Some token /\ ADMIN_TOKEN = Some token).
Proof.
  split; [| split].
  - unfold renew_controller.
    destruct (truthy adminToken), (same_token adminToken ADMIN_TOKEN);
      cbn [negb orb andb]; try reflexivity.
    pose proof (renewDueSubscriptions_run E now db) as Hrun.
    destruct (subscription_findMany_due E now db) as [[items | e] db0].
    + destruct Hrun as (rs & db' & -> & Ho). cbn [fst snd]. split; [reflexivity |].
      eexists. split; [reflexivity |]. cbn [results renewed failed].
      apply loop_outcome_results in Ho as (Hids & _).
      assert (List.length rs = List.length items) as Hlen
        by (rewrite <- (length_map rr_subscriptionId), Hids, length_map; reflexivity).
      split; [exact Hlen |]. rewrite filter_split_length. exact Hlen.
    + rewrite Hrun. cbn [fst snd message]. split; reflexivity.
  - unfold truthy, same_token. destruct ADMIN_TOKEN as [a |], adminToken as [t |];
      intros H; try reflexivity; try apply andb_false_r.
    apply negb_false_iff, String.eqb_eq in H. subst a.
    destruct (t =? "")%string; reflexivity.
  - unfold truthy, same_token. split.
    + destruct adminToken as [t |], ADMIN_TOKEN as [a |]; cbn [andb]; intros H;
        try discriminate; try (rewrite andb_false_r in H; discriminate).
      apply andb_true_iff in H as (Hne & Heq). apply String.eqb_eq in Heq. subst a.
      exists t. repeat split. apply negb_true_iff, String.eqb_neq in Hne. exact Hne.
    + intros (t & Hne & -> & ->). rewrite String.eqb_refl.
      apply String.eqb_neq in Hne. rewrite Hne. reflexivity.
Qed.

(** With no [ADMIN_TOKEN] in the environment, a request without a token
    and a request with one are both turned away. *)
Example renew_request_without_a_configured_token :
  res_status (fst (renew_controller Example.E_ok None Example.apr01 None
                     Example.bob_paid)) = 401
  /\ renew_controller Example.E_ok None Example.apr01 (Some "secret") Example.bob_paid
     = (mkResponse 401 false "Unauthorized. Admin token required." None None,
        Example.bob_paid).
Proof. split; vm_compute; reflexivity. Qed.

(** X23.  The cron script [runRenewals] exits with code 0 exactly when the
    renewal job returned and every renewal it attempted succeeded (none, if
    nothing was due); with a failed renewal, or when the job itself throws,
    it exits with 1.  Its effect on the store is that of the job. *)
Theorem runRenewals_exit_code (E : Env) (now : instant) (db : DB) :
  (fst (runRenewals E now db) = 0 \/ fst (runRenewals E now db) = 1)
  /\ (fst (runRenewals E now db) = 0 <->
      exists summary db',
        renewDueSubscriptions E now db = (Ok summary, db')
        /\ Forall (fun r => rr_success r = true) (results summary))
  /\ snd (runRenewals E now db) = snd (renewDueSubscriptions E now db).
Proof.
  assert (Hcount : forall rs : list RenewalResult,
             List.length (filter (fun r => negb (rr_success r)) rs) = 0%nat
             <-> Forall (fun r => rr_success r = true) rs).
  { induction rs as [| r rs IH]; cbn [filter].
    - split; [constructor | reflexivity].
    - destruct (rr_success r) eqn:Hr; cbn [negb List.length].
      + rewrite IH. split; [constructor; assumption | inversion 1; assumption].
      + split; [discriminate | inversion 1; congruence]. }
  unfold runRenewals. pose proof (renewDueSubscriptions_run E now db) as Hrun.
  destruct (subscription_findMany_due E now db) as [[items | e] db0].
  - destruct Hrun as (rs & db' & -> & _). cbn [fst snd failed].
    specialize (Hcount rs).
    destruct (List.length (filter (fun r => negb (rr_success r)) rs)) as [| k] eqn:Hk.
    + cbn. repeat split; auto. intros _. eexists _, _. split; [reflexivity |].
      cbn [results]. apply Hcount. reflexivity.
    + cbn. repeat split; auto; try discriminate.
      intros (summary & db'' & Heq & Hall). injection Heq as <- <-.
      cbn [results] in Hall. apply Hcount in Hall. discriminate.
  - rewrite Hrun. cbn [fst snd]. repeat split; auto; try discriminate.
    intros (summary & db'' & Heq & _). discriminate.
Qed.

(** On 1 April both subscriptions are due: the script exits with 0 when
    both renewals go through, and with 1 when the grant of one is
    rejected. *)
Example runRenewals_exit_codes :
  fst (runRenewals Example.E_ok Example.apr01 Example.bob_paid) = 0
  /\ fst (runRenewals (Example.E_ledger_down "c4") Example.apr01 Example.bob_paid) = 1.
Proof. split; vm_compute; reflexivity. Qed.

(** X24.  No controller writes to the store itself: every request of the
    HTTP interface, and every run of the cron script, changes the store as
    the one service call it makes does, or not at all.  So a sequence of
    requests leaves the store that some sequence of service calls, at the
    same instants, leaves; with it, every run of the interface keeps the
    invariant (at most one active subscription per user), only appends to
    the ledger and to the billing history, and keeps balances from going
    negative where plans grant no negative credits. *)
Theorem api_requests_act_through_the_service
    (E : Env) (ADMIN_TOKEN : option string) (trace : list (instant * api)) (db : DB) :
  (exists calls,
     handle_all E ADMIN_TOKEN trace db = serve_all E calls db
     /\ (List.length calls <= List.length trace)%nat)
  /\ (Inv db ->
      Inv (handle_all E ADMIN_TOKEN trace db)
      /\ forall uid,
           (List.length (active_subscriptions uid (handle_all E ADMIN_TOKEN trace db))
            <= 1)%nat)
  /\ (exists entries receipts,
        creditLedger (handle_all E ADMIN_TOKEN trace db)
        = (creditLedger db ++ entries)%list
        /\ billingHistory (handle_all E ADMIN_TOKEN trace db)
           = (billingHistory db ++ receipts)%list)
  /\ (nonneg_quotas db -> solvent db -> solvent (handle_all E ADMIN_TOKEN trace db)).
Proof.
  destruct (handle_all_serve_all E ADMIN_TOKEN trace db) as (calls & Heq & Hlen).
  split; [eauto |]. rewrite Heq. split; [| split].
  - intros HI. pose proof (serve_all_Inv E calls db HI) as HI'.
    split; [exact HI' | apply HI'].
  - apply serve_all_appends.
  - intros Hq Hs. apply serve_all_solvent; assumption.
Qed.

(** ** [getUser] *)

Lemma with_plan_and_receipts_readonly rows :
  forall db, snd (with_plan_and_receipts rows db) = db.
Proof.
  induction rows as [| s rows IH]; intros db; cbn [with_plan_and_receipts].
  - reflexivity.
  - unfold include_plan. unfold_monad. specialize (IH db).
    run_all; cbn [snd] in *; congruence.
Qed.

Lemma with_plan_and_receipts_total rows :
  forall db,
  (forall s, In s rows -> plan_of s db <> None) ->
  exists details,
    with_plan_and_receipts rows db = (Ok details, db)
    /\ map sd_subscription details = rows
    /\ Forall (fun d => plan_of (sd_subscription d) db = Some (sd_plan d)
                        /\ sd_billingHistory d
                           = filter (fun b => (bh_subscriptionId b
                                               =? sub_id (sd_subscription d))%string)
                               (billingHistory db)) details.
Proof.
  induction rows as [| s rows IH]; intros db Hp; cbn [with_plan_and_receipts].
  - exists []. repeat split. constructor.
  - destruct (IH db) as (ds & Hds & Hm & Hall); [intros; apply Hp; auto using in_cons |].
    pose proof (Hp s (in_eq _ _)) as Hs. unfold plan_of in Hs.
    unfold include_plan. unfold_monad.
    destruct (find (fun p => (plan_id p =? sub_planId s)%string) (plans db)) as [p |] eqn:Hf;
      [| contradiction].
    rewrite Hds. eexists. split; [reflexivity |]. cbn [map sd_subscription].
    split; [rewrite Hm; reflexivity |]. constructor; [| exact Hall].
    cbn [sd_subscription sd_plan sd_billingHistory]. split; [exact Hf | reflexivity].
Qed.

Lemma with_plan_and_receipts_fails rows :
  forall db s,
  In s rows -> plan_of s db = None ->
  with_plan_and_receipts rows db = (Throw missing_relation, db).
Proof.
  induction rows as [| a rows IH]; intros db s Hin Hp; [contradiction |].
  cbn [with_plan_and_receipts]. unfold include_plan. unfold_monad.
  destruct (find (fun p => (plan_id p =? sub_planId a)%string) (plans db)) as [p |] eqn:Hf.
  - destruct Hin as [-> | Hin]; [unfold plan_of in Hp; congruence |].
    rewrite (IH db s Hin Hp). reflexivity.
  - reflexivity.
Qed.

(** X25.  [GET /api/user/getUser] never writes to the store, whatever the
    store rejects.  Against a store that rejects nothing it answers 400
    without an external id, 404 where no user has it, 500 where one of the
    user's subscriptions has no plan, and otherwise 200 with the user's row,
    their statistics row (or zero counters where they have none), all their
    subscriptions in store order, each with its plan and its receipts, their
    receipts, the users they referred (id, external id, address and name
    only) and their referrer. *)
Theorem getUser_status (E : Env) (clerk : option string) (db : DB) :
  snd (getUser E clerk db) = db
  /\ (healthy E ->
      if negb (truthy clerk) then
        res_status (fst (getUser E clerk db)) = 400
      else
        match user_of (default "" clerk) db with
        | None =>
            fst (getUser E clerk db) = mkResponse 404 false "User not found" None None
        | Some user =>
            if forallb (fun s => match plan_of s db with Some _ => true | None => false end)
                 (filter (fun s => (sub_userId s =? user_id user)%string)
                         (subscriptions db)) then
              exists view,
                fst (getUser E clerk db)
                = mkResponse 200 true "User details retrieved successfully"
                    (Some view) None
                /\ uv_id view = user_id user /\ uv_clerkUserId view = default "" clerk
                /\ uv_email view = email user /\ uv_name view = user_name user
                /\ uv_referredById view = referredById user
                /\ uv_referralStats view
                   = match stats_of (user_id user) db with
                     | Some row => OwnStats row
                     | None => NoStats 0 0 0%float 0%float
                     end
                /\ map sd_subscription (uv_subscriptions view)
                   = filter (fun s => (sub_userId s =? user_id user)%string)
                       (subscriptions db)
                /\ Forall (fun d => plan_of (sd_subscription d) db = Some (sd_plan d)
                                    /\ sd_billingHistory d
                                       = filter (fun b => (bh_subscriptionId b
                                                  =? sub_id (sd_subscription d))%string)
                                           (billingHistory db))
                     (uv_subscriptions view)
                /\ uv_billingHistory view
                   = filter (fun b => (bh_userId b =? user_id user)%string)
                       (billingHistory db)
                /\ uv_referrals view
                   = map referral_of
                       (filter (fun u => match referredById u with
                                         | Some r => (r =? user_id user)%string
                                         | None => false
                                         end) (users db))
                /\ uv_referredBy view
                   = match referredById user with
                     | Some r =>
                         option_map referral_of
                           (find (fun u => (user_id u =? r)%string) (users db))
                     | None => None
                     end
            else
              res_status (fst (getUser E clerk db)) = 500
        end).
Proof.
  split.
  - unfold getUser, user_findUnique_with_relations. unfold_monad.
    destruct (negb (truthy clerk)); [reflexivity |].
    destruct (fault E _ db); [reflexivity |].
    destruct (find _ (users db)) as [user |]; [| reflexivity].
    pose proof (with_plan_and_receipts_readonly
                  (filter (fun s => (sub_userId s =? user_id user)%string)
                          (subscriptions db)) db) as Hro.
    destruct (with_plan_and_receipts _ db) as [[ds | e] db']; cbn [snd] in *;
      exact Hro.
  - intros Hh. unfold getUser, user_findUnique_with_relations. unfold_monad.
    destruct (negb (truthy clerk)); [reflexivity |].
    rewrite Hh. unfold user_of, stats_of.
    destruct (find _ (users db)) as [user |] eqn:Hu; [| reflexivity].
    destruct (forallb _ _) eqn:Hall.
    + destruct (with_plan_and_receipts_total
                  (filter (fun s => (sub_userId s =? user_id user)%string)
                          (subscriptions db)) db) as (ds & Hds & Hm & Hf).
      { intros s Hs. rewrite forallb_forall in Hall. specialize (Hall s Hs).
        destruct (plan_of s db); [discriminate | discriminate]. }
      rewrite Hds. eexists. split; [reflexivity |].
      cbn [uv_id uv_clerkUserId uv_email uv_name uv_referredById uv_referralStats
           uv_subscriptions uv_billingHistory uv_referrals uv_referredBy].
      apply find_some in Hu as (_ & Hc). apply String.eqb_eq in Hc.
      repeat split; try reflexivity; assumption.
    + assert (exists s, In s (filter (fun s => (sub_userId s =? user_id user)%string)
                                 (subscriptions db)) /\ plan_of s db = None)
        as (s & Hs & Hp).
      { apply Bool.not_true_iff_false in Hall.
        destruct (existsb (fun s => match plan_of s db with
                                    | Some _ => false | None => true end)
                    (filter (fun s => (sub_userId s =? user_id user)%string)
                            (subscriptions db))) eqn:Hex.
        - apply existsb_exists in Hex as (s & Hs & Hp). exists s. split; [exact Hs |].
          destruct (plan_of s db); [discriminate | reflexivity].
        - exfalso. apply Hall. apply forallb_forall. intros s Hs.
          destruct (plan_of s db) eqn:Hp; [reflexivity |].
          assert (existsb (fun s => match plan_of s db with
                                    | Some _ => false | None => true end)
                    (filter (fun s => (sub_userId s =? user_id user)%string)
                            (subscriptions db)) = true).
          { apply existsb_exists. exists s. rewrite Hp. auto. }
          congruence. }
      rewrite (with_plan_and_receipts_fails _ db s Hs Hp). reflexivity.
Qed.

(** X26.  What signup wrote, [getUser] returns.  After a signup answered
    201 in a store that satisfies the invariant, a query for the same
    external id (against a store that rejects nothing) is answered 200 with
    the new user's id, address, name and referrer id, the statistics row
    with the reference code signup returned and zero counters, and exactly
    one subscription: the active trial with 2 remaining credits, with a plan
    named as the plan with its plan id. *)
Theorem getUser_after_signup
    (E E' : Env) (now : instant) (body : SetupBody) (db : DB) :
  healthy E' -> Inv db ->
  res_status (fst (setupNewUser E now body db)) = 201 ->
  exists u ref view detail,
    res_data (fst (setupNewUser E now body db)) = Some (u, Some ref)
    /\ getUser E' (body_clerkUserId body) (snd (setupNewUser E now body db))
       = (mkResponse 200 true "User details retrieved successfully" (Some view) None,
          snd (setupNewUser E now body db))
    /\ uv_id view = user_id u
    /\ uv_email view = default "" (body_email body)
    /\ uv_name view = (if truthy (body_name body) then default "" (body_name body)
                       else "Anonymous")
    /\ uv_referredById view = referredById u
    /\ uv_referralStats view
       = OwnStats (mkReferralStats (user_id u) ref 0 0 0%float 0%float)
    /\ uv_subscriptions view = [detail]
    /\ sub_userId (sd_subscription detail) = user_id u
    /\ status (sd_subscription detail) = "active"
    /\ remainingCredits (sd_subscription detail) = Some 2
    /\ plan_id (sd_plan detail) = sub_planId (sd_subscription detail).
Proof.
  intros Hh HI H.
  destruct (setupNewUser_201 E now body db H)
    as (u & ref & plan & sid & Hres & Hnew & Hfresh & Hu & _ & Husers & _
        & Hfree & Hplans & Hsubs & _ & Hstats & Hrs & _).
  apply existsb_false_orb in Hstats as (Hstats & _).
  pose proof (setupNewUser_new_stats E now body db u ref Hfresh Hstats Hrs) as Hrow.
  pose proof (setupNewUser_created E now body db H)
    as (_ & _ & _ & _ & _ & _ & Hc & _).
  set (db' := snd (setupNewUser E now body db)) in *.
  set (sub := signup_subscription E now u plan now (JsDate.addMonths now 1) sid) in *.
  assert (Hcu : clerkUserId u = default "" (body_clerkUserId body))
    by (rewrite Hu; reflexivity).
  assert (Huser : user_of (default "" (body_clerkUserId body)) db' = Some u).
  { unfold user_of in *. rewrite Husers, (find_app_none _ _ _ Hnew).
    cbn [find]. rewrite Hcu, String.eqb_refl. reflexivity. }
  assert (Hmine : filter (fun s => (sub_userId s =? user_id u)%string) (subscriptions db')
                  = [sub]).
  { rewrite Hsubs, filter_app. cbn [filter].
    replace (sub_userId sub =? user_id u)%string with true
      by (symmetry; apply String.eqb_refl).
    replace (filter _ (subscriptions db)) with (@nil Subscription); [reflexivity |].
    symmetry. apply filter_find_none.
    destruct (find (fun s => (sub_userId s =? user_id u)%string) (subscriptions db))
      as [s |] eqn:Hf; [exfalso | reflexivity].
    apply find_some in Hf as (Hs & Hk). apply String.eqb_eq in Hk.
    destruct HI as (_ & Hfk & _). destruct (Hfk s Hs) as (x & Hx & Hid).
    assert (existsb (fun x0 => (user_id x0 =? user_id u)%string) (users db) = true).
    { apply existsb_exists. exists x. split; [assumption |].
      apply String.eqb_eq. congruence. }
    congruence. }
  assert (Hplan : plan_of sub db' <> None).
  { unfold plan_of. intros Hnone.
    assert (Hin : In plan (plans db')).
    { destruct Hplans as [(-> & Hin) | (-> & _)]; [exact Hin |].
      apply in_or_app. right. apply in_eq. }
    apply (find_none _ _ Hnone) in Hin. cbn in Hin.
    rewrite String.eqb_refl in Hin. discriminate. }
  destruct (getUser_status E' (body_clerkUserId body) db') as (_ & Hget).
  specialize (Hget Hh). rewrite Hc in Hget. cbn [negb] in Hget.
  rewrite Huser, Hmine in Hget. cbn [forallb] in Hget.
  destruct (plan_of sub db') as [p |] eqn:Hp; [| contradiction].
  cbn [andb] in Hget.
  destruct Hget as (view & Hresp & Hid & _ & Hmail & Hname & Hreferrer & Hst & Hs & Hall
                    & _).
  destruct (uv_subscriptions view) as [| detail [| more rest]] eqn:Hdetails;
    cbn [map] in Hs; try discriminate.
  injection Hs as Hs. inversion Hall as [| ? ? (Hdp & _) _]; subst.
  exists u, ref, view, detail.
  split; [rewrite Hres; reflexivity |].
  split.
  { pose proof (getUser_status E' (body_clerkUserId body) db') as (Hro & _).
    destruct (getUser E' (body_clerkUserId body) db') as [response db''].
    cbn [fst snd] in *. subst. reflexivity. }
  split; [exact Hid |]. split; [rewrite Hmail, Hu; reflexivity |].
  split; [rewrite Hname, Hu; reflexivity |]. split; [exact Hreferrer |].
  split; [rewrite Hst, Hrow; reflexivity |]. split; [exact Hdetails |].
  rewrite Hs. do 3 (split; [reflexivity |]).
  unfold plan_of in Hdp. rewrite Hs in Hdp. apply find_some in Hdp as (_ & Hk).
  apply String.eqb_eq in Hk. exact Hk.
Qed.

(** Bob, signed up with Alice's code, as [getUser] shows him. *)
Lemma getUser_after_signup_witness :
  exists view detail,
    getUser Example.E_ok (Some "clerk_bob") Example.with_bob
    = (mkResponse 200 true "User details retrieved successfully" (Some view) None,
       Example.with_bob)
    /\ uv_id view = "c5" /\ uv_name view = "Anonymous"
    /\ uv_referredById view = Some "c3"
    /\ uv_referralStats view
       = OwnStats (mkReferralStats "c5" "AURA-REF-1" 0 0 0%float 0%float)
    /\ uv_subscriptions view = [detail]
    /\ sd_plan detail = Example.free
    /\ uv_referredBy view
       = Some (mkReferral "c3" "clerk_alice" "alice@example.org" "Alice").
Proof.
  assert (HI : Inv Example.with_alice)
    by (apply setupNewUser_Inv; exact catalogue_Inv).
  destruct (getUser_after_signup Example.E_ok Example.E_ok Example.jan15 Scenario.bob
              Example.with_alice E_ok_healthy HI ltac:(vm_compute; reflexivity))
    as (u & ref & view & detail & _ & Hget & _ & _ & _ & _ & _ & Hsubs & _).
  change (snd (setupNewUser Example.E_ok Example.jan15 Scenario.bob Example.with_alice))
    with Example.with_bob in Hget.
  change (body_clerkUserId Scenario.bob) with (Some "clerk_bob") in Hget.
  exists view, detail. split; [exact Hget |].
  assert (Hview : fst (getUser Example.E_ok (Some "clerk_bob") Example.with_bob)
                  = mkResponse 200 true "User details retrieved successfully"
                      (Some view) None) by (rewrite Hget; reflexivity).
  vm_compute in Hview. injection Hview as <-.
  cbn [uv_subscriptions] in Hsubs. injection Hsubs as <-.
  vm_compute. repeat split.
Defined.

(** ** The webhook *)

(** X27.  Where the webhook handler answers, it answers 200, 400 or 500,
    and it changes the store only together with an answer that carries
    data.  That happens only for a verified event of type
    [payment_intent.succeeded] or [checkout.session.completed] whose
    metadata name a user and a plan and a billing cycle that is monthly,
    yearly or absent: the store is then changed as by the successful
    [confirmPayment] for that user and plan, with the time of the request as
    payment date, the object's id (or else its payment intent) as payment
    id, and the object's amount in cents divided by 100.  A request whose
    signature does not verify is answered 400, and an event of any other
    type is acknowledged with 200; neither touches the store. *)
Theorem webhook_confirms_verified_payments
    (E : Env) (now : instant) (verified : option StripeEvent) (db : DB)
    (response : Response ConfirmResult) (db' : DB) :
  handleStripeWebhook E now verified db = Some (response, db') ->
  (res_status response = 200 \/ res_status response = 400 \/ res_status response = 500)
  /\ (verified = None -> res_status response = 400)
  /\ (res_data response = None -> db' = db)
  /\ (forall event, verified = Some event -> payment_event (ev_type event) = false ->
        response
        = mkResponse 200 true "Webhook received (non-payment event)" None None)
  /\ (forall result,
        res_data response = Some result ->
        exists event metadata userId planId externalPaymentId,
          verified = Some event
          /\ (ev_type event = "payment_intent.succeeded"
              \/ ev_type event = "checkout.session.completed")
          /\ po_metadata (ev_object event) = Some metadata
          /\ md_userId metadata = Some userId /\ userId <> ""
          /\ md_planId metadata = Some planId /\ planId <> ""
          /\ known_cycle (string_or "monthly" (md_billingCycle metadata)) = true
          /\ externalPaymentId
             = default "" (if truthy (po_id (ev_object event))
                           then po_id (ev_object event)
                           else po_payment_intent (ev_object event))
          /\ res_status response = 200
          /\ confirmPayment E now userId planId (Some now) externalPaymentId
               (mkOptions (Some (string_or "monthly" (md_billingCycle metadata)))
                  (Some (from_cents
                           (if truthy_number (po_amount (ev_object event))
                            then po_amount (ev_object event)
                            else po_amount_total (ev_object event))))
                  (Some (string_or "usd" (po_currency (ev_object event))))) db
             = (Ok result, db')).
Proof.
  unfold handleStripeWebhook. intros H.
  destruct verified as [event |].
  2:{ injection H as <- <-. cbn. repeat split; auto; intros; discriminate. }
  destruct (payment_event (ev_type event)) eqn:Htype.
  2:{ injection H as <- <-. cbn. repeat split; auto; intros; try discriminate;
        try congruence. }
  cbv zeta in H.
  destruct (po_metadata (ev_object event)) as [metadata |] eqn:Hmeta; cbn [default] in H.
  2:{ cbn in H. injection H as <- <-. cbn. repeat split; auto; intros; try discriminate;
        try congruence. }
  destruct (md_userId metadata) as [userId |] eqn:Hu.
  2:{ cbn in H. injection H as <- <-. cbn. repeat split; auto; intros; try discriminate;
        try congruence. }
  destruct (md_planId metadata) as [planId |] eqn:Hp.
  2:{ cbn [truthy negb orb] in H. rewrite orb_true_r in H. injection H as <- <-. cbn.
      repeat split; auto; intros; try discriminate;
        try congruence. }
  destruct (negb (truthy (Some userId)) || negb (truthy (Some planId)))%bool eqn:Hreq.
  { injection H as <- <-. cbn. repeat split; auto; intros; try discriminate;
      try congruence. }
  apply orb_false_iff in Hreq as (Hreq1 & Hreq2).
  apply negb_false_iff in Hreq1, Hreq2. cbn [truthy] in Hreq1, Hreq2.
  apply negb_true_iff, String.eqb_neq in Hreq1, Hreq2.
  destruct (known_cycle (string_or "monthly" (md_billingCycle metadata))) eqn:Hcycle;
    cbn [negb] in H.
  2:{ injection H as <- <-. cbn. repeat split; auto; intros; try discriminate;
        try congruence. }
  destruct (if truthy (po_id (ev_object event)) then po_id (ev_object event)
            else po_payment_intent (ev_object event)) as [ext |] eqn:Hext;
    [| discriminate].
  cbn [default] in H.
  destruct (confirmPayment E now userId planId (Some now) ext _ db)
    as [[result | e] d] eqn:Hrun; injection H as <- <-.
  - cbn [res_status res_data]. split; [auto |]. split; [discriminate |].
    split; [discriminate |]. split; [intros ev Hev; congruence |].
    intros r Hr. injection Hr as <-.
    exists event, metadata, userId, planId, ext.
    split; [reflexivity |]. split.
    { unfold payment_event in Htype. apply orb_true_iff in Htype as [Ht | Ht];
        apply String.eqb_eq in Ht; auto. }
    split; [exact Hmeta |]. split; [exact Hu |]. split; [exact Hreq1 |].
    split; [exact Hp |]. split; [exact Hreq2 |]. split; [exact Hcycle |].
    split; [rewrite Hext; reflexivity |]. split; [reflexivity | exact Hrun].
  - apply confirmPayment_throw in Hrun. subst d. cbn [res_status res_data].
    split; [auto |]. split; [discriminate |]. split; [reflexivity |].
    split; [intros ev Hev; congruence |]. intros r Hr. discriminate.
Qed.

(** Stripe reports Bob's payment of 999 cents: he gets the Pro plan, 25
    credits and a receipt of 9.99. *)
Lemma webhook_confirms_verified_payments_witness :
  exists response db',
    handleStripeWebhook Example.E_ok Example.jan16 (Some Scenario.bob_payment_succeeded)
      Example.alice_paid = Some (response, db')
    /\ res_status response = 200
    /\ balance "c5" db' = 25
    /\ map (fun b => (bh_userId b, externalPaymentId b, paymentDate b))
         (billingHistory db')
       = [("c3", "pi_0", Example.jan15); ("c5", "pi_3Bob", Example.jan16)]
    /\ map bh_amount (billingHistory db') = [Example.price_19_99; Example.price_9_99].
Proof.
  destruct (handleStripeWebhook Example.E_ok Example.jan16
              (Some Scenario.bob_payment_succeeded) Example.alice_paid)
    as [[response db'] |] eqn:Hw; [| vm_compute in Hw; discriminate Hw].
  pose proof (webhook_confirms_verified_payments Example.E_ok Example.jan16
                (Some Scenario.bob_payment_succeeded) Example.alice_paid response db' Hw)
    as (_ & _ & _ & _ & _).
  exists response, db'. split; [reflexivity |].
  vm_compute in Hw. injection Hw as <- <-. vm_compute. repeat split.
Defined.

(** ** More calendar arithmetic *)

Section CalendarFacts.

Import JsDate.

Lemma monthStart_step28 i : monthStart i + 28 <= monthStart (i + 1).
Proof.
  unfold monthStart, MakeDay. cbn [Z.add].
  destruct (Z.eq_dec (i mod 12) 11) as [H11 | H11].
  - assert ((i + 1) / 12 = i / 12 + 1) as -> by (Z.div_mod_to_equations; lia).
    assert ((i + 1) mod 12 = 0) as -> by (Z.div_mod_to_equations; lia).
    rewrite H11, JsDateFacts.DayFromYear_next, JsDateFacts.DaysInYear_leapOf.
    change (daysBeforeMonth (leapOf (i / 12 + 1)) 0) with 0.
    change (daysBeforeMonth (leapOf (i / 12)) 11) with (334 + leapOf (i / 12)).
    lia.
  - assert ((i + 1) / 12 = i / 12) as -> by (Z.div_mod_to_equations; lia).
    assert ((i + 1) mod 12 = i mod 12 + 1) as -> by (Z.div_mod_to_equations; lia).
    assert (0 <= i mod 12 < 11) as Hm by (Z.div_mod_to_equations; lia).
    rewrite (JsDateFacts.daysBeforeMonth_next _ _ (JsDateFacts.leapOf_range _) Hm).
    pose proof (JsDateFacts.daysInMonth_range (leapOf (i / 12)) (i mod 12)
                  (JsDateFacts.leapOf_range _)).
    lia.
Qed.

Lemma monthStart_28 i n : 0 < n -> monthStart i + 28 <= monthStart (i + n).
Proof.
  intros Hn.
  assert (H : forall k, 0 <= k -> monthStart i + 28 <= monthStart (i + 1 + k)).
  { apply natlike_ind.
    - rewrite Z.add_0_r. apply monthStart_step28.
    - intros x Hx IH. replace (i + 1 + Z.succ x) with (i + 1 + x + 1) by lia.
      pose proof (monthStart_step28 (i + 1 + x)). lia. }
  replace (i + n) with (i + 1 + (n - 1)) by lia. apply H. lia.
Qed.

(** Adding months moves a date on by at least 28 days. *)
Lemma addMonths_at_least_28_days t n : 0 < n -> t + 28 * msPerDay <= addMonths t n.
Proof.
  intros Hn. unfold addMonths, setMonth, getMonth, MakeDate.
  pose proof (JsDateFacts.Day_decomposition t) as Hd.
  rewrite JsDateFacts.MakeDay_monthStart in *.
  pose proof (monthStart_28 (12 * YearFromTime t + MonthFromTime t) n Hn) as Hlt.
  replace (12 * YearFromTime t + (MonthFromTime t + n))
    with (12 * YearFromTime t + MonthFromTime t + n) by lia.
  assert (Ht : t = Day t * msPerDay + TimeWithinDay t).
  { unfold Day, TimeWithinDay, msPerDay. Z.div_mod_to_equations. lia. }
  rewrite Ht at 1. rewrite Hd. unfold msPerDay. nia.
Qed.

Lemma addMonths_overflow t n :
  daysInMonth (leapOf (YearFromTime t + (MonthFromTime t + n) / 12))
    ((MonthFromTime t + n) mod 12) < DateFromTime t ->
  YearFromTime (addMonths t n) = YearFromTime t + (MonthFromTime t + n) / 12
  /\ MonthFromTime (addMonths t n) = (MonthFromTime t + n) mod 12 + 1
  /\ DateFromTime (addMonths t n)
     = DateFromTime t
       - daysInMonth (leapOf (YearFromTime t + (MonthFromTime t + n) / 12))
           ((MonthFromTime t + n) mod 12)
  /\ TimeWithinDay (addMonths t n) = TimeWithinDay t.
Proof.
  intros Hover. unfold addMonths, setMonth, getMonth.
  set (y := YearFromTime t) in *. set (m := MonthFromTime t) in *.
  set (d := DateFromTime t) in *.
  set (y' := y + (m + n) / 12) in *. set (m' := (m + n) mod 12) in *.
  set (k := daysInMonth (leapOf y') m') in *.
  assert (Hm' : 0 <= m' <= 11) by (unfold m'; Z.div_mod_to_equations; lia).
  pose proof (JsDateFacts.DateFromTime_range t) as Hd. fold d in Hd.
  pose proof (JsDateFacts.daysInMonth_range (InLeapYear t) (MonthFromTime t)
                (JsDateFacts.leapOf_range _)) as Hdm.
  pose proof (JsDateFacts.daysInMonth_range (leapOf y') m'
                (JsDateFacts.leapOf_range _)) as Hk. fold k in Hk.
  assert (Hm10 : m' <= 10).
  { destruct (Z.eq_dec m' 11) as [H11 | H11]; [| lia].
    exfalso. unfold k in Hover. rewrite H11 in Hover. cbn in Hover. lia. }
  assert (Hmd : MakeDay y (m + n) d = MakeDay y' (m' + 1) (d - k)).
  { unfold MakeDay. fold y' m'.
    rewrite (Z.div_small (m' + 1)), (Z.mod_small (m' + 1)) by lia.
    rewrite Z.add_0_r.
    rewrite (JsDateFacts.daysBeforeMonth_next _ _ (JsDateFacts.leapOf_range _))
      by lia.
    fold k. lia. }
  rewrite Hmd. apply JsDateFacts.fields_of_MakeDate.
  - lia.
  - pose proof (JsDateFacts.daysInMonth_range (leapOf y') (m' + 1)
                  (JsDateFacts.leapOf_range _)). lia.
  - unfold TimeWithinDay, msPerDay. Z.div_mod_to_equations. lia.
Qed.

End CalendarFacts.

(** X28.  [setMonth] does not clamp the day of the month.  Where the date
    has a day the target month lacks (the 31st for a month of 30 days, the
    29th to 31st for February), the result lies in the month after the
    target month, on the day by which the date exceeds the target month's
    length, at the same time of day: a period that starts on 31 January ends
    on 2 or 3 March. *)
Theorem setMonth_overflows_into_the_following_month (t n : Z) :
  JsDate.daysInMonth
    (JsDate.leapOf (JsDate.YearFromTime t + (JsDate.MonthFromTime t + n) / 12))
    ((JsDate.MonthFromTime t + n) mod 12) < JsDate.DateFromTime t ->
  JsDate.YearFromTime (JsDate.addMonths t n)
  = JsDate.YearFromTime t + (JsDate.MonthFromTime t + n) / 12
  /\ JsDate.MonthFromTime (JsDate.addMonths t n) = (JsDate.MonthFromTime t + n) mod 12 + 1
  /\ JsDate.DateFromTime (JsDate.addMonths t n)
     = JsDate.DateFromTime t
       - JsDate.daysInMonth
           (JsDate.leapOf (JsDate.YearFromTime t + (JsDate.MonthFromTime t + n) / 12))
           ((JsDate.MonthFromTime t + n) mod 12)
  /\ JsDate.TimeWithinDay (JsDate.addMonths t n) = JsDate.TimeWithinDay t.
Proof. apply addMonths_overflow. Qed.

(** 31 January 2023, 8:00, plus one month: 3 March 2023, 8:00. *)
Lemma setMonth_overflows_into_the_following_month_witness :
  JsDate.MonthFromTime (JsDate.addMonths (JsDate.utc 2023 1 31 8 0) 1) = 2
  /\ JsDate.DateFromTime (JsDate.addMonths (JsDate.utc 2023 1 31 8 0) 1) = 3
  /\ JsDate.addMonths (JsDate.utc 2023 1 31 8 0) 1 = JsDate.utc 2023 3 3 8 0.
Proof.
  destruct (setMonth_overflows_into_the_following_month (JsDate.utc 2023 1 31 8 0) 1
              ltac:(vm_compute; reflexivity)) as (_ & Hm & Hd & _).
  rewrite Hm, Hd. vm_compute. repeat split.
Defined.

(** ** Catching up *)

Section CatchUp.

Variable E : Env.
Hypothesis E_healthy : healthy E.
Variable now : instant.

Lemma renewal_pass db :
  NoDup (map sub_id (subscriptions db)) -> referential_integrity db ->
  NoDup (map sub_id (subscriptions (snd (renewDueSubscriptions E now db))))
  /\ referential_integrity (snd (renewDueSubscriptions E now db))
  /\ subscriptions (snd (renewDueSubscriptions E now db))
     = map (renew_row now) (subscriptions db).
Proof.
  intros Hnd Hri.
  destruct (renewDueSubscriptions_healthy E E_healthy now db Hnd Hri)
    as (summary & db' & -> & _ & _ & Hsubs & _ & Hu & Hp & _).
  cbn [snd]. split; [| split].
  - rewrite Hsubs, renewed_rows_ids. assumption.
  - eapply renewed_rows_integrity; eauto.
  - exact Hsubs.
Qed.

Lemma renew_passes_rows k :
  forall db,
  NoDup (map sub_id (subscriptions db)) -> referential_integrity db ->
  subscriptions (renew_passes E now k db)
  = map (fun s => Nat.iter k (renew_row now) s) (subscriptions db).
Proof.
  induction k as [| k IH]; intros db Hnd Hri; cbn [renew_passes].
  - symmetry. apply map_id.
  - destruct (renewal_pass db Hnd Hri) as (Hnd1 & Hri1 & Hsubs).
    rewrite (IH _ Hnd1 Hri1), Hsubs, map_map. apply map_ext. intros s.
    symmetry. apply Nat.iter_succ_r.
Qed.

Lemma renew_row_idle k s : due now s = false -> Nat.iter k (renew_row now) s = s.
Proof.
  intros Hd. induction k as [| k IH]; [reflexivity |].
  rewrite Nat.iter_succ, IH. unfold renew_row. rewrite Hd. reflexivity.
Qed.

(** A row that is still due after [k] passes was renewed in each of them,
    and each renewal moved its period end on by at least 28 days. *)
Lemma renew_row_progress k :
  forall s,
  due now (Nat.iter k (renew_row now) s) = true ->
  currentPeriodEnd s + Z.of_nat k * (28 * JsDate.msPerDay)
  <= currentPeriodEnd (Nat.iter k (renew_row now) s).
Proof.
  induction k as [| k IH]; intros s Hd.
  - change (Nat.iter 0 (renew_row now) s) with s. lia.
  - rewrite Nat.iter_succ_r in *. specialize (IH ((renew_row now) s) Hd).
    destruct (due now s) eqn:Hs.
    + assert (currentPeriodEnd s + 28 * JsDate.msPerDay
              <= currentPeriodEnd ((renew_row now) s)).
      { unfold renew_row. rewrite Hs.
        cbn [renewed_row advance currentPeriodEnd]. unfold next_period_end.
        apply addMonths_at_least_28_days. unfold cycle_months.
        destruct (billingCycle s =? "yearly")%string; lia. }
      lia.
    + exfalso. unfold renew_row at 2 in Hd. rewrite Hs in Hd.
      rewrite (renew_row_idle k s Hs) in Hd. congruence.
Qed.

Lemma renew_passes_catch_up db lo :
  NoDup (map sub_id (subscriptions db)) -> referential_integrity db ->
  (forall s, In s (subscriptions db) -> lo <= currentPeriodEnd s) ->
  forall s,
    In s (subscriptions
            (renew_passes E now (Z.to_nat ((now - lo) / (28 * JsDate.msPerDay) + 1)) db)) ->
    due now s = false.
Proof.
  intros Hnd Hri Hlo s Hs.
  rewrite (renew_passes_rows _ db Hnd Hri) in Hs.
  apply in_map_iff in Hs as (s0 & <- & Hs0).
  destruct (due now (Nat.iter _ (renew_row now) s0)) eqn:Hd; [exfalso | reflexivity].
  pose proof (renew_row_progress _ s0 Hd) as Hp.
  specialize (Hlo s0 Hs0).
  assert (Hend : currentPeriodEnd (Nat.iter
                   (Z.to_nat ((now - lo) / (28 * JsDate.msPerDay) + 1)) (renew_row now) s0)
                 <= now).
  { unfold due in Hd. apply andb_true_iff in Hd as (_ & Hd). apply Z.leb_le. exact Hd. }
  unfold JsDate.msPerDay in *.
  assert (0 <= now - lo) by lia.
  rewrite Z2Nat.id in Hp by (Z.div_mod_to_equations; lia).
  Z.div_mod_to_equations. nia.
Qed.

End CatchUp.

(** X29.  The renewal job catches up.  Against a store that rejects
    nothing, with unique subscription ids and every subscription's plan and
    user present, running the job over and over at one instant [now] comes
    to an end: every renewal moves a period end on by at least 28 days, so
    after [(now - lo) / 28 days + 1] runs, where no period ends before
    [lo], no subscription is due any more and a further run renews
    nothing. *)
Theorem renewal_catches_up (E : Env) (now lo : instant) (db : DB) :
  healthy E ->
  NoDup (map sub_id (subscriptions db)) ->
  referential_integrity db ->
  (forall s, In s (subscriptions db) -> lo <= currentPeriodEnd s) ->
  (forall s,
     In s (subscriptions
             (renew_passes E now (Z.to_nat ((now - lo) / 2419200000 + 1)) db)) ->
     due now s = false)
  /\ exists summary,
       renewDueSubscriptions E now
         (renew_passes E now (Z.to_nat ((now - lo) / 2419200000 + 1)) db)
       = (Ok summary,
          renew_passes E now (Z.to_nat ((now - lo) / 2419200000 + 1)) db)
       /\ results summary = [] /\ renewed summary = 0%nat /\ failed summary = 0%nat.
Proof.
  intros Hh Hnd Hri Hlo.
  pose proof (renew_passes_catch_up E Hh now db lo Hnd Hri Hlo) as Hdone.
  change (28 * JsDate.msPerDay) with 2419200000 in Hdone.
  split; [exact Hdone |].
  set (db' := renew_passes E now (Z.to_nat ((now - lo) / 2419200000 + 1)) db) in *.
  assert (Hnone : filter (due now) (subscriptions db') = []).
  { apply filter_find_none.
    destruct (find (due now) (subscriptions db')) as [s |] eqn:Hf; [| reflexivity].
    apply find_some in Hf as (Hs & Hd). rewrite (Hdone s Hs) in Hd. discriminate. }
  pose proof (renewDueSubscriptions_run E now db') as Hrun.
  unfold subscription_findMany_due in Hrun. unfold_monad.
  rewrite Hh, Hnone in Hrun. cbn [with_plan_and_user] in Hrun. unfold ret in Hrun.
  destruct Hrun as (rs & db'' & Hrun & Ho).
  destruct rs as [| r rs]; cbn [loop_outcome] in Ho; [| contradiction].
  subst db''. eexists. split; [exact Hrun |]. repeat split.
Qed.

(** Run on 1 April, the job has caught up with the periods that ended in
    mid-February after two runs: a run renews each subscription once. *)
Lemma renewal_catches_up_witness :
  map currentPeriodEnd
    (subscriptions
       (renew_passes Example.E_ok Example.apr01
          (Z.to_nat ((Example.apr01 - JsDate.utc 2024 2 15 0 0) / 2419200000 + 1))
          Example.bob_paid))
  = [JsDate.utc 2024 4 15 10 0; JsDate.utc 2024 4 16 9 30]
  /\ Z.to_nat ((Example.apr01 - JsDate.utc 2024 2 15 0 0) / 2419200000 + 1) = 2%nat.
Proof.
  destruct (renewal_catches_up Example.E_ok Example.apr01 (JsDate.utc 2024 2 15 0 0)
              Example.bob_paid E_ok_healthy bob_paid_ids bob_paid_integrity) as (_ & _).
  - intros s Hs. vm_compute in Hs.
    destruct Hs as [<- | [<- | []]]; vm_compute; discriminate.
  - split; vm_compute; reflexivity.
Defined.

(** ** A payment dated in the past *)

Lemma filter_only {A} (p : A -> bool) (l : list A) (x : A) :
  NoDup l -> In x l -> p x = true ->
  (forall r, In r l -> p r = true -> r = x) ->
  filter p l = [x].
Proof.
  induction l as [| a l IH]; intros Hnd Hin Hx Hall; [contradiction |].
  inversion Hnd as [| ? ? Hnotin Hnd']; subst. cbn [filter].
  destruct Hin as [-> | Hin].
  - rewrite Hx. f_equal. apply filter_find_none.
    destruct (find p l) as [r |] eqn:Hf; [exfalso | reflexivity].
    apply find_some in Hf as (Hr & Hp).
    assert (r = x) by (apply Hall; [apply in_cons; assumption | assumption]).
    subst r. contradiction.
  - destruct (p a) eqn:Ha.
    + exfalso. assert (a = x) by (apply Hall; [apply in_eq | assumption]).
      subst a. contradiction.
    + apply IH; try assumption. intros r Hr. apply Hall. apply in_cons. assumption.
Qed.

Lemma find_plan_by_id (l : list Plan) (p : Plan) :
  NoDup (map plan_id l) -> In p l ->
  find (fun x => (plan_id x =? plan_id p)%string) l = Some p.
Proof.
  induction l as [| a l IH]; cbn [map In find]; intros Hnd Hin; [contradiction |].
  inversion Hnd as [| ? ? Hn Hnd']; subst.
  destruct (plan_id a =? plan_id p)%string eqn:Hk.
  - destruct Hin as [-> | Hin]; [reflexivity |].
    exfalso. apply Hn. apply String.eqb_eq in Hk. rewrite Hk. apply in_map. assumption.
  - destruct Hin as [-> | Hin]; [rewrite String.eqb_refl in Hk; discriminate | auto].
Qed.

(** X30.  The period of a confirmed payment starts at [paidAt], which the
    caller supplies, and the renewal job looks at the period end only.  So
    where plan ids are unique, a payment confirmed with a date so far back
    that its period has ended by [later] is renewed by a renewal run at
    [later] (against a store that rejects nothing): the payer is granted the
    plan's credits a second time, without a second receipt. *)
Theorem backdated_payment_is_renewed_at_once
    (E E' : Env) (now later : instant) (userId planCode : string)
    (paidAt : option instant) (ext : string) (options : Options) (db : DB)
    (res : ConfirmResult) (db1 : DB) :
  healthy E' -> Inv db -> referential_integrity db ->
  NoDup (map plan_id (plans db)) ->
  confirmPayment E now userId planCode paidAt ext options db = (Ok res, db1) ->
  currentPeriodEnd (cp_subscription res) <= later ->
  exists summary db2,
    renewDueSubscriptions E' later db1 = (Ok summary, db2)
    /\ In (sub_id (cp_subscription res)) (map rr_subscriptionId (results summary))
    /\ balance (sub_userId (cp_subscription res)) db2
       = balance (sub_userId (cp_subscription res)) db
         + creditsGranted res + creditsGranted res
    /\ List.length (billingHistory db2) = S (List.length (billingHistory db)).
Proof.
  intros Hh HI Hri Hplans Hrun Hback.
  pose proof (confirmPayment_Inv E now userId planCode paidAt ext options db HI) as HI1.
  rewrite Hrun in HI1. cbn [snd] in HI1.
  pose proof (confirmPayment_upsert E _ _ _ _ _ _ _ _ _ HI Hrun)
    as (user & plan & Hu & Hp & Husers & Hone & Hst & Hown & Hpl & _ & _ & _ & Hnc & _
        & Hup).
  apply confirmPayment_ok in Hrun as (user' & plan' & Hu' & Hp' & _ & Hg & Htx).
  rewrite Hu in Hu'. injection Hu' as <-. rewrite Hp in Hp'. injection Hp' as <-.
  apply confirm_transaction_ok in Htx as (_ & Hplans1 & _ & Hl & Hb & _).
  set (sub := cp_subscription res) in *.
  assert (Hplan_in : In plan (plans db)).
  { unfold plan_by_code in Hp. apply find_some in Hp. tauto. }
  assert (Huser_in : In user (users db)).
  { unfold user_of in Hu. apply find_some in Hu. tauto. }
  assert (Hsub_in : In sub (subscriptions db1)).
  { assert (In sub (active_subscriptions (user_id user) db1)) as Hin
      by (rewrite Hone; apply in_eq).
    apply filter_In in Hin. tauto. }
  assert (Hplan_of : plan_of sub db1 = Some plan).
  { unfold plan_of. rewrite Hplans1, Hpl. apply find_plan_by_id; assumption. }
  assert (Hri1 : referential_integrity db1).
  { intros s Hs. unfold plan_of, owner_of. rewrite Hplans1, Husers.
    assert (s = sub \/ In s (subscriptions db)) as [-> | Hold].
    { destruct (active_of (user_id user) db) as [s0 |].
      - destruct Hup as (_ & Hsubs). rewrite Hsubs in Hs.
        apply in_map_iff in Hs as (r & <- & Hr).
        destruct (sub_id r =? sub_id s0)%string; auto.
      - destruct Hup as (Hsubs & _). rewrite Hsubs in Hs.
        apply in_app_or in Hs as [Hs | [<- | []]]; auto. }
    - split.
      + unfold plan_of in Hplan_of. rewrite Hplans1 in Hplan_of. rewrite Hplan_of.
        discriminate.
      + rewrite Hown. intros Hnone. apply (find_none _ _ Hnone) in Huser_in.
        rewrite String.eqb_refl in Huser_in. discriminate.
    - apply (Hri s Hold). }
  assert (Hdue : due later sub = true).
  { unfold due. rewrite Hst, Hnc, String.eqb_refl. cbn [negb andb].
    apply Z.leb_le. exact Hback. }
  destruct (renewDueSubscriptions_healthy E' Hh later db1 (proj1 HI1) Hri1)
    as (summary & db2 & Hrenew & Hids & _ & _ & Hled & _ & _ & _ & Hbill & _).
  exists summary, db2. split; [exact Hrenew |]. split; [| split].
  - rewrite Hids. apply in_map. apply filter_In. auto.
  - rewrite (balance_append _ db1 db2 _ Hled), filter_map.
    rewrite (filter_only _ _ sub).
    + cbn [map sum_amounts fold_right renewal_grant cl_amount].
      unfold quota_of. rewrite Hplan_of.
      rewrite (balance_after_append (sub_userId sub) db db1 _ Hl) by (symmetry; exact Hown).
      cbn [cl_amount]. rewrite Hg. lia.
    + apply (NoDup_map_inv sub_id). apply filter_NoDup_ids. apply HI1.
    + apply filter_In. auto.
    + cbn [renewal_grant cl_userId]. apply String.eqb_refl.
    + intros r Hr Hmine. apply filter_In in Hr as (Hr & Hd).
      cbn [renewal_grant cl_userId] in Hmine.
      apply (active_unique db1 (sub_userId sub)); try assumption.
      * unfold is_active. rewrite Hmine. unfold due in Hd.
        apply andb_true_iff in Hd as (Hd & _). apply andb_true_iff in Hd as (Hd & _).
        exact Hd.
      * unfold is_active. rewrite Hst, !String.eqb_refl. reflexivity.
  - rewrite Hbill, Hb, length_app. cbn [List.length]. lia.
Qed.

(** Alice's payment for a month of Premium, confirmed on 15 January with the
    date of 1 December: the renewal run of the same day grants her another
    1000 credits. *)
Lemma backdated_payment_is_renewed_at_once_witness :
  exists res db1 summary db2,
    confirmPayment Example.E_ok Example.jan15 "clerk_alice" "Premium"
      (Some (JsDate.utc 2023 12 1 10 0)) "pi_0" Example.premium_monthly Example.with_bob
    = (Ok res, db1)
    /\ currentPeriodEnd (cp_subscription res) = JsDate.utc 2024 1 1 10 0
    /\ renewDueSubscriptions Example.E_ok Example.jan15 db1 = (Ok summary, db2)
    /\ balance "c3" db1 = 1000 /\ balance "c3" db2 = 2000.
Proof.
  destruct (confirmPayment Example.E_ok Example.jan15 "clerk_alice" "Premium"
              (Some (JsDate.utc 2023 12 1 10 0)) "pi_0" Example.premium_monthly
              Example.with_bob) as [[res | e] db1] eqn:Hc;
    [| vm_compute in Hc; discriminate Hc].
  assert (HI : Inv Example.with_bob).
  { unfold Example.with_bob, Example.with_alice.
    apply setupNewUser_Inv, setupNewUser_Inv. exact catalogue_Inv. }
  assert (Hri : referential_integrity Example.with_bob).
  { intros s Hs. vm_compute in Hs.
    destruct Hs as [<- | [<- | []]]; split; vm_compute; discriminate. }
  assert (Hplans : NoDup (map plan_id (plans Example.with_bob))).
  { vm_compute. repeat constructor; cbn; intuition discriminate. }
  assert (Hback : currentPeriodEnd (cp_subscription res) <= Example.jan15).
  { vm_compute in Hc. injection Hc as <- _. vm_compute. discriminate. }
  destruct (backdated_payment_is_renewed_at_once Example.E_ok Example.E_ok
              Example.jan15 Example.jan15 "clerk_alice" "Premium"
              (Some (JsDate.utc 2023 12 1 10 0)) "pi_0" Example.premium_monthly
              Example.with_bob res db1 E_ok_healthy HI Hri Hplans Hc Hback)
    as (summary & db2 & Hr & _).
  exists res, db1, summary, db2. split; [reflexivity |].
  vm_compute in Hc. injection Hc as <- <-.
  vm_compute in Hr. injection Hr as <- <-.
  vm_compute. repeat split.
Defined.
